(** * webhook-repo: the event pipeline of [app.py]

    A shallow embedding of [format_event], [github_webhook] and [get_events]
    of [src/app.py], with the Python values, exceptions and library calls
    they use, and the properties of the event pipeline proved over it.

    Conventions.
    - A Python [str] is a Rocq [string] holding its UTF-8 bytes (a [str]
      with a lone surrogate, which has no UTF-8 form, is outside the
      model).  Every character the program looks for (['Z'], ['/'],
      digits, [':'], ...) is ASCII, so searching and replacing bytes is
      searching and replacing characters.
    - A JSON / BSON value is a [value]; JSON numbers are integers here
      (floating point numbers are outside the model), of a size [str()]
      converts (the interpreter refuses integers of more than 4300 digits,
      in a payload as well).
    - A Python [dict] is an association list in insertion order, read with
      the first binding of a key.
    - A raised exception is the [Raise] case of [result]; [print] writes to
      the process output only and is left out.
    - What the program calls and the repository does not hold -- [repr] of
      a [str], [datetime.fromisoformat] and the MongoDB collection -- is a
      [platform]: a record of functions.  The program is embedded over an
      arbitrary platform, and what a property needs of the libraries is an
      assumption stated in the section, which [reference], a platform
      written out in full, meets; the examples are run on [reference].
    - A document of the collection is modelled by the fields the handler
      gave it: the [_id] the store adds to every document is metadata the
      program never reads or writes, and is left out. *)

From Stdlib Require Import ZArith List String Ascii Bool Lia.
From Stdlib Require Import Sorted Permutation DecimalString DecimalZ DecimalPos.
Import ListNotations.

Local Open Scope string_scope.
Local Open Scope Z_scope.

Set Warnings "-register-all".

(** ** Python values and exceptions *)

Module Py.

(** The exceptions of the program's own operations by name, and [Other]
    for any other class, such as the ones the database driver raises. *)
Inductive exn : Type :=
| KeyError
| ValueError
| TypeError
| AttributeError
| IndexError
| Other (class_name : string).

Inductive result (A : Type) : Type :=
| Ok (a : A)
| Raise (e : exn).

Arguments Ok {A} a.
Arguments Raise {A} e.

Definition bind {A B : Type} (c : result A) (k : A -> result B) : result B :=
  match c with
  | Ok a => k a
  | Raise e => Raise e
  end.

Inductive value : Type :=
| VNone
| VBool (b : bool)
| VInt (z : Z)
| VStr (s : string)
| VList (l : list value)
| VDict (d : list (string * value)).

Definition dict : Type := list (string * value).

(** Induction over values that reaches inside lists and dicts. *)
Section value_rect_nested.
Variable P : value -> Prop.
Hypothesis HNone : P VNone.
Hypothesis HBool : forall b, P (VBool b).
Hypothesis HInt : forall z, P (VInt z).
Hypothesis HStr : forall s, P (VStr s).
Hypothesis HList : forall l, Forall P l -> P (VList l).
Hypothesis HDict : forall d, Forall (fun kv => P (snd kv)) d -> P (VDict d).

Fixpoint value_ind_nested (v : value) : P v :=
  match v with
  | VNone => HNone
  | VBool b => HBool b
  | VInt z => HInt z
  | VStr s => HStr s
  | VList l =>
      HList l ((fix go (l : list value) : Forall P l :=
                  match l with
                  | [] => Forall_nil P
                  | x :: l' => Forall_cons x (value_ind_nested x) (go l')
                  end) l)
  | VDict d =>
      HDict d ((fix go (d : dict) : Forall (fun kv => P (snd kv)) d :=
                  match d with
                  | [] => Forall_nil _
                  | kv :: d' =>
                      Forall_cons kv (value_ind_nested (snd kv)) (go d')
                  end) d)
  end.
End value_rect_nested.

(** [bool(v)]: the truth value Python's [if v] and [not v] test. *)
Definition truthy (v : value) : bool :=
  match v with
  | VNone => false
  | VBool b => b
  | VInt z => negb (z =? 0)
  | VStr s => negb (s =? "")%string
  | VList l => match l with [] => false | _ => true end
  | VDict d => match d with [] => false | _ => true end
  end.

(** The first binding of [k] in a dict. *)
Fixpoint lookup (k : string) (d : dict) : option value :=
  match d with
  | [] => None
  | (k', v) :: d' => if (k' =? k)%string then Some v else lookup k d'
  end.

(** [d[k]] with a [str] key on a dict. *)
Definition dict_getitem (d : dict) (k : string) : result value :=
  match lookup k d with
  | Some v => Ok v
  | None => Raise KeyError
  end.

(** [d.get(k, default)] on a dict. *)
Definition dict_get (d : dict) (k : string) (default : value) : value :=
  match lookup k d with
  | Some v => v
  | None => default
  end.

(** [v[k]] with a [str] key on any value: only a dict can be indexed by a
    string; a [str] or a list wants an integer index and the other values
    are not subscriptable, a [TypeError] each. *)
Definition getitem (v : value) (k : string) : result value :=
  match v with
  | VDict d => dict_getitem d k
  | _ => Raise TypeError
  end.

(** [v.get(k, default)] on any value: only a dict has the method. *)
Definition get (v : value) (k : string) (default : value) : result value :=
  match v with
  | VDict d => Ok (dict_get d k default)
  | _ => Raise AttributeError
  end.

(** [v == s] for a [str] literal [s]. *)
Definition eq_str (v : value) (s : string) : bool :=
  match v with
  | VStr s' => (s' =? s)%string
  | _ => false
  end.

(** [s.replace(old, new)] for a one-character [old]: every occurrence is
    replaced. *)
Fixpoint str_replace (old : ascii) (new : string) (s : string) : string :=
  match s with
  | EmptyString => EmptyString
  | String c s' =>
      if (c =? old)%char then new ++ str_replace old new s'
      else String c (str_replace old new s')
  end.

(** [v.replace(old, new)]: a method of [str] only. *)
Definition replace (v : value) (old : ascii) (new : string) : result string :=
  match v with
  | VStr s => Ok (str_replace old new s)
  | _ => Raise AttributeError
  end.

(** [s.split(sep)] for a one-character [sep]. *)
Fixpoint str_split (sep : ascii) (s : string) : list string :=
  match s with
  | EmptyString => [EmptyString]
  | String c s' =>
      if (c =? sep)%char then EmptyString :: str_split sep s'
      else match str_split sep s' with
           | h :: t => String c h :: t
           | [] => [String c EmptyString]
           end
  end.

(** [v.split(sep)]: a method of [str] only. *)
Definition split (v : value) (sep : ascii) : result (list string) :=
  match v with
  | VStr s => Ok (str_split sep s)
  | _ => Raise AttributeError
  end.

(** [l[-1]]. *)
Fixpoint getitem_last {A : Type} (l : list A) : result A :=
  match l with
  | [] => Raise IndexError
  | [x] => Ok x
  | _ :: l' => getitem_last l'
  end.

(** [str(z)] for an [int]. *)
Definition str_int (z : Z) : string := NilZero.string_of_int (Z.to_int z).

Fixpoint contains_char (c : ascii) (s : string) : bool :=
  match s with
  | EmptyString => false
  | String c' s' => (c' =? c)%char || contains_char c s'
  end.

(** Equality of two values, field by field. *)
Fixpoint value_eqb (a b : value) {struct a} : bool :=
  match a, b with
  | VNone, VNone => true
  | VBool x, VBool y => Bool.eqb x y
  | VInt x, VInt y => (x =? y)%Z
  | VStr x, VStr y => (x =? y)%string
  | VList x, VList y =>
      (fix go (l1 l2 : list value) : bool :=
         match l1, l2 with
         | [], [] => true
         | v1 :: l1', v2 :: l2' => value_eqb v1 v2 && go l1' l2'
         | _, _ => false
         end) x y
  | VDict x, VDict y =>
      (fix go (d1 d2 : dict) : bool :=
         match d1, d2 with
         | [], [] => true
         | kv1 :: d1', kv2 :: d2' =>
             (fst kv1 =? fst kv2)%string && value_eqb (snd kv1) (snd kv2)
             && go d1' d2'
         | _, _ => false
         end) x y
  | _, _ => false
  end.

End Py.

Import Py.

Declare Scope py_scope.
Delimit Scope py_scope with py.
Notation "x <- c ;; k" := (bind c (fun x => k))
  (at level 100, c at next level, right associativity) : py_scope.
Local Open Scope py_scope.

(** ** [datetime]

    A [datetime] object, the range checks of its constructor, and
    [strftime] for the one format string the program uses. *)

Module Datetime.

Record datetime : Type := mkDatetime {
  year : Z;
  month : Z;
  day : Z;
  hour : Z;
  minute : Z;
  second : Z;
  microsecond : Z;
  tzinfo : option Z   (* the UTC offset in microseconds, when aware *)
}.

Definition digit_val (c : ascii) : option Z :=
  let n := nat_of_ascii c in
  if ((48 <=? n) && (n <=? 57))%nat then Some (Z.of_nat (n - 48)) else None.

(** Reads exactly [n] decimal digits from the front of [s]. *)
Fixpoint parse_digits (n : nat) (acc : Z) (s : string) : option (Z * string) :=
  match n with
  | O => Some (acc, s)
  | S n' =>
      match s with
      | EmptyString => None
      | String c s' =>
          match digit_val c with
          | Some d => parse_digits n' (10 * acc + d) s'
          | None => None
          end
      end
  end.

Definition is_leap (y : Z) : bool :=
  ((y mod 4 =? 0) && negb (y mod 100 =? 0)) || (y mod 400 =? 0).

Definition days_in_month (y m : Z) : Z :=
  match m with
  | 2 => if is_leap y then 29 else 28
  | 4 | 6 | 9 | 11 => 30
  | _ => 31
  end.

(** The range checks of the [datetime] constructor. *)
Definition valid_fields (y mo d h mi s us : Z) : bool :=
  (1 <=? y) && (y <=? 9999) && (1 <=? mo) && (mo <=? 12) &&
  (1 <=? d) && (d <=? days_in_month y mo) &&
  (0 <=? h) && (h <=? 23) && (0 <=? mi) && (mi <=? 59) &&
  (0 <=? s) && (s <=? 59) && (0 <=? us) && (us <=? 999999).

(** *** [strftime("%d %B %Y - %I:%M %p UTC")] *)

Definition digit_char (n : Z) : ascii := ascii_of_nat (48 + Z.to_nat (n mod 10)).

(** [%d], [%I], [%M]: two digits, zero-padded. *)
Definition fmt2 (n : Z) : string :=
  String (digit_char (n / 10)) (String (digit_char n) "").

(** Four digits, zero-padded: the year as [isoformat] writes it. *)
Definition fmt4 (n : Z) : string :=
  String (digit_char (n / 1000)) (String (digit_char (n / 100)) (fmt2 n)).

(** [%Y]: the year in decimal as the C library under the interpreter
    prints it, which is without padding: a year below 1000 takes fewer
    than four digits. *)
Definition fmt_year (y : Z) : string :=
  if y <? 10 then String (digit_char y) ""
  else if y <? 100 then fmt2 y
  else if y <? 1000 then String (digit_char (y / 100)) (fmt2 y)
  else fmt4 y.

Definition month_names : list string :=
  ["January"; "February"; "March"; "April"; "May"; "June"; "July";
   "August"; "September"; "October"; "November"; "December"].

(** [%B] in the C locale. *)
Definition month_name (m : Z) : string := nth (Z.to_nat (m - 1)) month_names "".

(** [%I]: the hour on a 12-hour clock, 12 for midnight and noon. *)
Definition hour12 (h : Z) : Z := if h mod 12 =? 0 then 12 else h mod 12.

(** [%p] in the C locale. *)
Definition am_pm (h : Z) : string := if h <? 12 then "AM" else "PM".

Definition strftime (dt : datetime) : string :=
  fmt2 (day dt) ++ " " ++ month_name (month dt) ++ " " ++ fmt_year (year dt)
  ++ " - " ++ fmt2 (hour12 (hour dt)) ++ ":" ++ fmt2 (minute dt)
  ++ " " ++ am_pm (hour dt) ++ " UTC".

End Datetime.

Import Datetime.

(** ** The [events] collection *)

Module Mongo.

(** A collection is the sequence of its documents in insertion order. *)
Definition collection : Type := list dict.

(** The value of a field of a document, null when the field is missing. *)
Definition field (doc : dict) (k : string) : value := dict_get doc k VNone.

(** [cursor.limit(n)]. *)
Definition limit (n : nat) (c : collection) : collection := firstn n c.

End Mongo.

Import Mongo.

(** ** The libraries behind the program

    The three things the program calls and the repository does not hold.
    Each is a function of what the program passes, and nothing more is
    fixed here: which strings [fromisoformat] accepts is the interpreter's
    business, and how a filter is matched, which documents are refused and
    how values of different types are ordered is the store's. *)

Record platform : Type := mkPlatform {
  (* [repr(s)] of a [str], which [str()] of a list or dict holding [s]
     shows. *)
  py_repr_str : string -> string;
  (* [datetime.fromisoformat(s)]: the date-time read, [None] for the
     [ValueError] it raises on a string it does not accept. *)
  py_fromisoformat : string -> option datetime;
  (* [collection.find_one(filter)]: a document that matches, [None] when
     none does, or the exception of a filter the store refuses. *)
  db_find_one : collection -> dict -> result (option dict);
  (* The exception with which [collection.insert_one(doc)] refuses the
     document, when it does (a value BSON cannot hold, a document too
     large, ...). *)
  db_insert_refused : collection -> dict -> option exn;
  (* [collection.find().sort(key, DESCENDING)]: the documents, the
     greatest [key] first. *)
  db_sort_descending : string -> collection -> collection
}.

(** ** A reference platform

    A platform written out in full: [repr] as Python writes it for a string
    of ASCII characters; [fromisoformat] for the strings
    [datetime.isoformat] produces,
    [YYYY-MM-DD[*HH[:MM[:SS[.fff[fff]]]][+HH:MM[:SS[.ffffff]]]]] where [*] is
    any single character, which is the least that every version of the
    library accepts; and a store that matches a filter by equality, reads
    the one operator [$ne], refuses no document and orders values type by
    type.  It is not the libraries themselves: it is a platform that meets
    the assumptions the properties make of them, on which the examples are
    run. *)

Module Reference.

(** *** [repr] of a [str] *)

Definition quote1 : ascii := "'"%char.
Definition quote2 : ascii := ascii_of_nat 34.
Definition backslash : ascii := "\"%char.

Definition hex_digit (n : nat) : ascii :=
  match String.get n "0123456789abcdef" with
  | Some c => c
  | None => "0"%char
  end.

(** One character of [repr(s)] inside the quote [q]; bytes from 128 up
    are copied. *)
Definition repr_char (q c : ascii) : string :=
  let n := nat_of_ascii c in
  if (c =? backslash)%char then String backslash (String backslash "")
  else if (c =? q)%char then String backslash (String q "")
  else if (n =? 9)%nat then String backslash "t"
  else if (n =? 10)%nat then String backslash "n"
  else if (n =? 13)%nat then String backslash "r"
  else if ((n <? 32) || (n =? 127))%nat then
    String backslash
      (String "x" (String (hex_digit (n / 16)) (String (hex_digit (n mod 16)) "")))
  else String c "".

Fixpoint repr_chars (q : ascii) (s : string) : string :=
  match s with
  | EmptyString => EmptyString
  | String c s' => repr_char q c ++ repr_chars q s'
  end.

(** [repr(s)]: single quotes, unless [s] holds a single quote and no double
    quote. *)
Definition repr_str (s : string) : string :=
  let q := if contains_char quote1 s && negb (contains_char quote2 s)
           then quote2 else quote1 in
  String q (repr_chars q s ++ String q "").

(** *** [datetime.fromisoformat] *)

(** [YYYY-MM-DD] at the front of the string; the rest is returned. *)
Definition parse_isoformat_date (s : string) : option (Z * Z * Z * string) :=
  match parse_digits 4 0 s with
  | Some (y, String "-" s1) =>
      match parse_digits 2 0 s1 with
      | Some (m, String "-" s2) =>
          match parse_digits 2 0 s2 with
          | Some (d, rest) => Some (y, m, d, rest)
          | None => None
          end
      | _ => None
      end
  | _ => None
  end.

(** [.fff] or [.ffffff] up to the end of the string, in microseconds. *)
Definition parse_fraction (f : string) : option Z :=
  match String.length f with
  | 3%nat => match parse_digits 3 0 f with
             | Some (us, _) => Some (us * 1000)
             | None => None
             end
  | 6%nat => match parse_digits 6 0 f with
             | Some (us, _) => Some us
             | None => None
             end
  | _ => None
  end.

(** [HH[:MM[:SS[.fff[fff]]]]], the whole string. *)
Definition parse_hh_mm_ss_ff (s : string) : option (Z * Z * Z * Z) :=
  match parse_digits 2 0 s with
  | Some (h, EmptyString) => Some (h, 0, 0, 0)
  | Some (h, String ":" s1) =>
      match parse_digits 2 0 s1 with
      | Some (m, EmptyString) => Some (h, m, 0, 0)
      | Some (m, String ":" s2) =>
          match parse_digits 2 0 s2 with
          | Some (sec, EmptyString) => Some (h, m, sec, 0)
          | Some (sec, String "." f) =>
              match parse_fraction f with
              | Some us => Some (h, m, sec, us)
              | None => None
              end
          | _ => None
          end
      | _ => None
      end
  | _ => None
  end.

(** Splits a time string at its first ['+'] or ['-']: the part before it,
    and the sign with the part after it when there is one. *)
Fixpoint split_tz (s : string) : string * option (Z * string) :=
  match s with
  | EmptyString => (EmptyString, None)
  | String c s' =>
      if (c =? "+")%char then (EmptyString, Some (1, s'))
      else if (c =? "-")%char then (EmptyString, Some (-1, s'))
      else let '(t, tz) := split_tz s' in (String c t, tz)
  end.

Definition usec_per_day : Z := 24 * 3600 * 1000000.

(** The offset of [+HH:MM], [+HH:MM:SS] or [+HH:MM:SS.ffffff]; [timezone]
    refuses an offset of a day or more. *)
Definition parse_tz (sign : Z) (tzstr : string) : option Z :=
  let n := String.length tzstr in
  if ((n =? 5) || (n =? 8) || (n =? 15))%nat then
    match parse_hh_mm_ss_ff tzstr with
    | Some (h, m, s, us) =>
        let off := sign * (((h * 60 + m) * 60 + s) * 1000000 + us) in
        if Z.abs off <? usec_per_day then Some off else None
    | None => None
    end
  else None.

(** The time part: [(hour, minute, second, microsecond, tzinfo)]. *)
Definition parse_isoformat_time (tstr : string)
  : option (Z * Z * Z * Z * option Z) :=
  let '(timestr, tz) := split_tz tstr in
  match parse_hh_mm_ss_ff timestr with
  | Some (h, m, s, us) =>
      match tz with
      | None => Some (h, m, s, us, None)
      | Some (sign, tzstr) =>
          match parse_tz sign tzstr with
          | Some off => Some (h, m, s, us, Some off)
          | None => None
          end
      end
  | None => None
  end.

(** Drops the one character standing between date and time: 1 to 4 bytes
    of UTF-8, by its first byte. *)
Definition skip_separator (s : string) : string :=
  match s with
  | EmptyString => EmptyString
  | String c s' =>
      let n := nat_of_ascii c in
      if (n <? 128)%nat then s'
      else if (n <? 224)%nat then String.substring 1 (String.length s') s'
      else if (n <? 240)%nat then String.substring 2 (String.length s') s'
      else String.substring 3 (String.length s') s'
  end.

(** [None] is the library's [ValueError]. *)
Definition fromisoformat (date_string : string) : option datetime :=
  match parse_isoformat_date date_string with
  | None => None
  | Some (y, mo, d, rest) =>
      let fields :=
        match rest with
        | EmptyString => Some (0, 0, 0, 0, None)
        | _ => parse_isoformat_time (skip_separator rest)
        end in
      match fields with
      | Some (h, mi, s, us, tz) =>
          if valid_fields y mo d h mi s us
          then Some (mkDatetime y mo d h mi s us tz)
          else None
      | None => None
      end
  end.

(** *** The store *)

(** A value of a filter against the value of the document's field: the
    object [{"$ne": v}] asks for a field that differs from [v], anything
    else for a field equal to it. *)
Definition matches_value (q stored : value) : bool :=
  match q with
  | VDict [(op, v)] =>
      if (op =? "$ne")%string then negb (value_eqb stored v)
      else value_eqb stored q
  | _ => value_eqb stored q
  end.

Definition matches (query : dict) (doc : dict) : bool :=
  forallb (fun kv => matches_value (snd kv) (field doc (fst kv))) query.

Definition find_one (c : collection) (query : dict) : result (option dict) :=
  Ok (List.find (matches query) c).

Definition insert_refused (c : collection) (doc : dict) : option exn := None.

(** The bracket of a value in the order of the sort: null, numbers,
    strings, objects, arrays, booleans. *)
Definition bracket (v : value) : Z :=
  match v with
  | VNone => 1
  | VInt _ => 2
  | VStr _ => 3
  | VDict _ => 4
  | VList _ => 5
  | VBool _ => 6
  end.

(** [leb a b]: [a] sorts no later than [b] in ascending order.  Brackets
    first; inside a bracket numbers by value, strings byte by byte, [false]
    before [true], and any two objects or arrays as equals. *)
Definition leb (a b : value) : bool :=
  if bracket a <? bracket b then true
  else if bracket b <? bracket a then false
  else match a, b with
       | VInt x, VInt y => x <=? y
       | VStr x, VStr y => String.leb x y
       | VBool x, VBool y => implb x y
       | _, _ => true
       end.

Section sorting.
Variable key : string.

(** [a] may stand before [b] in a list sorted on [key], greatest first. *)
Definition sorts_before (a b : dict) : Prop :=
  leb (field b key) (field a key) = true.

(** [insert_desc doc l] keeps a list sorted greatest first, and puts
    [doc] before the first document it is not smaller than. *)
Fixpoint insert_desc (doc : dict) (l : collection) : collection :=
  match l with
  | [] => [doc]
  | d :: l' =>
      if leb (field d key) (field doc key) then doc :: d :: l'
      else d :: insert_desc doc l'
  end.

Fixpoint sort_descending (c : collection) : collection :=
  match c with
  | [] => []
  | doc :: c' => insert_desc doc (sort_descending c')
  end.
End sorting.

End Reference.

Definition reference : platform :=
  mkPlatform Reference.repr_str Reference.fromisoformat Reference.find_one
    Reference.insert_refused Reference.sort_descending.

(** * [app.py] *)

Section app.

(** The platform the program runs on. *)
Variable pf : platform.

(** ** [str()] and [repr()] *)

Fixpoint repr (v : value) : string :=
  match v with
  | VNone => "None"
  | VBool true => "True"
  | VBool false => "False"
  | VInt z => str_int z
  | VStr s => py_repr_str pf s
  | VList l => "[" ++ String.concat ", " (map repr l) ++ "]"
  | VDict d =>
      "{" ++ String.concat ", "
               (map (fun kv => py_repr_str pf (fst kv) ++ ": " ++ repr (snd kv)) d)
          ++ "}"
  end.

(** [str(v)], which is also what an f-string field [{v}] inserts. *)
Definition str (v : value) : string :=
  match v with
  | VStr s => s
  | _ => repr v
  end.

(** ** The library calls *)

(** [datetime.fromisoformat(date_string)] on a [str]: what it raises is
    [ValueError]. *)
Definition fromisoformat (date_string : string) : result datetime :=
  match py_fromisoformat pf date_string with
  | Some dt => Ok dt
  | None => Raise ValueError
  end.

(** [events_collection.find_one(query)]. *)
Definition find_one (events_collection : collection) (query : dict)
  : result (option dict) :=
  db_find_one pf events_collection query.

(** [events_collection.insert_one(doc)]: the collection with the document
    at its end, unless the store refuses the document. *)
Definition insert_one (events_collection : collection) (doc : dict)
  : result collection :=
  match db_insert_refused pf events_collection doc with
  | Some e => Raise e
  | None => Ok (events_collection ++ [doc])%list
  end.

(** [events_collection.find().sort(key, DESCENDING)]. *)
Definition sort_descending (key : string) (events_collection : collection)
  : collection :=
  db_sort_descending pf key events_collection.

(** ** [format_event] *)

(** Lines 50-57: the sentence chosen by [action]. *)
Definition sentence (author action from_branch to_branch : value)
    (timestamp : string) : string :=
  if eq_str action "PUSH" then
    str author ++ " pushed to " ++ str to_branch ++ " on " ++ timestamp
  else if eq_str action "PULL_REQUEST" then
    str author ++ " submitted a pull request from " ++ str from_branch
    ++ " to " ++ str to_branch ++ " on " ++ timestamp
  else if eq_str action "MERGE" then
    str author ++ " merged branch " ++ str from_branch
    ++ " to " ++ str to_branch ++ " on " ++ timestamp
  else "Unknown action: " ++ str action ++ " by " ++ str author.

(** [format_event(event_data)], lines 25-62.  The body of the [try] is
    [format_event_body]; [except (ValueError, KeyError)] catches these two
    exceptions and lets every other one through. *)
Definition format_event_body (event_data : dict) : result string :=
  author <- dict_getitem event_data "author" ;;
  action <- dict_getitem event_data "action" ;;
  let from_branch := dict_get event_data "from_branch" (VStr "") in
  let to_branch := dict_get event_data "to_branch" (VStr "") in
  let raw_timestamp := dict_get event_data "timestamp" VNone in
  if negb (truthy raw_timestamp) then Ok "Event with missing timestamp"
  else
    iso <- replace raw_timestamp "Z" "+00:00" ;;
    parsed_time <- fromisoformat iso ;;
    let timestamp := strftime parsed_time in
    Ok (sentence author action from_branch to_branch timestamp).

Definition data_error (event_data : dict) : string :=
  "Could not display event due to a data error: "
  ++ str (dict_get event_data "request_id" (VStr "Unknown ID")).

Definition format_event (event_data : dict) : result string :=
  match format_event_body event_data with
  | Raise ValueError | Raise KeyError => Ok (data_error event_data)
  | r => r
  end.

(** ** [github_webhook] *)

(** [github_webhook()], lines 66-125.  [request.json] is [data],
    the [X-GitHub-Event] header is [event_type] ([None] when the request has
    none), and the collection is passed in and returned. *)

Record response : Type := mkResponse { status : string; code : Z }.

(** Lines 72-115 either return early or leave a value in [event_doc]. *)
Inductive flow : Type :=
| Return (r : response)
| Continue (event_doc : value).

Definition event_type_is (event_type : option string) (s : string) : bool :=
  match event_type with
  | Some t => (t =? s)%string
  | None => false
  end.

Definition push_event (data : value) : result flow :=
  head_commit <- get data "head_commit" VNone ;;
  if negb (truthy head_commit) then
    Ok (Return (mkResponse "ignored, no head_commit" 200))
  else
    pusher_obj <- getitem data "pusher" ;;
    pusher <- getitem pusher_obj "name" ;;
    ref <- getitem data "ref" ;;
    parts <- split ref "/" ;;
    to_branch <- getitem_last parts ;;
    commit_hash <- getitem data "after" ;;
    head_commit' <- getitem data "head_commit" ;;
    timestamp <- getitem head_commit' "timestamp" ;;
    Ok (Continue (VDict
      [ ("request_id", commit_hash);
        ("author", pusher);
        ("action", VStr "PUSH");
        ("from_branch", VStr "");
        ("to_branch", VStr to_branch);
        ("timestamp", timestamp) ])).

Definition opened_event (pr_data : value) : result flow :=
  id <- getitem pr_data "id" ;;
  user <- getitem pr_data "user" ;;
  login <- getitem user "login" ;;
  head <- getitem pr_data "head" ;;
  head_ref <- getitem head "ref" ;;
  base <- getitem pr_data "base" ;;
  base_ref <- getitem base "ref" ;;
  created_at <- getitem pr_data "created_at" ;;
  Ok (Continue (VDict
    [ ("request_id", VStr (str id));
      ("author", login);
      ("action", VStr "PULL_REQUEST");
      ("from_branch", head_ref);
      ("to_branch", base_ref);
      ("timestamp", created_at) ])).

Definition merged_event (pr_data : value) : result flow :=
  id <- getitem pr_data "id" ;;
  merged_by <- get pr_data "merged_by" (VDict []) ;;
  author <- get merged_by "login" (VStr "Unknown") ;;
  head <- getitem pr_data "head" ;;
  head_ref <- getitem head "ref" ;;
  base <- getitem pr_data "base" ;;
  base_ref <- getitem base "ref" ;;
  merged_at <- getitem pr_data "merged_at" ;;
  Ok (Continue (VDict
    [ ("request_id", VStr (str id));
      ("author", author);
      ("action", VStr "MERGE");
      ("from_branch", head_ref);
      ("to_branch", base_ref);
      ("timestamp", merged_at) ])).

Definition pull_request_event (data : value) : result flow :=
  action <- get data "action" VNone ;;
  pr_data <- get data "pull_request" (VDict []) ;;
  if eq_str action "opened" then opened_event pr_data
  else if eq_str action "closed" then
    merged <- get pr_data "merged" VNone ;;
    if truthy merged then merged_event pr_data
    else Ok (Continue VNone)
  else Ok (Continue VNone).

(** Lines 72-115: the normalization of the inbound event. *)
Definition normalize_event (event_type : option string) (data : value)
  : result flow :=
  if event_type_is event_type "push" then push_event data
  else if event_type_is event_type "pull_request" then pull_request_event data
  else Ok (Continue VNone).

Definition success : response := mkResponse "success" 200.

(** Lines 117-125: the duplicate check and the insert.  A document the
    store returns is never empty (it holds its [_id]), so
    [not find_one(...)] is true exactly when nothing was found. *)
Definition store_event (events_collection : collection) (event_doc : value)
  : result response * collection :=
  if truthy event_doc then
    match getitem event_doc "request_id" with
    | Raise e => (Raise e, events_collection)
    | Ok request_id =>
        match getitem event_doc "action" with
        | Raise e => (Raise e, events_collection)
        | Ok action =>
            match find_one events_collection
                    [("request_id", request_id); ("action", action)] with
            | Raise e => (Raise e, events_collection)
            | Ok (Some _) => (Ok success, events_collection)
            | Ok None =>
                match event_doc with
                | VDict doc =>
                    match insert_one events_collection doc with
                    | Ok c => (Ok success, c)
                    | Raise e => (Raise e, events_collection)
                    end
                | _ => (Raise TypeError, events_collection)
                end
            end
        end
    end
  else (Ok success, events_collection).

Definition github_webhook (events_collection : collection)
    (event_type : option string) (data : value)
  : result response * collection :=
  match normalize_event event_type data with
  | Raise e => (Raise e, events_collection)
  | Ok (Return r) => (Ok r, events_collection)
  | Ok (Continue event_doc) => store_event events_collection event_doc
  end.

(** ** [get_events] *)

(** Lines 127-136: the list comprehension stops at the first document
    whose formatting raises. *)
Fixpoint format_all (events : list dict) : result (list string) :=
  match events with
  | [] => Ok []
  | event :: rest =>
      s <- format_event event ;;
      l <- format_all rest ;;
      Ok (s :: l)
  end.

Definition events_from_db (events_collection : collection) : list dict :=
  limit 10 (sort_descending "timestamp" events_collection).

Definition get_events (events_collection : collection) : result (list string) :=
  format_all (events_from_db events_collection).

(** * Notions the properties are stated with *)

(** ** Payloads and records of the scenarios *)

Definition push_payload : value :=
  VDict [ ("ref", VStr "refs/heads/main");
          ("after", VStr "abc123");
          ("pusher", VDict [("name", VStr "alice")]);
          ("head_commit", VDict [("timestamp", VStr "2024-03-01T10:15:00Z")]) ].

Definition push_record : dict :=
  [ ("request_id", VStr "abc123");
    ("author", VStr "alice");
    ("action", VStr "PUSH");
    ("from_branch", VStr "");
    ("to_branch", VStr "main");
    ("timestamp", VStr "2024-03-01T10:15:00Z") ].

Definition opened_payload : value :=
  VDict [ ("action", VStr "opened");
          ("pull_request",
           VDict [ ("id", VInt 42);
                   ("user", VDict [("login", VStr "bob")]);
                   ("head", VDict [("ref", VStr "feature-x")]);
                   ("base", VDict [("ref", VStr "main")]);
                   ("created_at", VStr "2024-03-02T08:00:00+00:00") ]) ].

(** A push whose head commit carries a number where the timestamp string is
    expected, and the record the handler stores for it. *)
Definition numeric_timestamp_payload : value :=
  VDict [ ("ref", VStr "refs/heads/main");
          ("after", VStr "abc123");
          ("pusher", VDict [("name", VStr "alice")]);
          ("head_commit", VDict [("timestamp", VInt 1709288100)]) ].

Definition numeric_timestamp_record : dict :=
  [ ("request_id", VStr "abc123");
    ("author", VStr "alice");
    ("action", VStr "PUSH");
    ("from_branch", VStr "");
    ("to_branch", VStr "main");
    ("timestamp", VInt 1709288100) ].

(** ** Normalization *)

(** The last of the segments of [ref] between slashes. *)
Definition last_segment (ref : string) : string :=
  List.last (str_split "/" ref) "".

(** The record the handler builds for a push. *)
Definition push_doc (commit_hash pusher : value) (to_branch : string)
    (timestamp : value) : dict :=
  [ ("request_id", commit_hash);
    ("author", pusher);
    ("action", VStr "PUSH");
    ("from_branch", VStr "");
    ("to_branch", VStr to_branch);
    ("timestamp", timestamp) ].

Definition ignored : response := mkResponse "ignored, no head_commit" 200.

(** The records the handler builds for a pull request. *)
Definition opened_doc (id login head_ref base_ref created_at : value) : dict :=
  [ ("request_id", VStr (str id));
    ("author", login);
    ("action", VStr "PULL_REQUEST");
    ("from_branch", head_ref);
    ("to_branch", base_ref);
    ("timestamp", created_at) ].

Definition merge_doc (id author head_ref base_ref merged_at : value) : dict :=
  [ ("request_id", VStr (str id));
    ("author", author);
    ("action", VStr "MERGE");
    ("from_branch", head_ref);
    ("to_branch", base_ref);
    ("timestamp", merged_at) ].

(** [pr_data.get('merged_by', {}).get('login', 'Unknown')] where it
    returns. *)
Definition merged_author (pr : dict) (author : value) : Prop :=
  (lookup "merged_by" pr = None /\ author = VStr "Unknown")
  \/ (exists m, lookup "merged_by" pr = Some (VDict m)
                /\ lookup "login" m = None /\ author = VStr "Unknown")
  \/ (exists m, lookup "merged_by" pr = Some (VDict m)
                /\ lookup "login" m = Some author).

(** Pull requests closed by a merge: merged by [carol], and with a null
    [merged_by]. *)
Definition merged_pull_request : dict :=
  [ ("id", VInt 42);
    ("merged", VBool true);
    ("merged_by", VDict [("login", VStr "carol")]);
    ("head", VDict [("ref", VStr "feature-x")]);
    ("base", VDict [("ref", VStr "main")]);
    ("merged_at", VStr "2024-03-03T09:30:00Z") ].

Definition closed_payload (pr : dict) : dict :=
  [("action", VStr "closed"); ("pull_request", VDict pr)].

Definition null_merged_by_pull_request : dict :=
  [ ("id", VInt 42);
    ("merged", VBool true);
    ("merged_by", VNone);
    ("head", VDict [("ref", VStr "feature-x")]);
    ("base", VDict [("ref", VStr "main")]);
    ("merged_at", VStr "2024-03-03T09:30:00Z") ].

(** [lacks v path]: following [path] down from [v], some key is not there
    to be read, because the mapping reached has no such key or because what
    is reached is no mapping. *)
Fixpoint lacks (v : value) (path : list string) : bool :=
  match path with
  | [] => false
  | k :: path' =>
      match v with
      | VDict d =>
          match lookup k d with
          | Some x => lacks x path'
          | None => true
          end
      | _ => true
      end
  end.

(** The sub-fields each rule reads without a default. *)
Definition push_required : list (list string) :=
  [["pusher"; "name"]; ["ref"]; ["after"]; ["head_commit"; "timestamp"]].

Definition opened_required : list (list string) :=
  [["id"]; ["user"; "login"]; ["head"; "ref"]; ["base"; "ref"]; ["created_at"]].

Definition merged_required : list (list string) :=
  [["id"]; ["head"; "ref"]; ["base"; "ref"]; ["merged_at"]].

(** A push with a head commit and no pusher; the handler raises
    [KeyError]. *)
Definition no_pusher_payload : dict :=
  [ ("ref", VStr "refs/heads/main");
    ("after", VStr "abc123");
    ("head_commit", VDict [("timestamp", VStr "2024-03-01T10:15:00Z")]) ].

(** ** Deduplication *)

(** The deduplication key of a stored record. *)
Definition dedup_key (doc : dict) : value * value :=
  (field doc "request_id", field doc "action").

(** The filter [find_one] is called with. *)
Definition key_query (k : value * value) : dict :=
  [("request_id", fst k); ("action", snd k)].

(** No two records of the collection have the same deduplication key. *)
Definition unique_keys (c : collection) : Prop := NoDup (map dedup_key c).

Definition key_eqb (k1 k2 : value * value) : bool :=
  value_eqb (fst k1) (fst k2) && value_eqb (snd k1) (snd k2).

(** How many records of the collection have the key [k]. *)
Definition count_key (k : value * value) (c : collection) : nat :=
  List.length (filter (fun doc => key_eqb (dedup_key doc) k) c).

(** A record whose [request_id] and [action] are strings, as in every
    record built from a payload GitHub sends. *)
Definition string_keyed (doc : dict) : Prop :=
  exists r a, field doc "request_id" = VStr r /\ field doc "action" = VStr a.

(** The shape of every record the handler builds: the six fields in this
    order, the action one of the three, and no source branch for a push. *)
Definition canonical (doc : dict) : Prop :=
  exists request_id author action from_branch to_branch timestamp,
    doc = [ ("request_id", request_id);
            ("author", author);
            ("action", VStr action);
            ("from_branch", from_branch);
            ("to_branch", to_branch);
            ("timestamp", timestamp) ]
    /\ (action = "PUSH" /\ from_branch = VStr ""
        \/ action = "PULL_REQUEST" \/ action = "MERGE").

(** A delivery: the event type header and the payload. *)
Definition delivery : Type := option string * value.

Definition deliver (c : collection) (r : delivery) : collection :=
  snd (github_webhook c (fst r) (snd r)).

(** The collection after a sequence of deliveries, one after the other. *)
Definition deliver_all (rs : list delivery) (c : collection) : collection :=
  fold_left deliver rs c.

(** A delivery that gives the store a record only if the record's key is
    made of strings. *)
Definition string_keyed_delivery (r : delivery) : Prop :=
  forall doc,
    normalize_event (fst r) (snd r) = Ok (Continue (VDict doc)) ->
    string_keyed doc.

(** A push whose [after] is the object [{"$ne": null}] where the commit
    hash is expected, and the record the handler builds for it. *)
Definition ne_null_payload : value :=
  VDict [ ("ref", VStr "refs/heads/main");
          ("after", VDict [("$ne", VNone)]);
          ("pusher", VDict [("name", VStr "mallory")]);
          ("head_commit", VDict [("timestamp", VStr "2024-03-05T12:00:00Z")]) ].

Definition ne_null_record : dict :=
  [ ("request_id", VDict [("$ne", VNone)]);
    ("author", VStr "mallory");
    ("action", VStr "PUSH");
    ("from_branch", VStr "");
    ("to_branch", VStr "main");
    ("timestamp", VStr "2024-03-05T12:00:00Z") ].

(** A value every store takes: null, a boolean, a 32-bit integer or a
    string of at most 1024 bytes. *)
Definition plain (v : value) : bool :=
  match v with
  | VNone | VBool _ => true
  | VInt z => (-2147483648 <=? z) && (z <=? 2147483647)
  | VStr s => (String.length s <=? 1024)%nat
  | _ => false
  end.

(** A record of the six fields the handler writes, each holding a [plain]
    value. *)
Definition plain_record (doc : dict) : Prop :=
  exists request_id author action from_branch to_branch timestamp,
    doc = [ ("request_id", request_id);
            ("author", author);
            ("action", action);
            ("from_branch", from_branch);
            ("to_branch", to_branch);
            ("timestamp", timestamp) ]
    /\ forallb plain
         [request_id; author; action; from_branch; to_branch; timestamp]
       = true.

(** The store takes the document: [insert_one] puts it at the end of the
    collection. *)
Definition accepted (c : collection) (doc : dict) : Prop :=
  insert_one c doc = Ok (c ++ [doc])%list.

(** ** Ordering *)

(** [ge key a b]: [a] may stand before [b] in a list sorted on [key],
    greatest first, as far as strings go: when both hold a string under
    [key], the string of [b] is no greater, byte by byte, than that of
    [a]. *)
Definition ge (key : string) (a b : dict) : Prop :=
  forall sa sb,
    field a key = VStr sa -> field b key = VStr sb -> String.leb sb sa = true.

(** [gt key a b]: both hold a string under [key], and that of [a] is
    strictly greater. *)
Definition gt (key : string) (a b : dict) : Prop :=
  exists sa sb,
    field a key = VStr sa /\ field b key = VStr sb /\ String.ltb sb sa = true.

(** A second push, of another commit, made at the same time as
    [push_payload]. *)
Definition push_payload_2 : value :=
  VDict [ ("ref", VStr "refs/heads/dev");
          ("after", VStr "def456");
          ("pusher", VDict [("name", VStr "bob")]);
          ("head_commit", VDict [("timestamp", VStr "2024-03-01T10:15:00Z")]) ].

Definition push_record_2 : dict :=
  [ ("request_id", VStr "def456");
    ("author", VStr "bob");
    ("action", VStr "PUSH");
    ("from_branch", VStr "");
    ("to_branch", VStr "dev");
    ("timestamp", VStr "2024-03-01T10:15:00Z") ].

(** A push made later than both. *)
Definition push_record_3 : dict :=
  [ ("request_id", VStr "0a1b2c");
    ("author", VStr "carol");
    ("action", VStr "PUSH");
    ("from_branch", VStr "");
    ("to_branch", VStr "main");
    ("timestamp", VStr "2024-03-02T07:30:00Z") ].

(** ** Timestamps *)

Definition sign_char (negative : bool) : ascii :=
  if negative then "-"%char else "+"%char.

(** The timestamp [YYYY-MM-DDTHH:MM:SS+HH:MM] (or with [-]) of a wall-clock
    time at a UTC offset of [oh] hours and [om] minutes, as
    [datetime.isoformat] writes it and GitHub sends it for a push. *)
Definition aware_timestamp (y mo d h mi s : Z) (negative : bool) (oh om : Z)
  : string :=
  fmt4 y ++ "-" ++ fmt2 mo ++ "-" ++ fmt2 d ++ "T"
  ++ fmt2 h ++ ":" ++ fmt2 mi ++ ":" ++ fmt2 s
  ++ String (sign_char negative) (fmt2 oh ++ ":" ++ fmt2 om).

(** The offset of [aware_timestamp], in microseconds. *)
Definition offset_usec (negative : bool) (oh om : Z) : Z :=
  (if negative then -1 else 1) * (((oh * 60 + om) * 60 + 0) * 1000000 + 0).

(** The normalization as the specification words it: a ['Z'] that ends the
    string stands for ["+00:00"], and nothing else is changed. *)
Fixpoint trailing_Z_as_utc (s : string) : string :=
  match s with
  | EmptyString => EmptyString
  | String c EmptyString => if (c =? "Z")%char then "+00:00" else s
  | String c s' => String c (trailing_Z_as_utc s')
  end.

(** The rendering [strftime] produces, piece by piece: what each piece
    reads as, and which clock it follows. *)
Definition rendering (dt : datetime) : Prop :=
  strftime dt
  = fmt2 (day dt) ++ " " ++ month_name (month dt) ++ " " ++ fmt_year (year dt)
    ++ " - " ++ fmt2 (hour12 (hour dt)) ++ ":" ++ fmt2 (minute dt)
    ++ " " ++ am_pm (hour dt) ++ " UTC"
  /\ parse_digits 2 0 (fmt2 (day dt)) = Some (day dt, "")
  /\ nth_error month_names (Z.to_nat (month dt - 1))
     = Some (month_name (month dt))
  /\ parse_digits (String.length (fmt_year (year dt))) 0 (fmt_year (year dt))
     = Some (year dt, "")
  /\ (1000 <= year dt -> String.length (fmt_year (year dt)) = 4%nat)
  /\ (year dt < 1000 -> (String.length (fmt_year (year dt)) < 4)%nat)
  /\ 1 <= hour12 (hour dt) <= 12
  /\ (hour12 (hour dt) - hour dt) mod 12 = 0
  /\ parse_digits 2 0 (fmt2 (hour12 (hour dt))) = Some (hour12 (hour dt), "")
  /\ parse_digits 2 0 (fmt2 (minute dt)) = Some (minute dt, "")
  /\ (am_pm (hour dt) = "AM" /\ hour dt < 12
      \/ am_pm (hour dt) = "PM" /\ 12 <= hour dt).

(** [shows_wall_clock y mo d h mi text]: [text] is
    [DD Month YYYY - HH:MM AM|PM UTC] for the day [d] of month [mo] of
    year [y] and the time [h]:[mi] on the 24-hour clock, shown on the
    12-hour clock. *)
Definition shows_wall_clock (y mo d h mi : Z) (text : string) : Prop :=
  exists dd month yyyy hh mm marker h12,
    text = dd ++ " " ++ month ++ " " ++ yyyy ++ " - " ++ hh ++ ":" ++ mm
           ++ " " ++ marker ++ " UTC"
    /\ parse_digits 2 0 dd = Some (d, "")
    /\ nth_error month_names (Z.to_nat (mo - 1)) = Some month
    /\ parse_digits (String.length yyyy) 0 yyyy = Some (y, "")
    /\ parse_digits 2 0 hh = Some (h12, "")
    /\ 1 <= h12 <= 12
    /\ (h12 - h) mod 12 = 0
    /\ parse_digits 2 0 mm = Some (mi, "")
    /\ (marker = "AM" /\ h < 12 \/ marker = "PM" /\ 12 <= h).

(** A record whose timestamp has ['Z'] between date and time as well as at
    the end. *)
Definition z_separator_record : dict :=
  [ ("request_id", VStr "abc123");
    ("author", VStr "alice");
    ("action", VStr "PUSH");
    ("from_branch", VStr "");
    ("to_branch", VStr "main");
    ("timestamp", VStr "2024-03-01Z10:15:00Z") ].

(** A push record whose timestamp is at the offset [+05:30]. *)
Definition offset_push_record : dict :=
  [ ("request_id", VStr "abc123");
    ("author", VStr "alice");
    ("action", VStr "PUSH");
    ("from_branch", VStr "");
    ("to_branch", VStr "main");
    ("timestamp", VStr "2024-03-01T10:15:00+05:30") ].

(** Push records at an offset, in the evening and just after midnight. *)
Definition evening_offset_record : dict :=
  [ ("request_id", VStr "abc124");
    ("author", VStr "alice");
    ("action", VStr "PUSH");
    ("from_branch", VStr "");
    ("to_branch", VStr "main");
    ("timestamp", VStr "2024-03-01T22:15:00+05:30") ].

Definition midnight_offset_record : dict :=
  [ ("request_id", VStr "abc125");
    ("author", VStr "alice");
    ("action", VStr "PUSH");
    ("from_branch", VStr "");
    ("to_branch", VStr "main");
    ("timestamp", VStr "2024-03-01T00:05:00-08:00") ].

(** A push record of the year 999. *)
Definition year_999_record : dict :=
  [ ("request_id", VStr "abc123");
    ("author", VStr "alice");
    ("action", VStr "PUSH");
    ("from_branch", VStr "");
    ("to_branch", VStr "main");
    ("timestamp", VStr "0999-03-01T10:15:00Z") ].

(** ** Shape of stored records *)

(** The shape of a stored record in full: a push has no source branch and
    a target branch without a slash; a pull request or merge has a string
    as request id. *)
Definition stored_shape (doc : dict) : Prop :=
  exists request_id author action from_branch to_branch timestamp,
    doc = [ ("request_id", request_id);
            ("author", author);
            ("action", VStr action);
            ("from_branch", from_branch);
            ("to_branch", to_branch);
            ("timestamp", timestamp) ]
    /\ (action = "PUSH" /\ from_branch = VStr ""
        /\ (exists b, to_branch = VStr b /\ contains_char "/" b = false)
        \/ (action = "PULL_REQUEST" \/ action = "MERGE")
           /\ exists s, request_id = VStr s).

(** ** Wall-clock times *)

(** The wall-clock part [YYYY-MM-DDTHH:MM:SS] of a timestamp. *)
Definition wall_clock (y mo d h mi s : Z) : string :=
  fmt4 y ++ "-" ++ fmt2 mo ++ "-" ++ fmt2 d ++ "T"
  ++ fmt2 h ++ ":" ++ fmt2 mi ++ ":" ++ fmt2 s.

(** A number that orders wall-clock times as the calendar does: by year,
    then month, day, hour, minute and second. *)
Definition wall_clock_rank (y mo d h mi s : Z) : Z :=
  ((((y * 100 + mo) * 100 + d) * 100 + h) * 100 + mi) * 100 + s.

(** The fields [fmt4] and [fmt2] write in full. *)
Definition printable_fields (y mo d h mi s : Z) : Prop :=
  0 <= y < 10000 /\ 0 <= mo < 100 /\ 0 <= d < 100
  /\ 0 <= h < 100 /\ 0 <= mi < 100 /\ 0 <= s < 100.

(** One case analysis on an integer comparison under a [match]. *)
Ltac compare_step :=
  match goal with
  | |- context [match ?a ?= ?b with _ => _ end] =>
      destruct (Z.compare_spec a b)
  end.

(** [written_at suffix doc rank]: the timestamp of [doc] is a wall-clock
    time written [YYYY-MM-DDTHH:MM:SS] and followed by [suffix], and
    [rank] is the rank of that time. *)
Definition written_at (suffix : string) (doc : dict) (rank : Z) : Prop :=
  exists y mo d h mi s,
    printable_fields y mo d h mi s
    /\ lookup "timestamp" doc
       = Some (VStr (wall_clock y mo d h mi s ++ suffix))
    /\ rank = wall_clock_rank y mo d h mi s.

(** [no_older suffix a b]: the time of [a] is that of [b] or a later
    one. *)
Definition no_older (suffix : string) (a b : dict) : Prop :=
  forall ra rb, written_at suffix a ra -> written_at suffix b rb -> rb <= ra.

(** * What the properties assume of the libraries *)

(** A [datetime] has passed the range checks of its constructor. *)
Hypothesis fromisoformat_fields :
  forall (s : string) (dt : datetime),
    fromisoformat s = Ok dt ->
    valid_fields (year dt) (month dt) (day dt) (hour dt) (minute dt)
      (second dt) (microsecond dt) = true.

(** The empty string is no date. *)
Hypothesis fromisoformat_empty : fromisoformat "" = Raise ValueError.

(** [fromisoformat] reads what [isoformat] writes for a date-time with a
    UTC offset of whole minutes: the fields as written, and the offset. *)
Hypothesis fromisoformat_isoformat :
  forall (y mo d h mi s : Z) (negative : bool) (oh om : Z),
    valid_fields y mo d h mi s 0 = true ->
    0 <= oh < 24 -> 0 <= om < 60 ->
    fromisoformat (aware_timestamp y mo d h mi s negative oh om)
    = Ok (mkDatetime y mo d h mi s 0 (Some (offset_usec negative oh om))).

(** In a collection whose records all have strings as [request_id] and
    [action], a filter that gives a string for each finds a record exactly
    when one has these two strings. *)
Hypothesis find_one_string_key :
  forall (c : collection) (r a : string),
    Forall string_keyed c ->
    exists found,
      find_one c (key_query (VStr r, VStr a)) = Ok found
      /\ (found = None <-> ~ In (VStr r, VStr a) (map dedup_key c)).

(** The store takes a record of the six fields with plain values. *)
Hypothesis insert_one_plain :
  forall (c : collection) (doc : dict),
    plain_record doc -> insert_one c doc = Ok (c ++ [doc])%list.

(** Sorting returns the documents it is given, and puts a string before
    every string that is smaller byte by byte. *)
Hypothesis sort_descending_permutation :
  forall (key : string) (c : collection),
    Permutation c (sort_descending key c).

Hypothesis sort_descending_strings :
  forall (key : string) (c : collection),
    StronglySorted (ge key) (sort_descending key c).

(** * Properties *)

(** ** The formatter *)

Lemma dict_getitem_some (d : dict) (k : string) (v : value) :
  lookup k d = Some v -> dict_getitem d k = Ok v.
Proof. unfold dict_getitem; intros ->; reflexivity. Qed.

Lemma dict_getitem_none (d : dict) (k : string) :
  lookup k d = None -> dict_getitem d k = Raise KeyError.
Proof. unfold dict_getitem; intros ->; reflexivity. Qed.

Lemma dict_get_some (d : dict) (k : string) (v default : value) :
  lookup k d = Some v -> dict_get d k default = v.
Proof. unfold dict_get; intros ->; reflexivity. Qed.

Lemma dict_get_none (d : dict) (k : string) (default : value) :
  lookup k d = None -> dict_get d k default = default.
Proof. unfold dict_get; intros ->; reflexivity. Qed.

(** What [format_event] does once [author] and [action] are read and the
    timestamp is a non-empty string. *)
Lemma format_event_str_timestamp (event_data : dict) (author action : value)
    (ts : string) :
  lookup "author" event_data = Some author ->
  lookup "action" event_data = Some action ->
  lookup "timestamp" event_data = Some (VStr ts) ->
  ts <> "" ->
  format_event event_data =
    match fromisoformat (str_replace "Z" "+00:00" ts) with
    | Ok dt =>
        Ok (sentence author action
              (dict_get event_data "from_branch" (VStr ""))
              (dict_get event_data "to_branch" (VStr ""))
              (strftime dt))
    | Raise _ => Ok (data_error event_data)
    end.
Proof.
  intros Ha Hc Ht Hne.
  unfold format_event, format_event_body.
  rewrite (dict_getitem_some _ _ _ Ha), (dict_getitem_some _ _ _ Hc).
  cbn [bind].
  rewrite (dict_get_some _ _ _ _ Ht).
  assert (Htr : truthy (VStr ts) = true).
  { cbn. destruct (String.eqb_spec ts ""); [contradiction | reflexivity]. }
  rewrite Htr. cbn [negb replace bind].
  unfold fromisoformat.
  destruct (py_fromisoformat pf (str_replace "Z" "+00:00" ts)); reflexivity.
Qed.

(** C7. A record whose [author] and [action] can be read and whose
    [timestamp] is absent or empty (falsy) is formatted as exactly
    ["Event with missing timestamp"]. *)
Theorem format_event_missing_timestamp :
  forall (event_data : dict) (author action : value),
    lookup "author" event_data = Some author ->
    lookup "action" event_data = Some action ->
    (lookup "timestamp" event_data = None
     \/ lookup "timestamp" event_data = Some (VStr "")
     \/ exists v, lookup "timestamp" event_data = Some v /\ truthy v = false) ->
    format_event event_data = Ok "Event with missing timestamp".
Proof.
  intros event_data author action Ha Hc Ht.
  unfold format_event, format_event_body.
  rewrite (dict_getitem_some _ _ _ Ha), (dict_getitem_some _ _ _ Hc).
  cbn [bind].
  assert (Hf : truthy (dict_get event_data "timestamp" VNone) = false).
  { destruct Ht as [Ht | [Ht | (v & Ht & Hv)]].
    - rewrite (dict_get_none _ _ _ Ht). reflexivity.
    - rewrite (dict_get_some _ _ _ _ Ht). reflexivity.
    - rewrite (dict_get_some _ _ _ _ Ht). exact Hv. }
  rewrite Hf. reflexivity.
Qed.

(** Nothing is found in the empty collection. *)
Lemma find_one_empty (r a : string) :
  find_one [] (key_query (VStr r, VStr a)) = Ok None.
Proof.
  destruct (find_one_string_key [] r a (Forall_nil _)) as (found & Hf & Hn).
  rewrite Hf. f_equal. apply Hn. intros [].
Qed.

(** Sorting one document gives that document. *)
Lemma sort_descending_singleton (key : string) (doc : dict) :
  sort_descending key [doc] = [doc].
Proof.
  apply Permutation_length_1_inv, sort_descending_permutation.
Qed.

(** C1. [format_event] is not total: on a record whose [timestamp] is a
    non-zero number, [raw_timestamp.replace] raises [AttributeError], which
    [except (ValueError, KeyError)] does not catch.  The handler stores such
    a record for a push whose head-commit timestamp is a number, and
    [get_events] then raises as well. *)
Theorem format_event_numeric_timestamp_raises :
  github_webhook [] (Some "push") numeric_timestamp_payload
    = (Ok success, [numeric_timestamp_record])
  /\ format_event numeric_timestamp_record = Raise AttributeError
  /\ get_events [numeric_timestamp_record] = Raise AttributeError.
Proof.
  split; [|split].
  - unfold github_webhook.
    change (normalize_event (Some "push") numeric_timestamp_payload)
      with (Ok (Continue (VDict numeric_timestamp_record))).
    unfold store_event. cbn [truthy getitem numeric_timestamp_record
      dict_getitem lookup String.eqb Ascii.eqb Bool.eqb].
    change [("request_id", VStr "abc123"); ("action", VStr "PUSH")]
      with (key_query (VStr "abc123", VStr "PUSH")).
    rewrite find_one_empty.
    rewrite (insert_one_plain [] numeric_timestamp_record).
    + reflexivity.
    + unfold plain_record, numeric_timestamp_record.
      do 6 eexists. split; reflexivity.
  - reflexivity.
  - unfold get_events, events_from_db.
    rewrite sort_descending_singleton. reflexivity.
Qed.

(** The part of totality that holds: a record whose [timestamp], when it is
    truthy, is a string, is always formatted. *)
Lemma format_event_total_on_string_timestamps (event_data : dict) :
  (forall v, lookup "timestamp" event_data = Some v ->
             truthy v = true -> exists s, v = VStr s) ->
  exists s, format_event event_data = Ok s.
Proof.
  intros Hts.
  unfold format_event, format_event_body, dict_getitem.
  destruct (lookup "author" event_data) as [author|]; cbn [bind]; [|eauto].
  destruct (lookup "action" event_data) as [action|]; cbn [bind]; [|eauto].
  destruct (lookup "timestamp" event_data) as [v|] eqn:Hv.
  2: { rewrite (dict_get_none _ _ VNone Hv). cbn. eauto. }
  rewrite !(dict_get_some _ _ _ VNone Hv).
  destruct (truthy v) eqn:Htr; cbn [negb]; [|eauto].
  destruct (Hts v eq_refl Htr) as [s Hs]. subst v.
  cbn [replace bind]. unfold fromisoformat.
  destruct (py_fromisoformat pf (str_replace "Z" "+00:00" s)); cbn [bind]; eauto.
Qed.

(** ** The normalizer *)

Lemma str_split_not_nil (sep : ascii) (s : string) : str_split sep s <> [].
Proof.
  destruct s as [|c s]; cbn; [discriminate|].
  destruct (c =? sep)%char; [discriminate|].
  destruct (str_split sep s); discriminate.
Qed.

Lemma getitem_last_last {A : Type} (l : list A) (d : A) :
  l <> [] -> getitem_last l = Ok (List.last l d).
Proof.
  induction l as [|x l IH]; intros Hne; [contradiction|].
  destruct l as [|y l]; [reflexivity|].
  change (getitem_last (x :: y :: l)) with (getitem_last (y :: l)).
  change (List.last (x :: y :: l) d) with (List.last (y :: l) d).
  apply IH. discriminate.
Qed.

Lemma getitem_last_split (ref : string) :
  getitem_last (str_split "/" ref) = Ok (last_segment ref).
Proof. apply getitem_last_last, str_split_not_nil. Qed.

(** Joining the segments with the separator gives the string back. *)
Lemma concat_str_split (sep : ascii) (s : string) :
  String.concat (String sep "") (str_split sep s) = s.
Proof.
  induction s as [|c s IH]; [reflexivity|].
  cbn [str_split].
  pose proof (str_split_not_nil sep s) as Hne.
  destruct (str_split sep s) as [|h t]; [contradiction|].
  destruct (c =? sep)%char eqn:Hc.
  - apply Ascii.eqb_eq in Hc. subst c.
    cbn [String.concat append] in IH |- *. rewrite IH. reflexivity.
  - destruct t as [|h' t]; cbn [String.concat append] in IH |- *;
      rewrite IH; reflexivity.
Qed.

(** No segment holds the separator. *)
Lemma str_split_no_sep (sep : ascii) (s : string) :
  Forall (fun seg => contains_char sep seg = false) (str_split sep s).
Proof.
  induction s as [|c s IH]; cbn [str_split].
  - repeat constructor.
  - destruct (c =? sep)%char eqn:Hc.
    + constructor; [reflexivity | exact IH].
    + destruct (str_split sep s) as [|h t].
      * repeat constructor. cbn. rewrite Hc. reflexivity.
      * inversion IH as [|? ? Hh Ht]; subst.
        constructor; [|exact Ht]. cbn. rewrite Hc. exact Hh.
Qed.

Lemma string_app_assoc (a b c : string) : (a ++ b) ++ c = a ++ b ++ c.
Proof. induction a as [|x a IH]; cbn; [reflexivity | rewrite IH; reflexivity]. Qed.

Lemma concat_app_last (sep : string) (l : list string) (x : string) :
  l <> [] ->
  String.concat sep (l ++ [x]) = String.concat sep l ++ sep ++ x.
Proof.
  induction l as [|a l IH]; intros Hne; [contradiction|].
  destruct l as [|b l].
  - reflexivity.
  - change (String.concat sep ((a :: b :: l) ++ [x]))
      with (a ++ sep ++ String.concat sep ((b :: l) ++ [x])).
    rewrite IH by discriminate.
    change (String.concat sep (a :: b :: l))
      with (a ++ sep ++ String.concat sep (b :: l)).
    rewrite !string_app_assoc. reflexivity.
Qed.

(** The last segment holds no slash, and [ref] is that segment, alone or
    after a slash. *)
Lemma last_segment_spec (ref : string) :
  contains_char "/" (last_segment ref) = false
  /\ (ref = last_segment ref
      \/ exists before, ref = before ++ "/" ++ last_segment ref).
Proof.
  unfold last_segment.
  pose proof (str_split_not_nil "/" ref) as Hne.
  pose proof (concat_str_split "/" ref) as Hcat.
  pose proof (str_split_no_sep "/" ref) as Hno.
  rewrite (app_removelast_last "" Hne) in Hcat, Hno.
  set (x := List.last (str_split "/" ref) "") in *.
  set (l := removelast (str_split "/" ref)) in *.
  split.
  - apply Forall_app in Hno. destruct Hno as [_ Hx].
    inversion Hx; assumption.
  - destruct l as [|a l].
    + left. symmetry. exact Hcat.
    + right. exists (String.concat "/" (a :: l)).
      rewrite concat_app_last in Hcat by discriminate.
      symmetry. exact Hcat.
Qed.

Example last_segment_main : last_segment "refs/heads/main" = "main".
Proof. reflexivity. Qed.

(** What a push with a truthy head commit must hold for [push_event] to
    return, and what it returns then. *)
Lemma push_event_inv (d : dict) (f : flow) :
  truthy (dict_get d "head_commit" VNone) = true ->
  push_event (VDict d) = Ok f ->
  exists pusher name ref after hc ts,
    lookup "pusher" d = Some (VDict pusher)
    /\ lookup "name" pusher = Some name
    /\ lookup "ref" d = Some (VStr ref)
    /\ lookup "after" d = Some after
    /\ lookup "head_commit" d = Some (VDict hc)
    /\ lookup "timestamp" hc = Some ts
    /\ f = Continue (VDict (push_doc after name (last_segment ref) ts)).
Proof.
  intros Hhc Hf.
  unfold push_event in Hf. cbn [get bind] in Hf.
  rewrite Hhc in Hf. cbn [negb] in Hf.
  unfold getitem, dict_getitem, split in Hf.
  destruct (lookup "pusher" d) as [pv|] eqn:Hp; [|discriminate Hf].
  cbn [bind] in Hf.
  destruct pv as [| | | | |pusher]; try discriminate Hf.
  destruct (lookup "name" pusher) as [name|] eqn:Hn; [|discriminate Hf].
  cbn [bind] in Hf.
  destruct (lookup "ref" d) as [rv|] eqn:Hr; [|discriminate Hf].
  cbn [bind] in Hf.
  destruct rv as [| | |ref| |]; try discriminate Hf.
  cbn [bind] in Hf. rewrite getitem_last_split in Hf. cbn [bind] in Hf.
  destruct (lookup "after" d) as [after|] eqn:Ha; [|discriminate Hf].
  cbn [bind] in Hf.
  destruct (lookup "head_commit" d) as [hv|] eqn:Hh; [|discriminate Hf].
  cbn [bind] in Hf.
  destruct hv as [| | | | |hc]; try discriminate Hf.
  destruct (lookup "timestamp" hc) as [ts|] eqn:Ht; [|discriminate Hf].
  cbn [bind] in Hf. injection Hf as <-.
  exists pusher, name, ref, after, hc, ts.
  repeat split; try assumption; reflexivity.
Qed.

Lemma push_event_complete (d pusher hc : dict) (name after ts : value)
    (ref : string) :
  lookup "pusher" d = Some (VDict pusher) ->
  lookup "name" pusher = Some name ->
  lookup "ref" d = Some (VStr ref) ->
  lookup "after" d = Some after ->
  lookup "head_commit" d = Some (VDict hc) ->
  lookup "timestamp" hc = Some ts ->
  push_event (VDict d)
  = Ok (Continue (VDict (push_doc after name (last_segment ref) ts))).
Proof.
  intros Hp Hn Hr Ha Hh Ht.
  unfold push_event. cbn [get bind].
  rewrite (dict_get_some _ _ _ _ Hh).
  assert (Htr : truthy (VDict hc) = true).
  { destruct hc; [discriminate Ht | reflexivity]. }
  rewrite Htr. cbn [negb].
  unfold getitem, split.
  rewrite (dict_getitem_some _ _ _ Hp). cbn [bind].
  rewrite (dict_getitem_some _ _ _ Hn). cbn [bind].
  rewrite (dict_getitem_some _ _ _ Hr). cbn [bind].
  rewrite getitem_last_split. cbn [bind].
  rewrite (dict_getitem_some _ _ _ Ha). cbn [bind].
  rewrite (dict_getitem_some _ _ _ Hh). cbn [bind].
  rewrite (dict_getitem_some _ _ _ Ht). reflexivity.
Qed.

Lemma github_webhook_raise (c : collection) (event_type : option string)
    (data : value) (e : exn) :
  normalize_event event_type data = Raise e ->
  github_webhook c event_type data = (Raise e, c).
Proof. unfold github_webhook. intros ->. reflexivity. Qed.

Lemma github_webhook_return (c : collection) (event_type : option string)
    (data : value) (r : response) :
  normalize_event event_type data = Ok (Return r) ->
  github_webhook c event_type data = (Ok r, c).
Proof. unfold github_webhook. intros ->. reflexivity. Qed.

Lemma github_webhook_nothing (c : collection) (event_type : option string)
    (data : value) :
  normalize_event event_type data = Ok (Continue VNone) ->
  github_webhook c event_type data = (Ok success, c).
Proof. unfold github_webhook. intros ->. reflexivity. Qed.


Lemma opened_event_inv (pr_data : value) (f : flow) :
  opened_event pr_data = Ok f ->
  exists pr id user login head head_ref base base_ref created_at,
    pr_data = VDict pr
    /\ lookup "id" pr = Some id
    /\ lookup "user" pr = Some (VDict user)
    /\ lookup "login" user = Some login
    /\ lookup "head" pr = Some (VDict head)
    /\ lookup "ref" head = Some head_ref
    /\ lookup "base" pr = Some (VDict base)
    /\ lookup "ref" base = Some base_ref
    /\ lookup "created_at" pr = Some created_at
    /\ f = Continue (VDict (opened_doc id login head_ref base_ref created_at)).
Proof.
  intros Hf. unfold opened_event in Hf.
  destruct pr_data as [| | | | |pr]; try discriminate Hf.
  unfold getitem, dict_getitem in Hf.
  destruct (lookup "id" pr) as [id|] eqn:Hid; [|discriminate Hf].
  cbn [bind] in Hf.
  destruct (lookup "user" pr) as [uv|] eqn:Hu; [|discriminate Hf].
  cbn [bind] in Hf.
  destruct uv as [| | | | |user]; try discriminate Hf.
  destruct (lookup "login" user) as [login|] eqn:Hl; [|discriminate Hf].
  cbn [bind] in Hf.
  destruct (lookup "head" pr) as [hv|] eqn:Hh; [|discriminate Hf].
  cbn [bind] in Hf.
  destruct hv as [| | | | |head]; try discriminate Hf.
  destruct (lookup "ref" head) as [head_ref|] eqn:Hhr; [|discriminate Hf].
  cbn [bind] in Hf.
  destruct (lookup "base" pr) as [bv|] eqn:Hb; [|discriminate Hf].
  cbn [bind] in Hf.
  destruct bv as [| | | | |base]; try discriminate Hf.
  destruct (lookup "ref" base) as [base_ref|] eqn:Hbr; [|discriminate Hf].
  cbn [bind] in Hf.
  destruct (lookup "created_at" pr) as [created_at|] eqn:Hc; [|discriminate Hf].
  cbn [bind] in Hf. injection Hf as <-.
  exists pr, id, user, login, head, head_ref, base, base_ref, created_at.
  repeat split; try assumption; reflexivity.
Qed.

Lemma merged_event_inv (pr : dict) (f : flow) :
  merged_event (VDict pr) = Ok f ->
  exists id author head head_ref base base_ref merged_at,
    lookup "id" pr = Some id
    /\ merged_author pr author
    /\ lookup "head" pr = Some (VDict head)
    /\ lookup "ref" head = Some head_ref
    /\ lookup "base" pr = Some (VDict base)
    /\ lookup "ref" base = Some base_ref
    /\ lookup "merged_at" pr = Some merged_at
    /\ f = Continue (VDict (merge_doc id author head_ref base_ref merged_at)).
Proof.
  intros Hf. unfold merged_event in Hf.
  unfold getitem, dict_getitem in Hf.
  destruct (lookup "id" pr) as [id|] eqn:Hid; [|discriminate Hf].
  cbn [bind get] in Hf. unfold dict_get at 1 in Hf.
  destruct (lookup "merged_by" pr) as [mv|] eqn:Hm.
  - destruct mv as [| | | | |m]; try discriminate Hf.
    cbn [bind get] in Hf.
    destruct (lookup "head" pr) as [hv|] eqn:Hh; [|discriminate Hf].
    cbn [bind] in Hf.
    destruct hv as [| | | | |head]; try discriminate Hf.
    destruct (lookup "ref" head) as [head_ref|] eqn:Hhr; [|discriminate Hf].
    cbn [bind] in Hf.
    destruct (lookup "base" pr) as [bv|] eqn:Hb; [|discriminate Hf].
    cbn [bind] in Hf.
    destruct bv as [| | | | |base]; try discriminate Hf.
    destruct (lookup "ref" base) as [base_ref|] eqn:Hbr; [|discriminate Hf].
    cbn [bind] in Hf.
    destruct (lookup "merged_at" pr) as [merged_at|] eqn:Hc; [|discriminate Hf].
    cbn [bind] in Hf. injection Hf as <-.
    exists id, (dict_get m "login" (VStr "Unknown")),
      head, head_ref, base, base_ref, merged_at.
    repeat split; try assumption; try reflexivity.
    unfold merged_author, dict_get.
    destruct (lookup "login" m) as [login|] eqn:Hl.
    + right; right. exists m. split; [exact Hm | exact Hl].
    + right; left. exists m. repeat split; [exact Hm | exact Hl].
  - cbn [bind get] in Hf.
    destruct (lookup "head" pr) as [hv|] eqn:Hh; [|discriminate Hf].
    cbn [bind] in Hf.
    destruct hv as [| | | | |head]; try discriminate Hf.
    destruct (lookup "ref" head) as [head_ref|] eqn:Hhr; [|discriminate Hf].
    cbn [bind] in Hf.
    destruct (lookup "base" pr) as [bv|] eqn:Hb; [|discriminate Hf].
    cbn [bind] in Hf.
    destruct bv as [| | | | |base]; try discriminate Hf.
    destruct (lookup "ref" base) as [base_ref|] eqn:Hbr; [|discriminate Hf].
    cbn [bind] in Hf.
    destruct (lookup "merged_at" pr) as [merged_at|] eqn:Hc; [|discriminate Hf].
    cbn [bind] in Hf. injection Hf as <-.
    exists id, (VStr "Unknown"), head, head_ref, base, base_ref, merged_at.
    repeat split; try assumption; try reflexivity.
    left. split; [exact Hm | reflexivity].
Qed.

(** [merged_event] on a pull request that holds every field the record is
    built from: the result follows [merged_by]. *)
Lemma merged_event_complete (pr head base : dict)
    (id head_ref base_ref merged_at : value) :
  lookup "id" pr = Some id ->
  lookup "head" pr = Some (VDict head) ->
  lookup "ref" head = Some head_ref ->
  lookup "base" pr = Some (VDict base) ->
  lookup "ref" base = Some base_ref ->
  lookup "merged_at" pr = Some merged_at ->
  merged_event (VDict pr) =
    match lookup "merged_by" pr with
    | None =>
        Ok (Continue (VDict
              (merge_doc id (VStr "Unknown") head_ref base_ref merged_at)))
    | Some (VDict m) =>
        Ok (Continue (VDict
              (merge_doc id (dict_get m "login" (VStr "Unknown"))
                 head_ref base_ref merged_at)))
    | Some _ => Raise AttributeError
    end.
Proof.
  intros Hid Hh Hhr Hb Hbr Hm.
  unfold merged_event, getitem.
  rewrite (dict_getitem_some _ _ _ Hid). cbn [bind get].
  unfold dict_get at 1.
  destruct (lookup "merged_by" pr) as [mv|].
  - destruct mv as [| | | | |m]; try reflexivity.
    cbn [get bind].
    rewrite (dict_getitem_some _ _ _ Hh). cbn [bind].
    rewrite (dict_getitem_some _ _ _ Hhr). cbn [bind].
    rewrite (dict_getitem_some _ _ _ Hb). cbn [bind].
    rewrite (dict_getitem_some _ _ _ Hbr). cbn [bind].
    rewrite (dict_getitem_some _ _ _ Hm). reflexivity.
  - cbn [get bind].
    rewrite (dict_getitem_some _ _ _ Hh). cbn [bind].
    rewrite (dict_getitem_some _ _ _ Hhr). cbn [bind].
    rewrite (dict_getitem_some _ _ _ Hb). cbn [bind].
    rewrite (dict_getitem_some _ _ _ Hbr). cbn [bind].
    rewrite (dict_getitem_some _ _ _ Hm). reflexivity.
Qed.

(** Normalization of a ["pull_request"] event whose [action] is
    ["closed"]. *)
Lemma closed_event_unfold (d pr : dict) :
  lookup "action" d = Some (VStr "closed") ->
  dict_get d "pull_request" (VDict []) = VDict pr ->
  normalize_event (Some "pull_request") (VDict d) =
    if truthy (dict_get pr "merged" VNone) then merged_event (VDict pr)
    else Ok (Continue VNone).
Proof.
  intros Ha Hpr.
  change (normalize_event (Some "pull_request") (VDict d))
    with (pull_request_event (VDict d)).
  unfold pull_request_event. cbn [get bind].
  rewrite (dict_get_some _ _ _ _ Ha), Hpr. reflexivity.
Qed.

Lemma opened_event_unfold (d : dict) :
  lookup "action" d = Some (VStr "opened") ->
  normalize_event (Some "pull_request") (VDict d) =
    opened_event (dict_get d "pull_request" (VDict [])).
Proof.
  intros Ha.
  change (normalize_event (Some "pull_request") (VDict d))
    with (pull_request_event (VDict d)).
  unfold pull_request_event. cbn [get bind].
  rewrite (dict_get_some _ _ _ _ Ha). reflexivity.
Qed.

(** [str] of an integer is its decimal numeral: reading the numeral gives
    the integer back. *)
Lemma str_int_decimal (z : Z) :
  option_map Z.of_int (NilZero.int_of_string (str_int z)) = Some z.
Proof.
  unfold str_int. rewrite NilZero.isi.
  - cbn. rewrite DecimalZ.of_to. reflexivity.
  - destruct z as [|p|p]; cbn; try discriminate.
    intros H. injection H as H. exact (DecimalPos.Unsigned.to_uint_nonnil p H).
  - destruct z as [|p|p]; cbn; try discriminate.
    intros H. injection H as H. exact (DecimalPos.Unsigned.to_uint_nonnil p H).
Qed.

(** C4. For a ["pull_request"] event whose [action] is ["closed"]: when the
    pull request is not marked merged nothing is produced and the collection
    is left as it was; when it is marked merged, whatever normalization
    produces is the record with [action] ["MERGE"], [author] the login of
    [merged_by] or ["Unknown"] when there is none, [request_id] the string
    form of [id] (the decimal numeral of a numeric id), the head and base
    ref names and the [merged_at] timestamp, and it is produced whenever
    these fields are there and [merged_by] is absent or a mapping. *)
Theorem closed_pull_request_normalization :
  forall (d pr : dict) (c : collection),
    lookup "action" d = Some (VStr "closed") ->
    dict_get d "pull_request" (VDict []) = VDict pr ->
    (truthy (dict_get pr "merged" VNone) = false ->
       normalize_event (Some "pull_request") (VDict d) = Ok (Continue VNone)
       /\ github_webhook c (Some "pull_request") (VDict d) = (Ok success, c))
    /\ (truthy (dict_get pr "merged" VNone) = true ->
        (forall f : flow,
           normalize_event (Some "pull_request") (VDict d) = Ok f ->
           exists id author head head_ref base base_ref merged_at,
             lookup "id" pr = Some id
             /\ merged_author pr author
             /\ lookup "head" pr = Some (VDict head)
             /\ lookup "ref" head = Some head_ref
             /\ lookup "base" pr = Some (VDict base)
             /\ lookup "ref" base = Some base_ref
             /\ lookup "merged_at" pr = Some merged_at
             /\ f = Continue (VDict
                    [ ("request_id", VStr (str id));
                      ("author", author);
                      ("action", VStr "MERGE");
                      ("from_branch", head_ref);
                      ("to_branch", base_ref);
                      ("timestamp", merged_at) ]))
        /\ (forall id head head_ref base base_ref merged_at,
              lookup "id" pr = Some id ->
              lookup "head" pr = Some (VDict head) ->
              lookup "ref" head = Some head_ref ->
              lookup "base" pr = Some (VDict base) ->
              lookup "ref" base = Some base_ref ->
              lookup "merged_at" pr = Some merged_at ->
              (lookup "merged_by" pr = None
               \/ exists m, lookup "merged_by" pr = Some (VDict m)) ->
              exists author,
                merged_author pr author
                /\ normalize_event (Some "pull_request") (VDict d)
                   = Ok (Continue (VDict
                       (merge_doc id author head_ref base_ref merged_at)))))
    /\ (forall n : Z,
          str (VInt n) = str_int n
          /\ option_map Z.of_int (NilZero.int_of_string (str_int n)) = Some n).
Proof.
  intros d pr c Ha Hpr.
  pose proof (closed_event_unfold d pr Ha Hpr) as Hn.
  split; [|split].
  - intros Hm. rewrite Hm in Hn. split; [exact Hn|].
    apply github_webhook_nothing. exact Hn.
  - intros Hm. rewrite Hm in Hn. split.
    + intros f Hf. rewrite Hn in Hf. exact (merged_event_inv pr f Hf).
    + intros id head head_ref base base_ref merged_at Hid Hh Hhr Hb Hbr Hma Hby.
      rewrite Hn.
      rewrite (merged_event_complete pr head base id head_ref base_ref
                 merged_at Hid Hh Hhr Hb Hbr Hma).
      destruct Hby as [Hby | [m Hby]]; rewrite Hby.
      * exists (VStr "Unknown"). split; [|reflexivity].
        left. split; [exact Hby | reflexivity].
      * exists (dict_get m "login" (VStr "Unknown")). split; [|reflexivity].
        unfold dict_get. destruct (lookup "login" m) as [login|] eqn:Hl.
        -- right; right. exists m. split; assumption.
        -- right; left. exists m. repeat split; assumption.
  - intros n. split; [reflexivity | apply str_int_decimal].
Qed.

(** C10. For a ["pull_request"] event whose [action] is ["closed"] and whose
    pull request is marked merged: a [merged_by] that is there but is no
    mapping (null, say) makes normalization raise, and nothing is stored.
    When the other fields of the record are there, the author is
    ["Unknown"] exactly when [merged_by] is absent or is a mapping without
    [login]; a mapping with a [login] gives that login, and a [merged_by]
    that is no mapping raises [AttributeError]. *)
Theorem merged_by_unknown_default :
  forall (d pr : dict) (c : collection),
    lookup "action" d = Some (VStr "closed") ->
    dict_get d "pull_request" (VDict []) = VDict pr ->
    truthy (dict_get pr "merged" VNone) = true ->
    (forall v,
       lookup "merged_by" pr = Some v -> (forall m, v <> VDict m) ->
       exists e,
         normalize_event (Some "pull_request") (VDict d) = Raise e
         /\ github_webhook c (Some "pull_request") (VDict d) = (Raise e, c))
    /\ (forall id head head_ref base base_ref merged_at,
          lookup "id" pr = Some id ->
          lookup "head" pr = Some (VDict head) ->
          lookup "ref" head = Some head_ref ->
          lookup "base" pr = Some (VDict base) ->
          lookup "ref" base = Some base_ref ->
          lookup "merged_at" pr = Some merged_at ->
          (lookup "merged_by" pr = None ->
             normalize_event (Some "pull_request") (VDict d)
             = Ok (Continue (VDict
                 (merge_doc id (VStr "Unknown") head_ref base_ref merged_at))))
          /\ (forall m,
                lookup "merged_by" pr = Some (VDict m) ->
                lookup "login" m = None ->
                normalize_event (Some "pull_request") (VDict d)
                = Ok (Continue (VDict
                    (merge_doc id (VStr "Unknown") head_ref base_ref
                       merged_at))))
          /\ (forall m login,
                lookup "merged_by" pr = Some (VDict m) ->
                lookup "login" m = Some login ->
                normalize_event (Some "pull_request") (VDict d)
                = Ok (Continue (VDict
                    (merge_doc id login head_ref base_ref merged_at))))
          /\ (forall v,
                lookup "merged_by" pr = Some v -> (forall m, v <> VDict m) ->
                normalize_event (Some "pull_request") (VDict d)
                = Raise AttributeError)).
Proof.
  intros d pr c Ha Hpr Hm.
  pose proof (closed_event_unfold d pr Ha Hpr) as Hn.
  rewrite Hm in Hn. split.
  - intros v Hv Hnd.
    destruct (merged_event (VDict pr)) as [f|e] eqn:Hf.
    + exfalso.
      destruct (merged_event_inv pr f Hf)
        as (id & author & _ & _ & _ & _ & _ & _ & Hau & _).
      destruct Hau as [[Hnone _] | [(m & Hsome & _) | (m & Hsome & _)]];
        rewrite Hv in *; try discriminate;
        injection Hsome as ->; exact (Hnd m eq_refl).
    + exists e. split; [exact Hn|].
      apply github_webhook_raise. exact Hn.
  - intros id head head_ref base base_ref merged_at Hid Hh Hhr Hb Hbr Hma.
    rewrite Hn.
    rewrite (merged_event_complete pr head base id head_ref base_ref
               merged_at Hid Hh Hhr Hb Hbr Hma).
    repeat split.
    + intros ->. reflexivity.
    + intros m -> Hl. rewrite (dict_get_none _ _ _ Hl). reflexivity.
    + intros m login -> Hl. rewrite (dict_get_some _ _ _ _ Hl). reflexivity.
    + intros v -> Hnd. destruct v as [| | | | |m]; try reflexivity.
      exfalso. exact (Hnd m eq_refl).
Qed.

(** C8. A payload that matches a supported rule (a push with a head commit,
    an opened pull request, a closed and merged pull request) and lacks one
    of the sub-fields the rule requires makes the handler raise: the
    exception reaches the caller, and the collection is left as it was. *)
Theorem missing_required_field_raises :
  forall (d : dict) (c : collection),
    (truthy (dict_get d "head_commit" VNone) = true ->
     existsb (lacks (VDict d)) push_required = true ->
     exists e, github_webhook c (Some "push") (VDict d) = (Raise e, c))
    /\ (lookup "action" d = Some (VStr "opened") ->
        existsb (lacks (dict_get d "pull_request" (VDict []))) opened_required
        = true ->
        exists e,
          github_webhook c (Some "pull_request") (VDict d) = (Raise e, c))
    /\ (forall pr,
          lookup "action" d = Some (VStr "closed") ->
          dict_get d "pull_request" (VDict []) = VDict pr ->
          truthy (dict_get pr "merged" VNone) = true ->
          existsb (lacks (VDict pr)) merged_required = true ->
          exists e,
            github_webhook c (Some "pull_request") (VDict d) = (Raise e, c)).
Proof.
  intros d c. split; [|split].
  - intros Hhc Hl.
    destruct (normalize_event (Some "push") (VDict d)) as [f|e] eqn:Hn.
    + exfalso.
      destruct (push_event_inv d f Hhc Hn)
        as (pusher & name & ref & after & hc & ts
            & Hp & Hna & Hr & Haf & Hh & Ht & _).
      cbn [existsb lacks push_required] in Hl.
      rewrite Hp, Hna, Hr, Haf, Hh, Ht in Hl. discriminate Hl.
    + exists e. apply github_webhook_raise. exact Hn.
  - intros Ha Hl.
    pose proof (opened_event_unfold d Ha) as Hu.
    destruct (normalize_event (Some "pull_request") (VDict d)) as [f|e] eqn:Hn.
    + exfalso. symmetry in Hu.
      destruct (opened_event_inv _ f Hu)
        as (pr & id & user & login & head & head_ref & base & base_ref
            & created_at & Hpr & Hid & Hus & Hlo & Hh & Hhr & Hb & Hbr & Hc & _).
      rewrite Hpr in Hl.
      cbn [existsb lacks opened_required] in Hl.
      rewrite Hid, Hus, Hlo, Hh, Hhr, Hb, Hbr, Hc in Hl. discriminate Hl.
    + exists e. apply github_webhook_raise. exact Hn.
  - intros pr Ha Hpr Hm Hl.
    pose proof (closed_event_unfold d pr Ha Hpr) as Hu. rewrite Hm in Hu.
    destruct (normalize_event (Some "pull_request") (VDict d)) as [f|e] eqn:Hn.
    + exfalso. symmetry in Hu.
      destruct (merged_event_inv pr f Hu)
        as (id & author & head & head_ref & base & base_ref & merged_at
            & Hid & _ & Hh & Hhr & Hb & Hbr & Hma & _).
      cbn [existsb lacks merged_required] in Hl.
      rewrite Hid, Hh, Hhr, Hb, Hbr, Hma in Hl. discriminate Hl.
    + exists e. apply github_webhook_raise. exact Hn.
Qed.

(** ** The duplicate check *)

Lemma value_eqb_eq (a b : value) : value_eqb a b = true <-> a = b.
Proof.
  revert b. induction a as [| x | x | x | l IH | d IH] using value_ind_nested;
    intros b; destruct b as [| y | y | y | l' | d']; cbn [value_eqb];
    try (split; [discriminate | discriminate]); try (split; reflexivity).
  - rewrite Bool.eqb_true_iff. split; congruence.
  - rewrite Z.eqb_eq. split; congruence.
  - rewrite String.eqb_eq. split; congruence.
  - revert l'. induction IH as [|v l Hv _ IHl]; intros l'.
    + destruct l'; split; try reflexivity; discriminate.
    + destruct l' as [|v' l']; [split; discriminate|].
      rewrite andb_true_iff, Hv.
      specialize (IHl l'). split.
      * intros [-> Hl]. apply IHl in Hl. congruence.
      * intros H. injection H as -> H. split; [reflexivity|].
        apply IHl. congruence.
  - revert d'. induction IH as [|kv d Hv _ IHd]; intros d'.
    + destruct d'; split; try reflexivity; discriminate.
    + destruct d' as [|kv' d']; [split; discriminate|].
      rewrite !andb_true_iff, String.eqb_eq, Hv.
      specialize (IHd d'). destruct kv as [k v], kv' as [k' v']. cbn [fst snd].
      split.
      * intros [[-> ->] Hd]. apply IHd in Hd. congruence.
      * intros H. injection H as -> -> H. repeat split.
        apply IHd. congruence.
Qed.

Lemma value_eqb_refl (a : value) : value_eqb a a = true.
Proof. apply value_eqb_eq. reflexivity. Qed.

Lemma key_eqb_eq (k1 k2 : value * value) : key_eqb k1 k2 = true <-> k1 = k2.
Proof.
  destruct k1 as [r1 a1], k2 as [r2 a2]. unfold key_eqb. cbn [fst snd].
  rewrite andb_true_iff, !value_eqb_eq. split.
  - intros [-> ->]. reflexivity.
  - intros H. injection H as -> ->. split; reflexivity.
Qed.

Lemma key_in_dec (k : value * value) (l : list (value * value)) :
  In k l \/ ~ In k l.
Proof.
  induction l as [|k' l IH]; [right; intros []|].
  destruct (key_eqb k' k) eqn:E.
  - apply key_eqb_eq in E. left. left. exact E.
  - destruct IH as [IH | IH]; [left; right; exact IH|].
    right. intros [H | H]; [|exact (IH H)].
    apply key_eqb_eq in H. congruence.
Qed.

(** [store_event] on a record that holds both key fields. *)
Lemma store_event_doc (c : collection) (doc : dict) (rid act : value) :
  lookup "request_id" doc = Some rid ->
  lookup "action" doc = Some act ->
  dedup_key doc = (rid, act)
  /\ store_event c (VDict doc) =
       match find_one c (key_query (rid, act)) with
       | Raise e => (Raise e, c)
       | Ok (Some _) => (Ok success, c)
       | Ok None =>
           match insert_one c doc with
           | Ok c' => (Ok success, c')
           | Raise e => (Raise e, c)
           end
       end.
Proof.
  intros Hr Ha. split.
  - unfold dedup_key, field. rewrite (dict_get_some _ _ _ _ Hr),
      (dict_get_some _ _ _ _ Ha). reflexivity.
  - unfold store_event.
    assert (Ht : truthy (VDict doc) = true).
    { destruct doc; [discriminate Hr | reflexivity]. }
    rewrite Ht. cbn [getitem].
    rewrite (dict_getitem_some _ _ _ Hr), (dict_getitem_some _ _ _ Ha).
    reflexivity.
Qed.

Lemma normalize_event_canonical (event_type : option string) (data : value)
    (doc : dict) :
  normalize_event event_type data = Ok (Continue (VDict doc)) ->
  canonical doc.
Proof.
  unfold normalize_event.
  destruct (event_type_is event_type "push").
  - intros Hf. destruct data as [| | | | |d]; try discriminate Hf.
    destruct (truthy (dict_get d "head_commit" VNone)) eqn:Hhc.
    + destruct (push_event_inv d _ Hhc Hf)
        as (pusher & name & ref & after & hc & ts & _ & _ & _ & _ & _ & _ & E).
      injection E as ->. unfold push_doc.
      exists after, name, "PUSH", (VStr ""), (VStr (last_segment ref)), ts.
      split; [reflexivity | left; split; reflexivity].
    + unfold push_event in Hf. cbn [get bind] in Hf. rewrite Hhc in Hf.
      discriminate Hf.
  - destruct (event_type_is event_type "pull_request"); [|discriminate].
    intros Hf. destruct data as [| | | | |d]; try discriminate Hf.
    unfold pull_request_event in Hf. cbn [get bind] in Hf.
    destruct (eq_str (dict_get d "action" VNone) "opened").
    + destruct (opened_event_inv _ _ Hf)
        as (pr & id & user & login & head & head_ref & base & base_ref
            & created_at & _ & _ & _ & _ & _ & _ & _ & _ & _ & E).
      injection E as ->. unfold opened_doc.
      exists (VStr (str id)), login, "PULL_REQUEST", head_ref, base_ref,
        created_at.
      split; [reflexivity | right; left; reflexivity].
    + destruct (eq_str (dict_get d "action" VNone) "closed");
        [|discriminate Hf].
      destruct (dict_get d "pull_request" (VDict [])) as [| | | | |pr];
        try discriminate Hf.
      cbn [get bind] in Hf.
      destruct (truthy (dict_get pr "merged" VNone)); [|discriminate Hf].
      destruct (merged_event_inv _ _ Hf)
        as (id & author & head & head_ref & base & base_ref & merged_at
            & _ & _ & _ & _ & _ & _ & _ & E).
      injection E as ->. unfold merge_doc.
      exists (VStr (str id)), author, "MERGE", head_ref, base_ref, merged_at.
      split; [reflexivity | right; right; reflexivity].
Qed.

Lemma canonical_keys (doc : dict) :
  canonical doc ->
  exists rid act,
    lookup "request_id" doc = Some rid /\ lookup "action" doc = Some act.
Proof.
  intros (rid & author & action & fb & tb & ts & -> & _).
  exists rid, (VStr action). split; reflexivity.
Qed.

(** What the handler does with the record normalization produced. *)
Lemma github_webhook_doc (c : collection) (event_type : option string)
    (data : value) (doc : dict) :
  normalize_event event_type data = Ok (Continue (VDict doc)) ->
  github_webhook c event_type data =
    match find_one c (key_query (dedup_key doc)) with
    | Raise e => (Raise e, c)
    | Ok (Some _) => (Ok success, c)
    | Ok None =>
        match insert_one c doc with
        | Ok c' => (Ok success, c')
        | Raise e => (Raise e, c)
        end
    end.
Proof.
  intros Hn. unfold github_webhook. rewrite Hn.
  destruct (canonical_keys doc (normalize_event_canonical _ _ _ Hn))
    as (rid & act & Hr & Ha).
  destruct (store_event_doc c doc rid act Hr Ha) as [-> ->]. reflexivity.
Qed.

(** [insert_one] appends the document or raises. *)
Lemma insert_one_cases (c : collection) (doc : dict) :
  insert_one c doc = Ok (c ++ [doc])%list
  \/ exists e, insert_one c doc = Raise e.
Proof.
  unfold insert_one. destruct (db_insert_refused pf c doc) as [e|]; eauto.
Qed.

(** ** Stored records *)

(** The handler leaves the collection as it was or appends the record
    normalization produced. *)
Lemma store_event_collection (c : collection) (event_doc : value) :
  snd (store_event c event_doc) = c
  \/ exists doc,
       event_doc = VDict doc
       /\ snd (store_event c event_doc) = (c ++ [doc])%list.
Proof.
  unfold store_event.
  destruct (truthy event_doc); [|left; reflexivity].
  destruct (getitem event_doc "request_id") as [rid|e]; [|left; reflexivity].
  destruct (getitem event_doc "action") as [act|e]; [|left; reflexivity].
  destruct (find_one c [("request_id", rid); ("action", act)]) as [[found|]|e];
    try (left; reflexivity).
  destruct event_doc as [|b|z|s|l|doc]; try (left; reflexivity).
  destruct (insert_one_cases c doc) as [-> | [e ->]]; [|left; reflexivity].
  right. exists doc. split; reflexivity.
Qed.

Lemma github_webhook_collection (c : collection) (event_type : option string)
    (data : value) :
  snd (github_webhook c event_type data) = c
  \/ exists doc,
       normalize_event event_type data = Ok (Continue (VDict doc))
       /\ snd (github_webhook c event_type data) = (c ++ [doc])%list.
Proof.
  unfold github_webhook.
  destruct (normalize_event event_type data) as [[r|event_doc]|e];
    try (left; reflexivity).
  destruct (store_event_collection c event_doc) as [H | (doc & -> & H)].
  - left. exact H.
  - right. exists doc. split; [reflexivity | exact H].
Qed.

(** What holds of every record normalization produces holds of every
    record stored by a sequence of deliveries. *)
Lemma deliver_all_Forall (P : dict -> Prop) (rs : list delivery)
    (c : collection) :
  (forall event_type data doc,
     normalize_event event_type data = Ok (Continue (VDict doc)) -> P doc) ->
  Forall P c -> Forall P (deliver_all rs c).
Proof.
  intros HP. unfold deliver_all. revert c.
  induction rs as [|[event_type data] rs IH]; intros c Hc; [exact Hc|].
  cbn [fold_left]. apply IH. unfold deliver. cbn [fst snd].
  destruct (github_webhook_collection c event_type data)
    as [-> | (doc & Hn & ->)]; [exact Hc|].
  apply Forall_app. split; [exact Hc|].
  constructor; [exact (HP _ _ _ Hn) | constructor].
Qed.

(** Every record stored by deliveries to the empty collection has the
    canonical shape. *)
Lemma stored_records_canonical (rs : list delivery) :
  Forall canonical (deliver_all rs []).
Proof.
  apply deliver_all_Forall; [|constructor].
  intros event_type data doc Hn.
  exact (normalize_event_canonical _ _ _ Hn).
Qed.

(** A canonical record of a push has no source branch. *)
Lemma canonical_push (doc : dict) :
  canonical doc ->
  lookup "action" doc = Some (VStr "PUSH") ->
  lookup "from_branch" doc = Some (VStr "").
Proof.
  intros (rid & author & action & fb & tb & ts & -> & Hact) Ha.
  cbn in Ha. injection Ha as ->.
  destruct Hact as [[_ ->] | [Hact | Hact]]; try discriminate Hact.
  reflexivity.
Qed.

(** C3. For a ["push"] event: a payload without a (truthy) head commit
    produces no record, and the collection is left as it was; otherwise
    whatever normalization produces is the record with [author] the pusher's
    name, [to_branch] the last segment of [ref] split on ['/'],
    [from_branch] the empty string, [request_id] the [after] hash,
    [timestamp] the head commit's timestamp and [action] ["PUSH"], and it is
    produced whenever these fields are there.  A record whose [action] is
    ["PUSH"], as normalization produces it and as any sequence of
    deliveries stores it, has the empty string as [from_branch]. *)
Theorem push_normalization :
  forall (d : dict) (c : collection),
    (lookup "head_commit" d = None ->
       github_webhook c (Some "push") (VDict d) = (Ok ignored, c))
    /\ (truthy (dict_get d "head_commit" VNone) = false ->
        normalize_event (Some "push") (VDict d) = Ok (Return ignored)
        /\ github_webhook c (Some "push") (VDict d) = (Ok ignored, c))
    /\ (truthy (dict_get d "head_commit" VNone) = true ->
        forall f : flow,
          normalize_event (Some "push") (VDict d) = Ok f ->
          exists pusher name ref after hc ts,
            lookup "pusher" d = Some (VDict pusher)
            /\ lookup "name" pusher = Some name
            /\ lookup "ref" d = Some (VStr ref)
            /\ lookup "after" d = Some after
            /\ lookup "head_commit" d = Some (VDict hc)
            /\ lookup "timestamp" hc = Some ts
            /\ f = Continue (VDict
                   [ ("request_id", after);
                     ("author", name);
                     ("action", VStr "PUSH");
                     ("from_branch", VStr "");
                     ("to_branch", VStr (last_segment ref));
                     ("timestamp", ts) ]))
    /\ (forall pusher name ref after hc ts,
          lookup "pusher" d = Some (VDict pusher) ->
          lookup "name" pusher = Some name ->
          lookup "ref" d = Some (VStr ref) ->
          lookup "after" d = Some after ->
          lookup "head_commit" d = Some (VDict hc) ->
          lookup "timestamp" hc = Some ts ->
          normalize_event (Some "push") (VDict d)
          = Ok (Continue (VDict (push_doc after name (last_segment ref) ts))))
    /\ (forall doc,
          normalize_event (Some "push") (VDict d) = Ok (Continue (VDict doc)) ->
          lookup "action" doc = Some (VStr "PUSH")
          /\ lookup "from_branch" doc = Some (VStr ""))
    /\ (forall event_type data doc,
          normalize_event event_type data = Ok (Continue (VDict doc)) ->
          lookup "action" doc = Some (VStr "PUSH") ->
          lookup "from_branch" doc = Some (VStr ""))
    /\ (forall rs doc,
          In doc (deliver_all rs []) ->
          lookup "action" doc = Some (VStr "PUSH") ->
          lookup "from_branch" doc = Some (VStr "")).
Proof.
  intros d c.
  assert (Hfalsy : truthy (dict_get d "head_commit" VNone) = false ->
                   normalize_event (Some "push") (VDict d)
                   = Ok (Return ignored)).
  { intros Hhc. cbn. unfold push_event. cbn [get bind]. rewrite Hhc.
    reflexivity. }
  split; [|split; [|split; [|split; [|split; [|split]]]]].
  - intros Hhc. apply github_webhook_return, Hfalsy.
    rewrite (dict_get_none _ _ _ Hhc). reflexivity.
  - intros Hhc. split; [exact (Hfalsy Hhc)|].
    apply github_webhook_return, Hfalsy, Hhc.
  - intros Hhc f Hf. exact (push_event_inv d f Hhc Hf).
  - intros pusher name ref after hc ts Hp Hn Hr Ha Hh Ht.
    exact (push_event_complete d pusher hc name after ts ref Hp Hn Hr Ha Hh Ht).
  - intros doc Hdoc.
    change (push_event (VDict d) = Ok (Continue (VDict doc))) in Hdoc.
    destruct (truthy (dict_get d "head_commit" VNone)) eqn:Hhc.
    + destruct (push_event_inv d _ Hhc Hdoc)
        as (pusher & name & ref & after & hc & ts & _ & _ & _ & _ & _ & _ & Hf).
      injection Hf as ->. split; reflexivity.
    + unfold push_event in Hdoc. cbn [get bind] in Hdoc.
      rewrite Hhc in Hdoc. discriminate Hdoc.
  - intros event_type data doc Hn.
    exact (canonical_push doc (normalize_event_canonical _ _ _ Hn)).
  - intros rs doc Hin.
    pose proof (stored_records_canonical rs) as Hall.
    rewrite Forall_forall in Hall. exact (canonical_push doc (Hall doc Hin)).
Qed.

(** ** Records with strings as keys *)

(** What a filter of two strings finds in a collection of string-keyed
    records. *)
Lemma find_one_string_key_cases (c : collection) (r a : string) :
  Forall string_keyed c ->
  (In (VStr r, VStr a) (map dedup_key c)
   /\ exists doc, find_one c (key_query (VStr r, VStr a)) = Ok (Some doc))
  \/ (~ In (VStr r, VStr a) (map dedup_key c)
      /\ find_one c (key_query (VStr r, VStr a)) = Ok None).
Proof.
  intros Hc. destruct (find_one_string_key c r a Hc) as (found & Hf & Hn).
  destruct found as [doc|].
  - left. split; [|exists doc; exact Hf].
    destruct (key_in_dec (VStr r, VStr a) (map dedup_key c)) as [H | H];
      [exact H|].
    apply Hn in H. discriminate H.
  - right. split; [apply Hn; reflexivity | exact Hf].
Qed.

Lemma string_keyed_key (doc : dict) :
  string_keyed doc -> exists r a, dedup_key doc = (VStr r, VStr a).
Proof.
  intros (r & a & Hr & Ha). exists r, a. unfold dedup_key.
  rewrite Hr, Ha. reflexivity.
Qed.

(** The handler on a record with strings as key: it is dropped when the
    key is stored; otherwise it is appended, unless the store refuses
    it. *)
Lemma github_webhook_string_key (c : collection) (event_type : option string)
    (data : value) (doc : dict) :
  Forall string_keyed c ->
  normalize_event event_type data = Ok (Continue (VDict doc)) ->
  string_keyed doc ->
  (In (dedup_key doc) (map dedup_key c)
   /\ github_webhook c event_type data = (Ok success, c))
  \/ (~ In (dedup_key doc) (map dedup_key c)
      /\ (github_webhook c event_type data = (Ok success, (c ++ [doc])%list)
          \/ exists e, github_webhook c event_type data = (Raise e, c))).
Proof.
  intros Hc Hn Hk.
  rewrite (github_webhook_doc c _ _ _ Hn).
  destruct (string_keyed_key doc Hk) as (r & a & ->).
  destruct (find_one_string_key_cases c r a Hc)
    as [[Hin [old ->]] | [Hnin ->]].
  - left. split; [exact Hin | reflexivity].
  - right. split; [exact Hnin|].
    destruct (insert_one_cases c doc) as [-> | [e ->]];
      [left; reflexivity | right; exists e; reflexivity].
Qed.

Lemma unique_keys_app (c : collection) (doc : dict) :
  unique_keys c -> ~ In (dedup_key doc) (map dedup_key c) ->
  unique_keys (c ++ [doc])%list.
Proof.
  unfold unique_keys. intros Hc Hnin.
  rewrite map_app. apply NoDup_app.
  - exact Hc.
  - cbn. constructor; [intros [] | constructor].
  - intros k Hk [<- | []]. exact (Hnin Hk).
Qed.

(** A delivery of a string-keyed record keeps the keys strings, and
    distinct. *)
Lemma github_webhook_string_keys (c : collection) (event_type : option string)
    (data : value) :
  Forall string_keyed c -> unique_keys c ->
  string_keyed_delivery (event_type, data) ->
  Forall string_keyed (snd (github_webhook c event_type data))
  /\ unique_keys (snd (github_webhook c event_type data)).
Proof.
  intros Hc Hu Hd.
  destruct (normalize_event event_type data) as [[r|event_doc]|e] eqn:Hn.
  - rewrite (github_webhook_return c _ _ _ Hn). split; assumption.
  - destruct (github_webhook_collection c event_type data)
      as [-> | (doc & Hn' & Hs)]; [split; assumption|].
    pose proof (Hd doc Hn') as Hk.
    destruct (github_webhook_string_key c _ _ doc Hc Hn' Hk)
      as [[_ ->] | [Hnin [-> | [e' ->]]]]; cbn [snd]; try (split; assumption).
    split.
    + apply Forall_app. split; [exact Hc | constructor; [exact Hk | constructor]].
    + apply unique_keys_app; assumption.
  - rewrite (github_webhook_raise c _ _ _ Hn). split; assumption.
Qed.

Lemma deliver_all_string_keys (rs : list delivery) (c : collection) :
  Forall string_keyed c -> unique_keys c ->
  Forall string_keyed_delivery rs ->
  Forall string_keyed (deliver_all rs c) /\ unique_keys (deliver_all rs c).
Proof.
  unfold deliver_all. revert c.
  induction rs as [|[event_type data] rs IH]; intros c Hc Hu Hrs;
    [split; assumption|].
  cbn [fold_left]. inversion Hrs as [|? ? Hr Hrs']; subst.
  unfold deliver at 2. cbn [fst snd].
  destruct (github_webhook_string_keys c event_type data Hc Hu Hr) as [H1 H2].
  apply IH; assumption.
Qed.

Lemma count_key_absent (k : value * value) (c : collection) :
  ~ In k (map dedup_key c) -> count_key k c = 0%nat.
Proof.
  unfold count_key. induction c as [|doc c IH]; intros Hnin; [reflexivity|].
  cbn [filter].
  destruct (key_eqb (dedup_key doc) k) eqn:Hm.
  - exfalso. apply key_eqb_eq in Hm. apply Hnin. left. exact Hm.
  - apply IH. intros Hin. apply Hnin. right. exact Hin.
Qed.

Lemma count_key_present (k : value * value) (c : collection) :
  unique_keys c -> In k (map dedup_key c) -> count_key k c = 1%nat.
Proof.
  unfold unique_keys, count_key.
  induction c as [|doc c IH]; intros Hu Hin; [contradiction|].
  cbn [map] in Hu. apply NoDup_cons_iff in Hu. destruct Hu as [Hnin Hu].
  cbn [filter].
  destruct (key_eqb (dedup_key doc) k) eqn:Hm.
  - apply key_eqb_eq in Hm. subst k.
    cbn [List.length]. f_equal. apply (count_key_absent _ _ Hnin).
  - destruct Hin as [Hk | Hin].
    + apply key_eqb_eq in Hk. congruence.
    + apply IH; assumption.
Qed.

(** C2. The duplicate check takes a record for a duplicate that is none.
    A push whose [after] is the object [{"$ne": null}] gives a filter that
    the store reads as "a [request_id] that is there and not null"; with a
    push record in the collection, which such a filter finds, the record
    built for the push is dropped although no stored record has its
    [(request_id, action)] pair.  Delivered twice, it leaves no stored
    record with its pair, not one, and is answered ["success"]. *)
Theorem duplicate_check_drops_unstored_record :
  (exists found,
     find_one [push_record] (key_query (dedup_key ne_null_record))
     = Ok (Some found)) ->
  normalize_event (Some "push") ne_null_payload
    = Ok (Continue (VDict ne_null_record))
  /\ ~ In (dedup_key ne_null_record) (map dedup_key [push_record])
  /\ github_webhook [push_record] (Some "push") ne_null_payload
     = (Ok success, [push_record])
  /\ deliver_all [(Some "push", ne_null_payload); (Some "push", ne_null_payload)]
       [push_record]
     = [push_record]
  /\ count_key (dedup_key ne_null_record)
       (deliver_all
          [(Some "push", ne_null_payload); (Some "push", ne_null_payload)]
          [push_record])
     = 0%nat.
Proof.
  intros [found Hfound].
  assert (Hn : normalize_event (Some "push") ne_null_payload
               = Ok (Continue (VDict ne_null_record))) by reflexivity.
  assert (Hg : github_webhook [push_record] (Some "push") ne_null_payload
               = (Ok success, [push_record])).
  { rewrite (github_webhook_doc _ _ _ _ Hn), Hfound. reflexivity. }
  assert (Hd : deliver_all
                 [(Some "push", ne_null_payload); (Some "push", ne_null_payload)]
                 [push_record] = [push_record]).
  { unfold deliver_all. cbn [fold_left]. unfold deliver. cbn [fst snd].
    rewrite Hg. cbn [snd]. rewrite Hg. reflexivity. }
  split; [exact Hn|]. split.
  - cbn [map]. intros [H | []]. discriminate H.
  - split; [exact Hg|]. split; [exact Hd|]. rewrite Hd. reflexivity.
Qed.

(** ** Timestamps *)

(** The ten digit characters. *)
Lemma digit_char_cases (n : Z) :
  In (digit_char n, n mod 10)
     [("0"%char, 0); ("1"%char, 1); ("2"%char, 2); ("3"%char, 3);
      ("4"%char, 4); ("5"%char, 5); ("6"%char, 6); ("7"%char, 7);
      ("8"%char, 8); ("9"%char, 9)].
Proof.
  unfold digit_char.
  pose proof (Z.mod_pos_bound n 10 ltac:(lia)) as Hb.
  assert (H : n mod 10 = 0 \/ n mod 10 = 1 \/ n mod 10 = 2 \/ n mod 10 = 3
              \/ n mod 10 = 4 \/ n mod 10 = 5 \/ n mod 10 = 6 \/ n mod 10 = 7
              \/ n mod 10 = 8 \/ n mod 10 = 9) by lia.
  cbn [In].
  repeat (destruct H as [H | H]; [rewrite H; cbn; tauto|]).
  rewrite H; cbn; tauto.
Qed.

Lemma digit_val_digit_char (n : Z) : digit_val (digit_char n) = Some (n mod 10).
Proof.
  pose proof (digit_char_cases n) as H. cbn [In] in H.
  repeat (destruct H as [H | H];
          [injection H as H1 H2; rewrite <- H1, <- H2; reflexivity|]).
  contradiction.
Qed.

(** A digit is none of the characters the parser looks for. *)
Lemma digit_char_plain (n : Z) :
  (digit_char n =? "Z")%char = false
  /\ (digit_char n =? "+")%char = false
  /\ (digit_char n =? "-")%char = false.
Proof.
  pose proof (digit_char_cases n) as H. cbn [In] in H.
  repeat (destruct H as [H | H];
          [injection H as H1 _; rewrite <- H1; repeat split; reflexivity|]).
  contradiction.
Qed.

(** Reading back two or four printed digits. *)
Lemma parse_digits_fmt2 (n : Z) (rest : string) :
  0 <= n < 100 -> parse_digits 2 0 (fmt2 n ++ rest) = Some (n, rest).
Proof.
  intros Hn. unfold fmt2. cbn [append parse_digits].
  rewrite !digit_val_digit_char. f_equal. f_equal.
  pose proof (Z.div_mod n 10 ltac:(lia)).
  rewrite (Z.mod_small (n / 10) 10) by (split; [apply Z.div_pos | apply Z.div_lt_upper_bound]; lia).
  lia.
Qed.

Lemma parse_digits_fmt4 (n : Z) (rest : string) :
  0 <= n < 10000 -> parse_digits 4 0 (fmt4 n ++ rest) = Some (n, rest).
Proof.
  intros Hn. unfold fmt4, fmt2. cbn [append parse_digits].
  rewrite !digit_val_digit_char. f_equal. f_equal.
  assert (H1 : (n / 1000) mod 10 = n / 1000).
  { apply Z.mod_small. split; [apply Z.div_pos | apply Z.div_lt_upper_bound]; lia. }
  assert (H2 : n / 1000 = n / 100 / 10)
    by (rewrite Z.div_div by lia; reflexivity).
  assert (H3 : n / 100 = n / 10 / 10)
    by (rewrite Z.div_div by lia; reflexivity).
  pose proof (Z.div_mod n 10 ltac:(lia)).
  pose proof (Z.div_mod (n / 10) 10 ltac:(lia)).
  pose proof (Z.div_mod (n / 100) 10 ltac:(lia)).
  lia.
Qed.

Lemma valid_fields_bounds (y mo d h mi s us : Z) :
  valid_fields y mo d h mi s us = true ->
  1 <= y <= 9999 /\ 1 <= mo <= 12 /\ 1 <= d <= 31
  /\ 0 <= h <= 23 /\ 0 <= mi <= 59 /\ 0 <= s <= 59 /\ 0 <= us <= 999999.
Proof.
  unfold valid_fields. rewrite !andb_true_iff, !Z.leb_le.
  intros H.
  assert (Hd : 1 <= mo <= 12 -> days_in_month y mo <= 31).
  { intros Hm.
    assert (E : mo = 1 \/ mo = 2 \/ mo = 3 \/ mo = 4 \/ mo = 5 \/ mo = 6
                \/ mo = 7 \/ mo = 8 \/ mo = 9 \/ mo = 10 \/ mo = 11
                \/ mo = 12) by lia.
    unfold days_in_month.
    repeat (destruct E as [-> | E]; [try destruct (is_leap y); lia|]).
    subst mo. lia. }
  lia.
Qed.

Lemma month_name_nth (m : Z) :
  1 <= m <= 12 ->
  nth_error month_names (Z.to_nat (m - 1)) = Some (month_name m).
Proof.
  intros Hm. unfold month_name. apply nth_error_nth'. cbn. lia.
Qed.

Lemma hour12_range (h : Z) :
  0 <= h <= 23 -> 1 <= hour12 h <= 12 /\ (hour12 h - h) mod 12 = 0.
Proof.
  intros Hh.
  assert (E : h = 0 \/ h = 1 \/ h = 2 \/ h = 3 \/ h = 4 \/ h = 5 \/ h = 6
              \/ h = 7 \/ h = 8 \/ h = 9 \/ h = 10 \/ h = 11 \/ h = 12
              \/ h = 13 \/ h = 14 \/ h = 15 \/ h = 16 \/ h = 17 \/ h = 18
              \/ h = 19 \/ h = 20 \/ h = 21 \/ h = 22 \/ h = 23) by lia.
  repeat (destruct E as [-> | E]; [cbn; split; [lia | reflexivity]|]).
  subst h. cbn. split; [lia | reflexivity].
Qed.

Lemma contains_char_app (c : ascii) (s t : string) :
  contains_char c (s ++ t) = contains_char c s || contains_char c t.
Proof.
  induction s as [|a s IH]; cbn; [reflexivity|].
  rewrite IH. apply orb_assoc.
Qed.

Lemma str_replace_absent (old : ascii) (new s : string) :
  contains_char old s = false -> str_replace old new s = s.
Proof.
  induction s as [|a s IH]; cbn; [reflexivity|].
  destruct (a =? old)%char; [discriminate|].
  cbn. intros H. rewrite (IH H). reflexivity.
Qed.

Lemma str_replace_app (old : ascii) (new s t : string) :
  str_replace old new (s ++ t) = str_replace old new s ++ str_replace old new t.
Proof.
  induction s as [|a s IH]; cbn; [reflexivity|].
  rewrite IH. destruct (a =? old)%char; [|reflexivity].
  symmetry. apply string_app_assoc.
Qed.

Lemma contains_char_fmt2 (c : ascii) (n : Z) :
  c = "Z"%char \/ c = "+"%char \/ c = "-"%char ->
  contains_char c (fmt2 n) = false.
Proof.
  intros Hc. unfold fmt2. cbn [contains_char].
  destruct (digit_char_plain (n / 10)) as (H1 & H2 & H3).
  destruct (digit_char_plain n) as (H4 & H5 & H6).
  destruct Hc as [-> | [-> | ->]]; rewrite ?H1, ?H2, ?H3, ?H4, ?H5, ?H6;
    reflexivity.
Qed.

Lemma contains_char_fmt4 (c : ascii) (n : Z) :
  c = "Z"%char \/ c = "+"%char \/ c = "-"%char ->
  contains_char c (fmt4 n) = false.
Proof.
  intros Hc. unfold fmt4. cbn [contains_char].
  rewrite (contains_char_fmt2 c n Hc).
  destruct (digit_char_plain (n / 1000)) as (H1 & H2 & H3).
  destruct (digit_char_plain (n / 100)) as (H4 & H5 & H6).
  destruct Hc as [-> | [-> | ->]]; rewrite ?H1, ?H2, ?H3, ?H4, ?H5, ?H6;
    reflexivity.
Qed.

Lemma aware_timestamp_no_Z (y mo d h mi s : Z) (negative : bool) (oh om : Z) :
  contains_char "Z" (aware_timestamp y mo d h mi s negative oh om) = false.
Proof.
  unfold aware_timestamp.
  rewrite !contains_char_app. cbn [contains_char].
  rewrite !contains_char_app.
  rewrite !contains_char_fmt2, contains_char_fmt4 by (left; reflexivity).
  destruct negative; reflexivity.
Qed.

Lemma parse_digits_fmt2_end (n : Z) :
  0 <= n < 100 -> parse_digits 2 0 (fmt2 n) = Some (n, "").
Proof. intros Hn. exact (parse_digits_fmt2 n "" Hn). Qed.

Lemma trailing_Z_as_utc_app (body : string) :
  trailing_Z_as_utc (body ++ "Z") = body ++ "+00:00".
Proof.
  induction body as [|c body IH]; [reflexivity|].
  cbn [append]. destruct body as [|c' body]; cbn [append] in IH |- *.
  - cbn. reflexivity.
  - change (trailing_Z_as_utc (String c (String c' (body ++ "Z"))))
      with (String c (trailing_Z_as_utc (String c' (body ++ "Z")))).
    rewrite IH. reflexivity.
Qed.

(** When the only ['Z'] of the timestamp is the one that ends it, replacing
    every ['Z'] is replacing that one. *)
Lemma str_replace_trailing_Z (body : string) :
  contains_char "Z" body = false ->
  str_replace "Z" "+00:00" (body ++ "Z") = trailing_Z_as_utc (body ++ "Z").
Proof.
  intros Hb. rewrite str_replace_app, (str_replace_absent _ _ _ Hb),
    trailing_Z_as_utc_app. reflexivity.
Qed.

(** [%Y] reads as the year, in four digits from the year 1000 on and in
    fewer below. *)
Lemma fmt_year_reads (y : Z) :
  1 <= y <= 9999 ->
  parse_digits (String.length (fmt_year y)) 0 (fmt_year y) = Some (y, "")
  /\ (1000 <= y -> String.length (fmt_year y) = 4%nat)
  /\ (y < 1000 -> (String.length (fmt_year y) < 4)%nat).
Proof.
  intros Hy. unfold fmt_year.
  destruct (Z.ltb_spec y 10) as [H1|H1];
    [|destruct (Z.ltb_spec y 100) as [H2|H2];
      [|destruct (Z.ltb_spec y 1000) as [H3|H3]]].
  - split; [|split; [lia | intros _; cbn; lia]].
    cbn [String.length parse_digits]. rewrite digit_val_digit_char.
    rewrite Z.mod_small by lia. reflexivity.
  - split; [|split; [lia | intros _; cbn; lia]].
    change (String.length (fmt2 y)) with 2%nat.
    apply parse_digits_fmt2_end. lia.
  - split; [|split; [lia | intros _; cbn; lia]].
    change (String.length (String (digit_char (y / 100)) (fmt2 y))) with 3%nat.
    unfold fmt2. cbn [parse_digits]. rewrite !digit_val_digit_char.
    f_equal. f_equal.
    assert (E1 : (y / 100) mod 10 = y / 100).
    { apply Z.mod_small.
      split; [apply Z.div_pos | apply Z.div_lt_upper_bound]; lia. }
    assert (E2 : y / 100 = y / 10 / 10)
      by (rewrite Z.div_div by lia; reflexivity).
    pose proof (Z.div_mod y 10 ltac:(lia)).
    pose proof (Z.div_mod (y / 10) 10 ltac:(lia)).
    lia.
  - split; [|split; [intros _; reflexivity | lia]].
    change (String.length (fmt4 y)) with 4%nat.
    exact (parse_digits_fmt4 y "" ltac:(lia)).
Qed.

(** The rendering of a date-time that has passed the range checks. *)
Lemma strftime_rendering (dt : datetime) :
  valid_fields (year dt) (month dt) (day dt) (hour dt) (minute dt)
    (second dt) (microsecond dt) = true ->
  rendering dt.
Proof.
  intros Hv. apply valid_fields_bounds in Hv.
  destruct (hour12_range (hour dt) ltac:(lia)) as [H12 Hmod].
  destruct (fmt_year_reads (year dt) ltac:(lia)) as (Hy1 & Hy2 & Hy3).
  unfold rendering.
  split; [reflexivity|].
  split; [apply parse_digits_fmt2_end; lia|].
  split; [apply month_name_nth; lia|].
  split; [exact Hy1|].
  split; [exact Hy2|].
  split; [exact Hy3|].
  split; [exact H12|].
  split; [exact Hmod|].
  split; [apply parse_digits_fmt2_end; lia|].
  split; [apply parse_digits_fmt2_end; lia|].
  unfold am_pm. destruct (Z.ltb_spec (hour dt) 12); [left | right];
    (split; [reflexivity | lia]).
Qed.

(** [strftime] shows the date, hour and minute of the date-time as they
    stand, whatever its offset. *)
Lemma strftime_shows_wall_clock (dt : datetime) :
  valid_fields (year dt) (month dt) (day dt) (hour dt) (minute dt)
    (second dt) (microsecond dt) = true ->
  shows_wall_clock (year dt) (month dt) (day dt) (hour dt) (minute dt)
    (strftime dt).
Proof.
  intros Hv.
  destruct (strftime_rendering dt Hv)
    as (_ & Hd & Hmo & Hy & _ & _ & H12 & Hmod & Hh & Hmi & Hap).
  exists (fmt2 (day dt)), (month_name (month dt)), (fmt_year (year dt)),
    (fmt2 (hour12 (hour dt))), (fmt2 (minute dt)), (am_pm (hour dt)),
    (hour12 (hour dt)).
  repeat split; try assumption; lia.
Qed.

(** A sentence about a push, a pull request or a merge ends with the
    timestamp. *)
Lemma sentence_ends_with_timestamp
    (author action from_branch to_branch : value) (timestamp : string) :
  action = VStr "PUSH" \/ action = VStr "PULL_REQUEST" \/ action = VStr "MERGE" ->
  exists before,
    sentence author action from_branch to_branch timestamp
    = before ++ timestamp.
Proof.
  intros [-> | [-> | ->]]; unfold sentence; cbn [eq_str String.eqb Ascii.eqb Bool.eqb].
  - exists (str author ++ " pushed to " ++ str to_branch ++ " on ").
    rewrite !string_app_assoc. reflexivity.
  - exists (str author ++ " submitted a pull request from " ++ str from_branch
            ++ " to " ++ str to_branch ++ " on ").
    rewrite !string_app_assoc. reflexivity.
  - exists (str author ++ " merged branch " ++ str from_branch
            ++ " to " ++ str to_branch ++ " on ").
    rewrite !string_app_assoc. reflexivity.
Qed.

(** C5, amended. For a record whose [author] and [action] can be read and
    whose [timestamp] is a non-empty string, every ['Z'] of the timestamp
    is replaced by ["+00:00"]; when the only ['Z'] is the one that ends the
    string, this reads that trailing ['Z'] as the offset ["+00:00"].  The
    resulting string is handed to [fromisoformat], and what it reads is
    rendered as [DD MonthName YYYY - HH:MM AM/PM UTC]: a two-digit day, the
    full month name, the year in decimal (four digits from the year 1000
    on, fewer below: it is not padded), the two-digit hour of the 12-hour
    clock, a two-digit minute and [AM] before noon, [PM] from noon.  If
    [fromisoformat] raises, the error path is taken.  For
    ["2024-03-01T10:15:00Z"] the output of a push, pull-request or merge
    record ends with ["01 March 2024 - 10:15 AM UTC"]. *)
Theorem timestamp_rendering :
  forall (event_data : dict) (author action : value) (ts : string),
    lookup "author" event_data = Some author ->
    lookup "action" event_data = Some action ->
    lookup "timestamp" event_data = Some (VStr ts) ->
    ts <> "" ->
    (forall body,
       ts = body ++ "Z" -> contains_char "Z" body = false ->
       str_replace "Z" "+00:00" ts = body ++ "+00:00")
    /\ (forall dt,
          fromisoformat (str_replace "Z" "+00:00" ts) = Ok dt ->
          format_event event_data
          = Ok (sentence author action
                  (dict_get event_data "from_branch" (VStr ""))
                  (dict_get event_data "to_branch" (VStr ""))
                  (strftime dt))
          /\ rendering dt)
    /\ (forall e,
          fromisoformat (str_replace "Z" "+00:00" ts) = Raise e ->
          format_event event_data = Ok (data_error event_data))
    /\ (ts = "2024-03-01T10:15:00Z" ->
        action = VStr "PUSH" \/ action = VStr "PULL_REQUEST"
        \/ action = VStr "MERGE" ->
        exists before,
          format_event event_data
          = Ok (before ++ "01 March 2024 - 10:15 AM UTC")).
Proof.
  intros event_data author action ts Ha Hc Ht Hne.
  pose proof (format_event_str_timestamp event_data author action ts
                Ha Hc Ht Hne) as Hf.
  split; [|split; [|split]].
  - intros body -> Hb. rewrite (str_replace_trailing_Z body Hb).
    apply trailing_Z_as_utc_app.
  - intros dt Hp. rewrite Hp in Hf. split; [exact Hf|].
    exact (strftime_rendering dt (fromisoformat_fields _ dt Hp)).
  - intros e Hp. rewrite Hp in Hf. exact Hf.
  - intros -> Hact.
    assert (Hp : fromisoformat
                   (str_replace "Z" "+00:00" "2024-03-01T10:15:00Z")
                 = Ok (mkDatetime 2024 3 1 10 15 0 0 (Some 0))).
    { exact (fromisoformat_isoformat 2024 3 1 10 15 0 false 0 0
               eq_refl ltac:(lia) ltac:(lia)). }
    rewrite Hp in Hf.
    change (strftime (mkDatetime 2024 3 1 10 15 0 0 (Some 0)))
      with "01 March 2024 - 10:15 AM UTC" in Hf.
    destruct (sentence_ends_with_timestamp author action
                (dict_get event_data "from_branch" (VStr ""))
                (dict_get event_data "to_branch" (VStr ""))
                "01 March 2024 - 10:15 AM UTC" Hact) as [before Hb].
    exists before. rewrite Hf, Hb. reflexivity.
Qed.

(** C9. A record whose timestamp is read with a non-zero UTC offset is
    rendered from the date, hour and minute of the date-time as they
    stand, on the 12-hour clock with [AM] before noon and [PM] from noon,
    followed by the literal ["UTC"]: the offset plays no part and the
    instant is not converted.  When the timestamp is written
    [YYYY-MM-DDTHH:MM:SS+HH:MM] (or with [-]), what is shown is the
    wall-clock date, hour and minute written in it, so
    ["2024-03-01T10:15:00+05:30"] is shown as [10:15 AM UTC]. *)
Theorem nonzero_offset_wall_clock :
  forall (event_data : dict) (author action : value) (ts : string),
    lookup "author" event_data = Some author ->
    lookup "action" event_data = Some action ->
    lookup "timestamp" event_data = Some (VStr ts) ->
    (forall dt off,
       fromisoformat (str_replace "Z" "+00:00" ts) = Ok dt ->
       tzinfo dt = Some off -> off <> 0 ->
       format_event event_data
       = Ok (sentence author action
               (dict_get event_data "from_branch" (VStr ""))
               (dict_get event_data "to_branch" (VStr ""))
               (strftime dt))
       /\ shows_wall_clock (year dt) (month dt) (day dt) (hour dt)
            (minute dt) (strftime dt))
    /\ (forall y mo d h mi s negative oh om,
          valid_fields y mo d h mi s 0 = true ->
          0 <= oh < 24 -> 0 <= om < 60 ->
          offset_usec negative oh om <> 0 ->
          ts = aware_timestamp y mo d h mi s negative oh om ->
          exists text,
            format_event event_data
            = Ok (sentence author action
                    (dict_get event_data "from_branch" (VStr ""))
                    (dict_get event_data "to_branch" (VStr ""))
                    text)
            /\ shows_wall_clock y mo d h mi text)
    /\ (ts = "2024-03-01T10:15:00+05:30" ->
        action = VStr "PUSH" \/ action = VStr "PULL_REQUEST"
        \/ action = VStr "MERGE" ->
        exists before,
          format_event event_data
          = Ok (before ++ "01 March 2024 - 10:15 AM UTC")).
Proof.
  intros event_data author action ts Ha Hc Ht.
  assert (Hfmt : forall dt,
            fromisoformat (str_replace "Z" "+00:00" ts) = Ok dt ->
            format_event event_data
            = Ok (sentence author action
                    (dict_get event_data "from_branch" (VStr ""))
                    (dict_get event_data "to_branch" (VStr ""))
                    (strftime dt))).
  { intros dt Hp.
    assert (Hne : ts <> "").
    { intros ->. cbn [str_replace] in Hp.
      rewrite fromisoformat_empty in Hp. discriminate Hp. }
    rewrite (format_event_str_timestamp event_data author action ts
               Ha Hc Ht Hne), Hp. reflexivity. }
  split; [|split].
  - intros dt off Hp _ _. split; [exact (Hfmt dt Hp)|].
    exact (strftime_shows_wall_clock dt (fromisoformat_fields _ dt Hp)).
  - intros y mo d h mi s negative oh om Hv Hoh Hom _ ->.
    pose proof (fromisoformat_isoformat y mo d h mi s negative oh om
                  Hv Hoh Hom) as Hp.
    rewrite <- (str_replace_absent "Z" "+00:00" _
                  (aware_timestamp_no_Z y mo d h mi s negative oh om)) in Hp.
    exists (strftime (mkDatetime y mo d h mi s 0
                        (Some (offset_usec negative oh om)))).
    split; [exact (Hfmt _ Hp)|].
    exact (strftime_shows_wall_clock
             (mkDatetime y mo d h mi s 0 (Some (offset_usec negative oh om)))
             Hv).
  - intros -> Hact.
    assert (Hp : fromisoformat
                   (str_replace "Z" "+00:00" "2024-03-01T10:15:00+05:30")
                 = Ok (mkDatetime 2024 3 1 10 15 0 0 (Some 19800000000))).
    { exact (fromisoformat_isoformat 2024 3 1 10 15 0 false 5 30
               eq_refl ltac:(lia) ltac:(lia)). }
    rewrite (Hfmt _ Hp).
    change (strftime (mkDatetime 2024 3 1 10 15 0 0 (Some 19800000000)))
      with "01 March 2024 - 10:15 AM UTC".
    destruct (sentence_ends_with_timestamp author action
                (dict_get event_data "from_branch" (VStr ""))
                (dict_get event_data "to_branch" (VStr ""))
                "01 March 2024 - 10:15 AM UTC" Hact) as [before Hb].
    exists before. rewrite Hb. reflexivity.
Qed.

(** ** The order of strings and the order of time *)

Lemma ascii_compare_digit_char (x y : Z) :
  Ascii.compare (digit_char x) (digit_char y) = (x mod 10 ?= y mod 10).
Proof.
  pose proof (digit_char_cases x) as Hx.
  pose proof (digit_char_cases y) as Hy.
  cbn [In] in Hx, Hy.
  repeat (destruct Hx as [Hx | Hx];
          [ injection Hx as Hx1 Hx2; rewrite <- Hx1, <- Hx2;
            repeat (destruct Hy as [Hy | Hy];
                    [ injection Hy as Hy1 Hy2; rewrite <- Hy1, <- Hy2;
                      reflexivity |]);
            contradiction |]).
  contradiction.
Qed.

Lemma string_compare_cons (c : ascii) (a b : string) :
  String.compare (String c a) (String c b) = String.compare a b.
Proof.
  cbn [String.compare]. unfold Ascii.compare. rewrite N.compare_refl.
  reflexivity.
Qed.

Lemma string_compare_refl (a : string) : String.compare a a = Eq.
Proof.
  induction a as [|c a IH]; [reflexivity|].
  rewrite string_compare_cons. exact IH.
Qed.

Lemma string_compare_fmt2 (n m : Z) (a b : string) :
  0 <= n < 100 -> 0 <= m < 100 ->
  String.compare (fmt2 n ++ a) (fmt2 m ++ b)
  = match n ?= m with
    | Eq => String.compare a b
    | Lt => Lt
    | Gt => Gt
    end.
Proof.
  intros Hn Hm. unfold fmt2. cbn [append String.compare].
  rewrite !ascii_compare_digit_char.
  assert (Hqn : (n / 10) mod 10 = n / 10)
    by (apply Z.mod_small; split;
        [apply Z.div_pos | apply Z.div_lt_upper_bound]; lia).
  assert (Hqm : (m / 10) mod 10 = m / 10)
    by (apply Z.mod_small; split;
        [apply Z.div_pos | apply Z.div_lt_upper_bound]; lia).
  rewrite Hqn, Hqm.
  pose proof (Z.div_mod n 10 ltac:(lia)).
  pose proof (Z.div_mod m 10 ltac:(lia)).
  pose proof (Z.mod_pos_bound n 10 ltac:(lia)).
  pose proof (Z.mod_pos_bound m 10 ltac:(lia)).
  destruct (Z.compare_spec (n / 10) (m / 10));
    destruct (Z.compare_spec (n mod 10) (m mod 10));
    destruct (Z.compare_spec n m); try reflexivity; lia.
Qed.

Lemma string_compare_fmt4 (n m : Z) (a b : string) :
  0 <= n < 10000 -> 0 <= m < 10000 ->
  String.compare (fmt4 n ++ a) (fmt4 m ++ b)
  = match n ?= m with
    | Eq => String.compare a b
    | Lt => Lt
    | Gt => Gt
    end.
Proof.
  intros Hn Hm. unfold fmt4.
  change (String (digit_char (n / 1000))
            (String (digit_char (n / 100)) (fmt2 n)) ++ a)
    with (String (digit_char (n / 1000))
            (String (digit_char (n / 100)) (fmt2 n ++ a))).
  change (String (digit_char (m / 1000))
            (String (digit_char (m / 100)) (fmt2 m)) ++ b)
    with (String (digit_char (m / 1000))
            (String (digit_char (m / 100)) (fmt2 m ++ b))).
  cbn [String.compare]. rewrite !ascii_compare_digit_char.
  unfold fmt2. cbn [append String.compare].
  rewrite !ascii_compare_digit_char.
  assert (Hdec : forall k, 0 <= k < 10000 ->
            (k / 1000) mod 10 = k / 1000
            /\ k = 1000 * (k / 1000) + 100 * ((k / 100) mod 10)
                   + 10 * ((k / 10) mod 10) + k mod 10
            /\ 0 <= k / 1000 < 10 /\ 0 <= (k / 100) mod 10 < 10
            /\ 0 <= (k / 10) mod 10 < 10 /\ 0 <= k mod 10 < 10).
  { intros k Hk.
    assert (H1 : (k / 1000) mod 10 = k / 1000)
      by (apply Z.mod_small; split;
          [apply Z.div_pos | apply Z.div_lt_upper_bound]; lia).
    assert (H2 : k / 1000 = k / 100 / 10)
      by (rewrite Z.div_div by lia; reflexivity).
    assert (H3 : k / 100 = k / 10 / 10)
      by (rewrite Z.div_div by lia; reflexivity).
    pose proof (Z.div_mod k 10 ltac:(lia)).
    pose proof (Z.div_mod (k / 10) 10 ltac:(lia)).
    pose proof (Z.div_mod (k / 100) 10 ltac:(lia)).
    pose proof (Z.mod_pos_bound k 10 ltac:(lia)).
    pose proof (Z.mod_pos_bound (k / 10) 10 ltac:(lia)).
    pose proof (Z.mod_pos_bound (k / 100) 10 ltac:(lia)).
    assert (0 <= k / 1000 < 10)
      by (split; [apply Z.div_pos | apply Z.div_lt_upper_bound]; lia).
    lia. }
  destruct (Hdec n Hn) as (Hn1 & Hn2 & ? & ? & ? & ?).
  destruct (Hdec m Hm) as (Hm1 & Hm2 & ? & ? & ? & ?).
  rewrite Hn1, Hm1.
  destruct (Z.compare_spec (n / 1000) (m / 1000));
    destruct (Z.compare_spec ((n / 100) mod 10) ((m / 100) mod 10));
    destruct (Z.compare_spec ((n / 10) mod 10) ((m / 10) mod 10));
    destruct (Z.compare_spec (n mod 10) (m mod 10));
    destruct (Z.compare_spec n m); try reflexivity; lia.
Qed.

(** Timestamps written with the same suffix compare as their wall-clock
    times do. *)
Lemma string_compare_wall_clock (y1 mo1 d1 h1 mi1 s1 y2 mo2 d2 h2 mi2 s2 : Z)
    (suffix : string) :
  printable_fields y1 mo1 d1 h1 mi1 s1 ->
  printable_fields y2 mo2 d2 h2 mi2 s2 ->
  String.compare (wall_clock y1 mo1 d1 h1 mi1 s1 ++ suffix)
                 (wall_clock y2 mo2 d2 h2 mi2 s2 ++ suffix)
  = (wall_clock_rank y1 mo1 d1 h1 mi1 s1
     ?= wall_clock_rank y2 mo2 d2 h2 mi2 s2).
Proof.
  unfold printable_fields, wall_clock, wall_clock_rank. intros H1 H2.
  rewrite !string_app_assoc. cbn [append].
  rewrite string_compare_fmt4 by lia. rewrite string_compare_cons.
  rewrite string_compare_fmt2 by lia. rewrite string_compare_cons.
  rewrite string_compare_fmt2 by lia. rewrite string_compare_cons.
  rewrite string_compare_fmt2 by lia. rewrite string_compare_cons.
  rewrite string_compare_fmt2 by lia. rewrite string_compare_cons.
  rewrite string_compare_fmt2 by lia. rewrite string_compare_refl.
  repeat compare_step; symmetry;
    first [ apply Z.compare_eq_iff; lia
          | apply Z.compare_lt_iff; lia
          | apply Z.compare_gt_iff; lia ].
Qed.

(** Where the order of the sort puts a record before another and both
    timestamps are written with the same suffix, the first is no older. *)
Lemma ge_no_older (suffix : string) (a b : dict) :
  ge "timestamp" a b -> no_older suffix a b.
Proof.
  intros Hge ra rb (y1 & mo1 & d1 & h1 & mi1 & s1 & Hf1 & Ht1 & ->)
    (y2 & mo2 & d2 & h2 & mi2 & s2 & Hf2 & Ht2 & ->).
  specialize (Hge (wall_clock y1 mo1 d1 h1 mi1 s1 ++ suffix)
                  (wall_clock y2 mo2 d2 h2 mi2 s2 ++ suffix)).
  unfold field in Hge.
  rewrite (dict_get_some _ _ _ _ Ht1), (dict_get_some _ _ _ _ Ht2) in Hge.
  specialize (Hge eq_refl eq_refl). unfold String.leb in Hge.
  rewrite (string_compare_wall_clock _ _ _ _ _ _ _ _ _ _ _ _ suffix Hf2 Hf1)
    in Hge.
  destruct (Z.compare_spec (wall_clock_rank y2 mo2 d2 h2 mi2 s2)
              (wall_clock_rank y1 mo1 d1 h1 mi1 s1)); [lia | lia | discriminate Hge].
Qed.

(** ** The query *)

Lemma StronglySorted_app_inv {A : Type} (R : A -> A -> Prop) (l1 l2 : list A) :
  StronglySorted R (l1 ++ l2) ->
  StronglySorted R l1 /\ StronglySorted R l2
  /\ Forall (fun a => Forall (R a) l2) l1.
Proof.
  induction l1 as [|a l1 IH]; cbn; intros Hs.
  - repeat split; [constructor | exact Hs | constructor].
  - apply StronglySorted_inv in Hs. destruct Hs as [Hs Ha].
    destruct (IH Hs) as (H1 & H2 & H12).
    apply Forall_app in Ha. destruct Ha as [Ha1 Ha2].
    repeat split; [constructor | | constructor]; assumption.
Qed.

Lemma format_all_Forall2 (events : list dict) (l : list string) :
  format_all events = Ok l <-> Forall2 (fun r s => format_event r = Ok s) events l.
Proof.
  revert l. induction events as [|r events IH]; intros l; cbn [format_all].
  - split.
    + intros H. injection H as <-. constructor.
    + intros H. inversion H. reflexivity.
  - split.
    + intros H. destruct (format_event r) as [s|] eqn:Hr; [|discriminate H].
      cbn [bind] in H.
      destruct (format_all events) as [l'|] eqn:Hl; [|discriminate H].
      cbn [bind] in H. injection H as <-.
      constructor; [exact Hr | apply IH; reflexivity].
    + intros H. inversion H as [|? s ? l' Hr Hl]; subst.
      rewrite Hr. cbn [bind]. apply IH in Hl. rewrite Hl. reflexivity.
Qed.

(** The records the query reads, and the ones it leaves. *)
Lemma events_from_db_spec (c : collection) :
  let recs := events_from_db c in
  let rest := skipn 10 (sort_descending "timestamp" c) in
  (List.length recs <= 10)%nat
  /\ List.length recs = Nat.min 10 (List.length c)
  /\ Permutation c (recs ++ rest)
  /\ StronglySorted (ge "timestamp") recs
  /\ Forall (fun r => Forall (ge "timestamp" r) rest) recs.
Proof.
  cbv zeta. unfold events_from_db, limit.
  pose proof (sort_descending_permutation "timestamp" c) as Hp.
  pose proof (sort_descending_strings "timestamp" c) as Hs.
  rewrite <- (firstn_skipn 10 (sort_descending "timestamp" c)) in Hs.
  apply StronglySorted_app_inv in Hs. destruct Hs as (H1 & _ & H12).
  repeat split.
  - rewrite length_firstn. lia.
  - rewrite length_firstn, (Permutation_length Hp). reflexivity.
  - rewrite firstn_skipn. exact Hp.
  - exact H1.
  - exact H12.
Qed.

Lemma StronglySorted_impl {A : Type} (R S : A -> A -> Prop) (l : list A) :
  (forall a b, R a b -> S a b) -> StronglySorted R l -> StronglySorted S l.
Proof.
  intros HRS Hs. induction Hs as [|a l Hs IH Ha]; constructor.
  - exact IH.
  - eapply Forall_impl; [|exact Ha]. intros b. apply HRS.
Qed.

(** C6, amended. Whenever the query returns, it returns at most 10
    strings (10, or as many as there are records), each the output of
    [format_event] for the corresponding record, the records being records
    of the collection.  As to time: of any two records whose timestamps
    are written [YYYY-MM-DDTHH:MM:SS] with the same suffix, one that is
    returned is no older than one that is left out, and one that is
    returned earlier is no older than one returned later -- newest first,
    where records of the same time may follow one another. *)
Theorem get_events_ordered :
  forall (c : collection) (l : list string),
    get_events c = Ok l ->
    Forall2 (fun r s => format_event r = Ok s) (events_from_db c) l
    /\ (List.length l <= 10)%nat
    /\ List.length l = Nat.min 10 (List.length c)
    /\ exists rest : list dict,
         Permutation c (events_from_db c ++ rest)
         /\ forall suffix,
              StronglySorted (no_older suffix) (events_from_db c)
              /\ Forall (fun r => Forall (no_older suffix r) rest)
                   (events_from_db c).
Proof.
  intros c l Hl. unfold get_events in Hl.
  apply format_all_Forall2 in Hl.
  destruct (events_from_db_spec c) as (Hlen & Hmin & Hp & Hs & Hr).
  rewrite <- (Forall2_length Hl).
  repeat split; try assumption.
  exists (skipn 10 (sort_descending "timestamp" c)).
  split; [exact Hp|]. intros suffix. split.
  - exact (StronglySorted_impl _ _ _ (ge_no_older suffix) Hs).
  - eapply Forall_impl; [|exact Hr]. intros r Hrest.
    eapply Forall_impl; [|exact Hrest]. intros r'. apply ge_no_older.
Qed.

(** * Further properties of [app.py] *)

(** ** Normalization of the other events *)

Lemma opened_event_complete (pr user head base : dict)
    (id login head_ref base_ref created_at : value) :
  lookup "id" pr = Some id ->
  lookup "user" pr = Some (VDict user) ->
  lookup "login" user = Some login ->
  lookup "head" pr = Some (VDict head) ->
  lookup "ref" head = Some head_ref ->
  lookup "base" pr = Some (VDict base) ->
  lookup "ref" base = Some base_ref ->
  lookup "created_at" pr = Some created_at ->
  opened_event (VDict pr)
  = Ok (Continue (VDict (opened_doc id login head_ref base_ref created_at))).
Proof.
  intros Hid Hu Hl Hh Hhr Hb Hbr Hc.
  unfold opened_event, getitem.
  rewrite (dict_getitem_some _ _ _ Hid). cbn [bind].
  rewrite (dict_getitem_some _ _ _ Hu). cbn [bind].
  rewrite (dict_getitem_some _ _ _ Hl). cbn [bind].
  rewrite (dict_getitem_some _ _ _ Hh). cbn [bind].
  rewrite (dict_getitem_some _ _ _ Hhr). cbn [bind].
  rewrite (dict_getitem_some _ _ _ Hb). cbn [bind].
  rewrite (dict_getitem_some _ _ _ Hbr). cbn [bind].
  rewrite (dict_getitem_some _ _ _ Hc). reflexivity.
Qed.

(** X1. For a ["pull_request"] event whose [action] is ["opened"], whatever
    normalization produces is the record with [action] ["PULL_REQUEST"],
    [author] the login of [user], [request_id] the string form of [id], the
    head and base ref names and the [created_at] timestamp, and it is
    produced whenever these fields are there; whether the pull request is
    marked merged plays no part. *)
Theorem opened_pull_request_normalization :
  forall (d : dict),
    lookup "action" d = Some (VStr "opened") ->
    (forall f : flow,
       normalize_event (Some "pull_request") (VDict d) = Ok f ->
       exists pr id user login head head_ref base base_ref created_at,
         dict_get d "pull_request" (VDict []) = VDict pr
         /\ lookup "id" pr = Some id
         /\ lookup "user" pr = Some (VDict user)
         /\ lookup "login" user = Some login
         /\ lookup "head" pr = Some (VDict head)
         /\ lookup "ref" head = Some head_ref
         /\ lookup "base" pr = Some (VDict base)
         /\ lookup "ref" base = Some base_ref
         /\ lookup "created_at" pr = Some created_at
         /\ f = Continue (VDict
                [ ("request_id", VStr (str id));
                  ("author", login);
                  ("action", VStr "PULL_REQUEST");
                  ("from_branch", head_ref);
                  ("to_branch", base_ref);
                  ("timestamp", created_at) ]))
    /\ (forall pr id user login head head_ref base base_ref created_at,
          dict_get d "pull_request" (VDict []) = VDict pr ->
          lookup "id" pr = Some id ->
          lookup "user" pr = Some (VDict user) ->
          lookup "login" user = Some login ->
          lookup "head" pr = Some (VDict head) ->
          lookup "ref" head = Some head_ref ->
          lookup "base" pr = Some (VDict base) ->
          lookup "ref" base = Some base_ref ->
          lookup "created_at" pr = Some created_at ->
          normalize_event (Some "pull_request") (VDict d)
          = Ok (Continue (VDict
              [ ("request_id", VStr (str id));
                ("author", login);
                ("action", VStr "PULL_REQUEST");
                ("from_branch", head_ref);
                ("to_branch", base_ref);
                ("timestamp", created_at) ]))).
Proof.
  intros d Ha. rewrite (opened_event_unfold d Ha). split.
  - intros f Hf.
    destruct (opened_event_inv _ f Hf)
      as (pr & id & user & login & head & head_ref & base & base_ref
          & created_at & H).
    exists pr, id, user, login, head, head_ref, base, base_ref, created_at.
    exact H.
  - intros pr id user login head head_ref base base_ref created_at
      -> Hid Hu Hl Hh Hhr Hb Hbr Hc.
    exact (opened_event_complete pr user head base id login head_ref base_ref
             created_at Hid Hu Hl Hh Hhr Hb Hbr Hc).
Qed.

(** X2. An event the handler has no rule for is answered with ["success"]
    and leaves the collection as it was: an event of any type other than
    ["push"] and ["pull_request"] (or with no type header), whatever the
    payload, which is not looked at; and a ["pull_request"] event whose
    [action] is neither ["opened"] nor ["closed"], whatever its
    [pull_request] field holds. *)
Theorem unactionable_event_is_ignored :
  forall (c : collection) (event_type : option string) (data : value) (d : dict),
    (event_type_is event_type "push" = false ->
     event_type_is event_type "pull_request" = false ->
     github_webhook c event_type data = (Ok success, c))
    /\ (eq_str (dict_get d "action" VNone) "opened" = false ->
        eq_str (dict_get d "action" VNone) "closed" = false ->
        github_webhook c (Some "pull_request") (VDict d) = (Ok success, c)).
Proof.
  intros c event_type data d. split.
  - intros Hp Hr. apply github_webhook_nothing.
    unfold normalize_event. rewrite Hp, Hr. reflexivity.
  - intros Ho Hc. apply github_webhook_nothing.
    change (normalize_event (Some "pull_request") (VDict d))
      with (pull_request_event (VDict d)).
    unfold pull_request_event. cbn [get bind]. rewrite Ho, Hc. reflexivity.
Qed.

(** X3. A payload that is no mapping makes a ["push"] and a
    ["pull_request"] event raise [AttributeError]; so does a closed pull
    request whose [pull_request] field is no mapping, while an opened one
    raises [TypeError].  The collection is left as it was. *)
Theorem non_mapping_payload_raises :
  forall (c : collection) (data : value) (d : dict),
    ((forall m, data <> VDict m) ->
     github_webhook c (Some "push") data = (Raise AttributeError, c)
     /\ github_webhook c (Some "pull_request") data
        = (Raise AttributeError, c))
    /\ ((forall m, dict_get d "pull_request" (VDict []) <> VDict m) ->
        (lookup "action" d = Some (VStr "closed") ->
         github_webhook c (Some "pull_request") (VDict d)
         = (Raise AttributeError, c))
        /\ (lookup "action" d = Some (VStr "opened") ->
            github_webhook c (Some "pull_request") (VDict d)
            = (Raise TypeError, c))).
Proof.
  intros c data d. split.
  - intros Hnd. split; apply github_webhook_raise;
      destruct data as [|b|z|s|l|m]; try reflexivity;
      exfalso; exact (Hnd m eq_refl).
  - intros Hnd. split; intros Ha; apply github_webhook_raise.
    + change (normalize_event (Some "pull_request") (VDict d))
        with (pull_request_event (VDict d)).
      unfold pull_request_event. cbn [get bind].
      rewrite (dict_get_some _ _ _ _ Ha). cbn [eq_str String.eqb].
      destruct (dict_get d "pull_request" (VDict [])) as [|b|z|s|l|m];
        try reflexivity.
      exfalso; exact (Hnd m eq_refl).
    + rewrite (opened_event_unfold d Ha).
      destruct (dict_get d "pull_request" (VDict [])) as [|b|z|s|l|m];
        try reflexivity.
      exfalso; exact (Hnd m eq_refl).
Qed.

(** ** The formatter, case by case *)

(** X4. [format_event] raises exactly on the records whose [author] and
    [action] can be read and whose [timestamp] is truthy and no string, and
    what it raises then is [AttributeError]; on every other record it
    returns a string. *)
Theorem format_event_raises_iff :
  forall (event_data : dict) (e : exn),
    format_event event_data = Raise e
    <-> (e = AttributeError
         /\ (exists author, lookup "author" event_data = Some author)
         /\ (exists action, lookup "action" event_data = Some action)
         /\ exists v, lookup "timestamp" event_data = Some v
                      /\ truthy v = true /\ forall s, v <> VStr s).
Proof.
  intros event_data e.
  unfold format_event, format_event_body, dict_getitem.
  destruct (lookup "author" event_data) as [author|] eqn:Hau; cbn [bind].
  2: { split; [discriminate|]. intros (_ & (a & Ha) & _). discriminate Ha. }
  destruct (lookup "action" event_data) as [action|] eqn:Hac; cbn [bind].
  2: { split; [discriminate|]. intros (_ & _ & (a & Ha) & _). discriminate Ha. }
  destruct (lookup "timestamp" event_data) as [v|] eqn:Hts.
  2: { rewrite !(dict_get_none _ _ VNone Hts). cbn.
       split; [discriminate|]. intros (_ & _ & _ & (v & Hv & _)).
       discriminate Hv. }
  rewrite !(dict_get_some _ _ _ VNone Hts).
  destruct (truthy v) eqn:Htr; cbn [negb].
  2: { split; [discriminate|]. intros (_ & _ & _ & (w & Hw & Hwt & _)).
       injection Hw as <-. congruence. }
  destruct v as [|b|z|s|l|m]; cbn [replace bind].
  1, 2, 3, 5, 6:
    (split;
     [ intros H; injection H as <-;
       split; [reflexivity|]; split; [eauto|]; split; [eauto|];
       eexists; split; [reflexivity|]; split; [exact Htr | discriminate]
     | intros (-> & _); reflexivity ]).
  split.
  - unfold fromisoformat.
    destruct (py_fromisoformat pf (str_replace "Z" "+00:00" s)); discriminate.
  - intros (_ & _ & _ & (w & Hw & _ & Hns)). injection Hw as <-.
    exfalso. exact (Hns s eq_refl).
Qed.

(** X5. A record without [author] or without [action] is formatted as the
    data-error message, which names the record's [request_id], or
    ["Unknown ID"] when it has none -- whatever its [timestamp]: missing,
    unparseable or no string at all. *)
Theorem format_event_missing_key :
  forall (event_data : dict),
    lookup "author" event_data = None \/ lookup "action" event_data = None ->
    format_event event_data
    = Ok ("Could not display event due to a data error: "
          ++ match lookup "request_id" event_data with
             | Some request_id => str request_id
             | None => "Unknown ID"
             end).
Proof.
  intros event_data H.
  assert (Hb : format_event_body event_data = Raise KeyError).
  { unfold format_event_body, dict_getitem.
    destruct (lookup "author" event_data) as [author|]; [|reflexivity].
    destruct H as [H | H]; [discriminate H|]. rewrite H. reflexivity. }
  unfold format_event. rewrite Hb. unfold data_error, dict_get.
  destruct (lookup "request_id" event_data); reflexivity.
Qed.

(** X6. The sentence for a record whose timestamp is read is chosen by
    comparing [action] with the three strings exactly: ["PUSH"] names the
    target branch only, ["PULL_REQUEST"] and ["MERGE"] name both branches,
    and any other action, a string in a different case or a value that is
    no string, gives ["Unknown action: ... by ..."], which shows neither
    branch nor timestamp. *)
Theorem format_event_sentences :
  forall (event_data : dict) (author action : value) (ts : string)
         (dt : datetime),
    lookup "author" event_data = Some author ->
    lookup "action" event_data = Some action ->
    lookup "timestamp" event_data = Some (VStr ts) ->
    fromisoformat (str_replace "Z" "+00:00" ts) = Ok dt ->
    let from_branch := str (dict_get event_data "from_branch" (VStr "")) in
    let to_branch := str (dict_get event_data "to_branch" (VStr "")) in
    (action = VStr "PUSH" ->
     format_event event_data
     = Ok (str author ++ " pushed to " ++ to_branch ++ " on " ++ strftime dt))
    /\ (action = VStr "PULL_REQUEST" ->
        format_event event_data
        = Ok (str author ++ " submitted a pull request from " ++ from_branch
              ++ " to " ++ to_branch ++ " on " ++ strftime dt))
    /\ (action = VStr "MERGE" ->
        format_event event_data
        = Ok (str author ++ " merged branch " ++ from_branch
              ++ " to " ++ to_branch ++ " on " ++ strftime dt))
    /\ (action <> VStr "PUSH" -> action <> VStr "PULL_REQUEST" ->
        action <> VStr "MERGE" ->
        format_event event_data
        = Ok ("Unknown action: " ++ str action ++ " by " ++ str author)).
Proof.
  intros event_data author action ts dt Ha Hc Ht Hp. cbv zeta.
  assert (Hne : ts <> "").
  { intros ->. cbn [str_replace] in Hp.
    rewrite fromisoformat_empty in Hp. discriminate Hp. }
  rewrite (format_event_str_timestamp event_data author action ts Ha Hc Ht Hne),
    Hp.
  repeat split.
  - intros ->. reflexivity.
  - intros ->. reflexivity.
  - intros ->. reflexivity.
  - intros H1 H2 H3. unfold sentence.
    assert (Hneq : forall s, action <> VStr s -> eq_str action s = false).
    { intros s Hs. destruct action as [|b|z|s'|l|m]; try reflexivity.
      cbn. apply String.eqb_neq. congruence. }
    rewrite (Hneq _ H1), (Hneq _ H2), (Hneq _ H3). reflexivity.
Qed.

(** X7. A trailing ['Z'] and the offset ["+00:00"] are interchangeable:
    two records that agree on the other fields [format_event] reads, one
    with the timestamp [body ++ "Z"] and one with [body ++ "+00:00"], where
    [body] holds no ['Z'], are formatted alike. *)
Theorem Z_and_utc_offset_agree :
  forall (d1 d2 : dict) (body : string),
    contains_char "Z" body = false ->
    lookup "timestamp" d1 = Some (VStr (body ++ "Z")) ->
    lookup "timestamp" d2 = Some (VStr (body ++ "+00:00")) ->
    (forall k, k <> "timestamp" -> lookup k d1 = lookup k d2) ->
    format_event d1 = format_event d2.
Proof.
  intros d1 d2 body Hb H1 H2 Hk.
  assert (Hr1 : str_replace "Z" "+00:00" (body ++ "Z") = body ++ "+00:00").
  { rewrite (str_replace_trailing_Z body Hb). apply trailing_Z_as_utc_app. }
  assert (Hr2 : str_replace "Z" "+00:00" (body ++ "+00:00") = body ++ "+00:00").
  { rewrite str_replace_app, (str_replace_absent _ _ _ Hb). reflexivity. }
  assert (Hg : forall k v, k <> "timestamp" ->
                           dict_get d1 k v = dict_get d2 k v).
  { intros k v Hne. unfold dict_get. rewrite (Hk k Hne). reflexivity. }
  assert (Hbody : format_event_body d1 = format_event_body d2).
  { unfold format_event_body, dict_getitem.
    rewrite (Hk "author" ltac:(discriminate)), (Hk "action" ltac:(discriminate)).
    rewrite (Hg "from_branch" _ ltac:(discriminate)),
      (Hg "to_branch" _ ltac:(discriminate)).
    rewrite !(dict_get_some _ _ _ VNone H1), !(dict_get_some _ _ _ VNone H2).
    assert (Ht : forall s, truthy (VStr (body ++ s)) = truthy (VStr s)
                           \/ truthy (VStr (body ++ s)) = true).
    { intros s. destruct body; [left; reflexivity | right; reflexivity]. }
    assert (T1 : truthy (VStr (body ++ "Z")) = true)
      by (destruct (Ht "Z") as [-> | ->]; reflexivity).
    assert (T2 : truthy (VStr (body ++ "+00:00")) = true)
      by (destruct (Ht "+00:00") as [-> | ->]; reflexivity).
    rewrite T1, T2. cbn [negb replace bind]. rewrite Hr1, Hr2. reflexivity. }
  unfold format_event, data_error. rewrite Hbody.
  rewrite (Hg "request_id" _ ltac:(discriminate)). reflexivity.
Qed.

(** ** The handler and the collection *)

Lemma store_event_results (c : collection) (event_doc : value) :
  fst (store_event c event_doc) = Ok success
  \/ exists e, store_event c event_doc = (Raise e, c).
Proof.
  unfold store_event.
  destruct (truthy event_doc); [|left; reflexivity].
  destruct (getitem event_doc "request_id") as [rid|e]; [|right; eauto].
  destruct (getitem event_doc "action") as [act|e]; [|right; eauto].
  destruct (find_one c [("request_id", rid); ("action", act)])
    as [[found|]|e]; [left; reflexivity | | right; eauto].
  destruct event_doc as [|b|z|s|l|doc]; try (right; eauto; fail).
  destruct (insert_one c doc) as [c'|e]; [left; reflexivity | right; eauto].
Qed.

(** Storing a record whose key is made of strings a second time changes
    nothing. *)
Lemma store_event_idempotent (c : collection) (event_doc : value) :
  Forall string_keyed c ->
  (forall doc, event_doc = VDict doc -> string_keyed doc) ->
  store_event (snd (store_event c event_doc)) event_doc
  = store_event c event_doc.
Proof.
  intros Hc Hk.
  destruct (truthy event_doc) eqn:Ht;
    [|unfold store_event; rewrite Ht; reflexivity].
  destruct event_doc as [|b|z|s|l|doc];
    try (unfold store_event; rewrite Ht; reflexivity).
  destruct (lookup "request_id" doc) as [rid|] eqn:Hr.
  2: { unfold store_event. rewrite Ht. cbn [getitem].
       rewrite (dict_getitem_none _ _ Hr). reflexivity. }
  destruct (lookup "action" doc) as [act|] eqn:Ha.
  2: { unfold store_event. rewrite Ht. cbn [getitem].
       rewrite (dict_getitem_some _ _ _ Hr), (dict_getitem_none _ _ Ha).
       reflexivity. }
  destruct (store_event_doc c doc rid act Hr Ha) as [Hkey Hs].
  pose proof (Hk doc eq_refl) as Hsk.
  destruct (string_keyed_key doc Hsk) as (r & a & Hra).
  rewrite Hkey in Hra. injection Hra as -> ->.
  rewrite Hs.
  destruct (find_one_string_key_cases c r a Hc)
    as [[Hin [old Hf]] | [Hnin Hf]]; rewrite Hf; cbn [snd].
  - rewrite Hs, Hf. reflexivity.
  - destruct (insert_one_cases c doc) as [Hi | [e Hi]]; rewrite Hi; cbn [snd].
    + etransitivity;
        [exact (proj2 (store_event_doc (c ++ [doc])%list doc (VStr r) (VStr a)
                         Hr Ha))|].
      assert (Hc' : Forall string_keyed (c ++ [doc])%list).
      { apply Forall_app. split; [exact Hc | constructor; [exact Hsk | constructor]]. }
      destruct (find_one_string_key_cases (c ++ [doc])%list r a Hc')
        as [[_ [found ->]] | [Hnin' _]]; [reflexivity|].
      exfalso. apply Hnin'. rewrite map_app. apply in_or_app. right. left.
      exact Hkey.
    + rewrite Hs, Hf, Hi. reflexivity.
Qed.

(** X8. Delivering an event a second time changes nothing, when the keys
    are strings: in a collection whose records have strings as
    [request_id] and [action], after the delivery of an event whose record
    has, the same delivery again leaves the collection as the first left it
    and gets the same answer (or raises the same exception). *)
Theorem github_webhook_idempotent :
  forall (c : collection) (event_type : option string) (data : value),
    Forall string_keyed c ->
    string_keyed_delivery (event_type, data) ->
    github_webhook (snd (github_webhook c event_type data)) event_type data
    = github_webhook c event_type data.
Proof.
  intros c event_type data Hc Hd. unfold github_webhook.
  destruct (normalize_event event_type data) as [[r|event_doc]|e] eqn:Hn;
    try reflexivity.
  apply store_event_idempotent; [exact Hc|].
  intros doc ->. exact (Hd doc Hn).
Qed.

(** X9. The collection is append-only: a delivery keeps every stored
    record, unchanged and in place, and adds at most one at the end; a
    sequence of deliveries adds at most as many records as it has
    deliveries. *)
Theorem collection_append_only :
  forall (c : collection) (rs : list delivery) (event_type : option string)
         (data : value),
    (exists added,
       snd (github_webhook c event_type data) = (c ++ added)%list
       /\ (List.length added <= 1)%nat)
    /\ (exists added,
          deliver_all rs c = (c ++ added)%list
          /\ (List.length added <= List.length rs)%nat).
Proof.
  intros c rs event_type data.
  assert (Hone : forall c event_type data,
            exists added,
              snd (github_webhook c event_type data) = (c ++ added)%list
              /\ (List.length added <= 1)%nat).
  { clear. intros c event_type data.
    destruct (github_webhook_collection c event_type data)
      as [-> | (doc & _ & ->)].
    - exists []. rewrite app_nil_r. split; [reflexivity | cbn; lia].
    - exists [doc]. split; [reflexivity | cbn; lia]. }
  split; [apply Hone|].
  unfold deliver_all. revert c.
  induction rs as [|[et dt] rs IH]; intros c; cbn [fold_left].
  - exists []. rewrite app_nil_r. split; [reflexivity | cbn; lia].
  - unfold deliver at 2. cbn [fst snd].
    destruct (Hone c et dt) as (a1 & -> & H1).
    destruct (IH (c ++ a1)%list) as (a2 & -> & H2).
    exists (a1 ++ a2)%list. rewrite app_assoc. split; [reflexivity|].
    rewrite length_app. cbn [List.length]. lia.
Qed.

Lemma normalize_event_return (event_type : option string) (data : value)
    (r : response) :
  normalize_event event_type data = Ok (Return r) ->
  r = ignored /\ event_type_is event_type "push" = true.
Proof.
  unfold normalize_event.
  destruct (event_type_is event_type "push").
  - intros Hf. destruct data as [|b|z|s|l|d]; try discriminate Hf.
    destruct (truthy (dict_get d "head_commit" VNone)) eqn:Hhc.
    + destruct (push_event_inv d _ Hhc Hf)
        as (pusher & name & ref & after & hc & ts & _ & _ & _ & _ & _ & _ & E).
      discriminate E.
    + unfold push_event in Hf. cbn [get bind] in Hf. rewrite Hhc in Hf.
      injection Hf as <-. split; reflexivity.
  - destruct (event_type_is event_type "pull_request"); [|discriminate].
    intros Hf. destruct data as [|b|z|s|l|d]; try discriminate Hf.
    unfold pull_request_event in Hf. cbn [get bind] in Hf.
    destruct (eq_str (dict_get d "action" VNone) "opened").
    + destruct (opened_event_inv _ _ Hf)
        as (pr & id & user & login & head & head_ref & base & base_ref
            & created_at & _ & _ & _ & _ & _ & _ & _ & _ & _ & E).
      discriminate E.
    + destruct (eq_str (dict_get d "action" VNone) "closed");
        [|discriminate Hf].
      destruct (dict_get d "pull_request" (VDict [])) as [|b|z|s|l|pr];
        try discriminate Hf.
      cbn [get bind] in Hf.
      destruct (truthy (dict_get pr "merged" VNone)); [|discriminate Hf].
      destruct (merged_event_inv _ _ Hf)
        as (id & author & head & head_ref & base & base_ref & merged_at
            & _ & _ & _ & _ & _ & _ & _ & E).
      discriminate E.
Qed.

(** X10. The handler answers in one of two ways when it returns: status
    ["success"] with code 200, or, for a ["push"] event only and with the
    collection left as it was, status ["ignored, no head_commit"] with code
    200.  A duplicate is answered ["success"] like a stored event; there is
    no answer that reports an error, which only an exception does, and an
    exception leaves the collection as it was. *)
Theorem github_webhook_answers :
  forall (c : collection) (event_type : option string) (data : value),
    (exists c', github_webhook c event_type data = (Ok success, c'))
    \/ (github_webhook c event_type data = (Ok ignored, c)
        /\ event_type_is event_type "push" = true)
    \/ (exists e, github_webhook c event_type data = (Raise e, c)).
Proof.
  intros c event_type data. unfold github_webhook.
  destruct (normalize_event event_type data) as [[r|event_doc]|e] eqn:Hn.
  - destruct (normalize_event_return _ _ _ Hn) as [-> Hp].
    right; left. split; [reflexivity | exact Hp].
  - destruct (store_event_results c event_doc) as [H | [e H]].
    + left. exists (snd (store_event c event_doc)).
      destruct (store_event c event_doc) as [r c']. cbn in H. subst r.
      reflexivity.
    + right; right. exists e. exact H.
  - right; right. exists e. reflexivity.
Qed.

Lemma normalize_event_stored_shape (event_type : option string) (data : value)
    (doc : dict) :
  normalize_event event_type data = Ok (Continue (VDict doc)) ->
  stored_shape doc.
Proof.
  unfold normalize_event.
  destruct (event_type_is event_type "push").
  - intros Hf. destruct data as [|b|z|s|l|d]; try discriminate Hf.
    destruct (truthy (dict_get d "head_commit" VNone)) eqn:Hhc.
    + destruct (push_event_inv d _ Hhc Hf)
        as (pusher & name & ref & after & hc & ts & _ & _ & _ & _ & _ & _ & E).
      injection E as ->. unfold push_doc.
      exists after, name, "PUSH", (VStr ""), (VStr (last_segment ref)), ts.
      split; [reflexivity|]. left. repeat split.
      exists (last_segment ref). split; [reflexivity|].
      exact (proj1 (last_segment_spec ref)).
    + unfold push_event in Hf. cbn [get bind] in Hf. rewrite Hhc in Hf.
      discriminate Hf.
  - destruct (event_type_is event_type "pull_request"); [|discriminate].
    intros Hf. destruct data as [|b|z|s|l|d]; try discriminate Hf.
    unfold pull_request_event in Hf. cbn [get bind] in Hf.
    destruct (eq_str (dict_get d "action" VNone) "opened").
    + destruct (opened_event_inv _ _ Hf)
        as (pr & id & user & login & head & head_ref & base & base_ref
            & created_at & _ & _ & _ & _ & _ & _ & _ & _ & _ & E).
      injection E as ->. unfold opened_doc.
      exists (VStr (str id)), login, "PULL_REQUEST", head_ref, base_ref,
        created_at.
      split; [reflexivity|]. right. split; [left; reflexivity | eauto].
    + destruct (eq_str (dict_get d "action" VNone) "closed");
        [|discriminate Hf].
      destruct (dict_get d "pull_request" (VDict [])) as [|b|z|s|l|pr];
        try discriminate Hf.
      cbn [get bind] in Hf.
      destruct (truthy (dict_get pr "merged" VNone)); [|discriminate Hf].
      destruct (merged_event_inv _ _ Hf)
        as (id & author & head & head_ref & base & base_ref & merged_at
            & _ & _ & _ & _ & _ & _ & _ & E).
      injection E as ->. unfold merge_doc.
      exists (VStr (str id)), author, "MERGE", head_ref, base_ref, merged_at.
      split; [reflexivity|]. right. split; [right; reflexivity | eauto].
Qed.

(** X11. Every record stored by a sequence of deliveries to the empty
    collection has, of the handler's making, the six fields [request_id],
    [author], [action], [from_branch], [to_branch], [timestamp], in this
    order, with [action] one of ["PUSH"], ["PULL_REQUEST"], ["MERGE"]; a
    push record has the empty string as [from_branch] and a string without
    a slash as [to_branch]; a pull-request or merge record has a string as
    [request_id].  (The store adds its [_id], which is no part of the
    model.) *)
Theorem stored_records_shape :
  forall (rs : list delivery), Forall stored_shape (deliver_all rs []).
Proof.
  intros rs. apply deliver_all_Forall; [|constructor].
  intros event_type data doc Hn.
  exact (normalize_event_stored_shape _ _ _ Hn).
Qed.

(** A string without the separator is the only segment of its split. *)
Lemma str_split_single (sep : ascii) (s : string) :
  contains_char sep s = false -> str_split sep s = [s].
Proof.
  induction s as [|a s IH]; cbn; [reflexivity|].
  destruct (a =? sep)%char; [discriminate|].
  cbn. intros H. rewrite (IH H). reflexivity.
Qed.

Lemma str_split_app (sep : ascii) (before seg : string) :
  contains_char sep seg = false ->
  str_split sep (before ++ String sep seg)
  = (str_split sep before ++ [seg])%list.
Proof.
  intros Hseg. induction before as [|c before IH]; cbn [append str_split].
  - rewrite Ascii.eqb_refl. rewrite (str_split_single sep seg Hseg).
    reflexivity.
  - rewrite IH. destruct (c =? sep)%char; [reflexivity|].
    pose proof (str_split_not_nil sep before) as Hne.
    destruct (str_split sep before) as [|h t]; [contradiction|]. reflexivity.
Qed.

(** X12. The target branch of a push is what follows the last slash of
    [ref]: for [ref = before ++ "/" ++ segment] with no slash in
    [segment] the record's [to_branch] is [segment], so a branch whose name
    holds a slash is stored under the last part of its name only; a [ref]
    without a slash is the target branch as it is, and a [ref] that ends
    with a slash gives the empty string. *)
Theorem push_target_branch :
  forall (d pusher hc : dict) (name after ts : value) (ref before segment : string),
    lookup "pusher" d = Some (VDict pusher) ->
    lookup "name" pusher = Some name ->
    lookup "ref" d = Some (VStr ref) ->
    lookup "after" d = Some after ->
    lookup "head_commit" d = Some (VDict hc) ->
    lookup "timestamp" hc = Some ts ->
    contains_char "/" segment = false ->
    ref = before ++ "/" ++ segment \/ ref = segment ->
    normalize_event (Some "push") (VDict d)
    = Ok (Continue (VDict
        [ ("request_id", after);
          ("author", name);
          ("action", VStr "PUSH");
          ("from_branch", VStr "");
          ("to_branch", VStr segment);
          ("timestamp", ts) ])).
Proof.
  intros d pusher hc name after ts ref before segment
    Hp Hn Hr Ha Hh Ht Hseg Href.
  change (normalize_event (Some "push") (VDict d)) with (push_event (VDict d)).
  rewrite (push_event_complete d pusher hc name after ts ref Hp Hn Hr Ha Hh Ht).
  assert (Hlast : last_segment ref = segment).
  { unfold last_segment. destruct Href as [-> | ->].
    - cbn [append]. rewrite (str_split_app "/" before segment Hseg).
      apply last_last.
    - rewrite (str_split_single "/" segment Hseg). reflexivity. }
  rewrite Hlast. reflexivity.
Qed.

(** X13. A push delivered to the empty collection is what the query shows
    next: when the commit hash is a string, the head-commit timestamp is a
    string that [fromisoformat] reads and the store takes the record, the
    query returns the one sentence [<pusher> pushed to <branch> on <time>],
    with the pusher's name, the last segment of [ref] and the rendered
    timestamp. *)
Theorem push_then_query :
  forall (d pusher hc : dict) (name : value) (after ref ts : string)
         (dt : datetime),
    lookup "pusher" d = Some (VDict pusher) ->
    lookup "name" pusher = Some name ->
    lookup "ref" d = Some (VStr ref) ->
    lookup "after" d = Some (VStr after) ->
    lookup "head_commit" d = Some (VDict hc) ->
    lookup "timestamp" hc = Some (VStr ts) ->
    fromisoformat (str_replace "Z" "+00:00" ts) = Ok dt ->
    accepted [] (push_doc (VStr after) name (last_segment ref) (VStr ts)) ->
    get_events (snd (github_webhook [] (Some "push") (VDict d)))
    = Ok [str name ++ " pushed to " ++ last_segment ref ++ " on "
          ++ strftime dt].
Proof.
  intros d pusher hc name after ref ts dt Hp Hn Hr Ha Hh Ht Hparse Hacc.
  pose proof (push_event_complete d pusher hc name (VStr after) (VStr ts) ref
                Hp Hn Hr Ha Hh Ht) as Hdoc.
  change (push_event (VDict d)) with (normalize_event (Some "push") (VDict d))
    in Hdoc.
  rewrite (github_webhook_doc [] _ _ _ Hdoc).
  change (dedup_key (push_doc (VStr after) name (last_segment ref) (VStr ts)))
    with (VStr after, VStr "PUSH").
  rewrite find_one_empty, Hacc. cbn [snd app].
  unfold get_events, events_from_db.
  rewrite sort_descending_singleton. cbn [limit firstn format_all].
  assert (Hne : ts <> "").
  { intros ->. cbn [str_replace] in Hparse.
    rewrite fromisoformat_empty in Hparse. discriminate Hparse. }
  rewrite (format_event_str_timestamp
             (push_doc (VStr after) name (last_segment ref) (VStr ts))
             name (VStr "PUSH") ts eq_refl eq_refl eq_refl Hne), Hparse.
  reflexivity.
Qed.

(** X14. Records are deduplicated within one action only: in a collection
    whose records have strings as keys, when two deliveries produce records
    with strings as [request_id] and different actions, an opened and a
    merged pull request of the same id say, neither record's key is stored
    yet and the store takes both, both records are stored, in the order of
    delivery. *)
Theorem different_actions_both_stored :
  forall (c : collection) (event_type1 event_type2 : option string)
         (data1 data2 : value) (doc1 doc2 : dict),
    Forall string_keyed c ->
    normalize_event event_type1 data1 = Ok (Continue (VDict doc1)) ->
    normalize_event event_type2 data2 = Ok (Continue (VDict doc2)) ->
    string_keyed doc1 -> string_keyed doc2 ->
    lookup "action" doc1 <> lookup "action" doc2 ->
    ~ In (dedup_key doc1) (map dedup_key c) ->
    ~ In (dedup_key doc2) (map dedup_key c) ->
    accepted c doc1 -> accepted (c ++ [doc1])%list doc2 ->
    deliver_all [(event_type1, data1); (event_type2, data2)] c
    = (c ++ [doc1; doc2])%list.
Proof.
  intros c et1 et2 data1 data2 doc1 doc2 Hc H1 H2 Hk1 Hk2 Hact Hn1 Hn2
    Hacc1 Hacc2.
  unfold deliver_all. cbn [fold_left]. unfold deliver. cbn [fst snd].
  destruct (github_webhook_string_key c _ _ doc1 Hc H1 Hk1)
    as [[Hin _] | [_ [Hg | [e Hg]]]]; [contradiction | |].
  2: { rewrite (github_webhook_doc c _ _ _ H1) in Hg.
       destruct (string_keyed_key doc1 Hk1) as (r & a & Hra).
       rewrite Hra in Hg, Hn1.
       destruct (find_one_string_key_cases c r a Hc)
         as [[Hin _] | [_ Hf]]; [contradiction|].
       rewrite Hf, Hacc1 in Hg. discriminate Hg. }
  rewrite Hg. cbn [snd].
  assert (Hc' : Forall string_keyed (c ++ [doc1])%list).
  { apply Forall_app. split; [exact Hc | constructor; [exact Hk1 | constructor]]. }
  assert (Hn2' : ~ In (dedup_key doc2) (map dedup_key (c ++ [doc1])%list)).
  { rewrite map_app. intros Hin.
    apply in_app_or in Hin. destruct Hin as [Hin | [Hk | []]];
      [exact (Hn2 Hin)|].
    apply Hact.
    destruct (canonical_keys doc1 (normalize_event_canonical _ _ _ H1))
      as (r1 & a1 & Hr1 & Ha1).
    destruct (canonical_keys doc2 (normalize_event_canonical _ _ _ H2))
      as (r2 & a2 & Hr2 & Ha2).
    unfold dedup_key, field in Hk.
    rewrite (dict_get_some _ _ _ _ Hr1), (dict_get_some _ _ _ _ Ha1),
      (dict_get_some _ _ _ _ Hr2), (dict_get_some _ _ _ _ Ha2) in Hk.
    injection Hk as _ Hk. congruence. }
  destruct (github_webhook_string_key (c ++ [doc1])%list _ _ doc2 Hc' H2 Hk2)
    as [[Hin _] | [_ [Hg2 | [e Hg2]]]]; [contradiction | |].
  - rewrite Hg2. cbn [snd]. rewrite <- app_assoc. reflexivity.
  - rewrite (github_webhook_doc _ _ _ _ H2) in Hg2.
    destruct (string_keyed_key doc2 Hk2) as (r & a & Hra).
    rewrite Hra in Hg2, Hn2'.
    destruct (find_one_string_key_cases (c ++ [doc1])%list r a Hc')
      as [[Hin _] | [_ Hf]]; [contradiction|].
    rewrite Hf, Hacc2 in Hg2. discriminate Hg2.
Qed.

(** The records the query reads are records of the collection. *)
Lemma events_from_db_incl (c : collection) (doc : dict) :
  In doc (events_from_db c) -> In doc c.
Proof.
  unfold events_from_db, limit. intros Hin.
  apply (Permutation_in _
           (Permutation_sym (sort_descending_permutation "timestamp" c))).
  rewrite <- (firstn_skipn 10 (sort_descending "timestamp" c)).
  apply in_or_app. left. exact Hin.
Qed.

Lemma events_from_db_length (c : collection) :
  List.length (events_from_db c) = Nat.min 10 (List.length c).
Proof.
  unfold events_from_db, limit.
  rewrite length_firstn,
    (Permutation_length (sort_descending_permutation "timestamp" c)).
  reflexivity.
Qed.

(** X15. The query returns, with ten strings or as many as there are
    records, for every collection in which each record's [timestamp], when
    it is truthy, is a string: unparseable timestamps and missing fields
    are shown as messages and do not make it raise. *)
Theorem get_events_total_on_string_timestamps :
  forall (c : collection),
    (forall doc v,
       In doc c -> lookup "timestamp" doc = Some v -> truthy v = true ->
       exists s, v = VStr s) ->
    exists l,
      get_events c = Ok l
      /\ List.length l = Nat.min 10 (List.length c).
Proof.
  intros c Hc.
  assert (Hall : forall events,
            (forall doc, In doc events -> In doc c) ->
            exists l, format_all events = Ok l).
  { induction events as [|doc events IH]; intros Hsub; cbn [format_all].
    - exists []. reflexivity.
    - destruct (format_event_total_on_string_timestamps doc) as [s Hs].
      { intros v Hv Ht. exact (Hc doc v (Hsub doc (or_introl eq_refl)) Hv Ht). }
      destruct IH as [l Hl].
      { intros doc' Hin. apply Hsub. right. exact Hin. }
      exists (s :: l). rewrite Hs, Hl. reflexivity. }
  destruct (Hall (events_from_db c) (events_from_db_incl c)) as [l Hl].
  exists l. split; [exact Hl|].
  apply format_all_Forall2 in Hl. rewrite <- (Forall2_length Hl).
  apply events_from_db_length.
Qed.

(** ** The order of the query and the order of time *)

Lemma string_leb_wall_clock (y1 mo1 d1 h1 mi1 s1 y2 mo2 d2 h2 mi2 s2 : Z)
    (suffix : string) :
  printable_fields y1 mo1 d1 h1 mi1 s1 ->
  printable_fields y2 mo2 d2 h2 mi2 s2 ->
  String.leb (wall_clock y2 mo2 d2 h2 mi2 s2 ++ suffix)
             (wall_clock y1 mo1 d1 h1 mi1 s1 ++ suffix)
  = (wall_clock_rank y2 mo2 d2 h2 mi2 s2
     <=? wall_clock_rank y1 mo1 d1 h1 mi1 s1).
Proof.
  intros Hf1 Hf2. unfold String.leb.
  rewrite (string_compare_wall_clock _ _ _ _ _ _ _ _ _ _ _ _ suffix Hf2 Hf1).
  unfold Z.leb.
  destruct (wall_clock_rank y2 mo2 d2 h2 mi2 s2
            ?= wall_clock_rank y1 mo1 d1 h1 mi1 s1); reflexivity.
Qed.

(** X16. Among timestamps written [YYYY-MM-DDTHH:MM:SS] with the same
    suffix (all ending in ['Z'], or all with one offset), the order the
    query sorts by is the order of the calendar: of two such records with
    different wall-clock times the later one is read first. *)
Theorem query_order_is_calendar_order :
  forall (doc1 doc2 : dict) (y1 mo1 d1 h1 mi1 s1 y2 mo2 d2 h2 mi2 s2 : Z)
         (suffix : string),
    printable_fields y1 mo1 d1 h1 mi1 s1 ->
    printable_fields y2 mo2 d2 h2 mi2 s2 ->
    lookup "timestamp" doc1
    = Some (VStr (wall_clock y1 mo1 d1 h1 mi1 s1 ++ suffix)) ->
    lookup "timestamp" doc2
    = Some (VStr (wall_clock y2 mo2 d2 h2 mi2 s2 ++ suffix)) ->
    (ge "timestamp" doc1 doc2
     <-> wall_clock_rank y2 mo2 d2 h2 mi2 s2
         <= wall_clock_rank y1 mo1 d1 h1 mi1 s1)
    /\ (wall_clock_rank y1 mo1 d1 h1 mi1 s1
        < wall_clock_rank y2 mo2 d2 h2 mi2 s2 ->
        events_from_db [doc1; doc2] = [doc2; doc1])
    /\ (wall_clock_rank y2 mo2 d2 h2 mi2 s2
        < wall_clock_rank y1 mo1 d1 h1 mi1 s1 ->
        events_from_db [doc1; doc2] = [doc1; doc2]).
Proof.
  intros doc1 doc2 y1 mo1 d1 h1 mi1 s1 y2 mo2 d2 h2 mi2 s2 suffix
    Hf1 Hf2 Ht1 Ht2.
  assert (Hge12 : ge "timestamp" doc1 doc2
                  <-> wall_clock_rank y2 mo2 d2 h2 mi2 s2
                      <= wall_clock_rank y1 mo1 d1 h1 mi1 s1).
  { unfold ge, field.
    rewrite (dict_get_some _ _ _ _ Ht1), (dict_get_some _ _ _ _ Ht2).
    rewrite <- Z.leb_le,
      <- (string_leb_wall_clock _ _ _ _ _ _ _ _ _ _ _ _ suffix Hf1 Hf2).
    split.
    - intros H. exact (H _ _ eq_refl eq_refl).
    - intros H sa sb E1 E2. injection E1 as <-. injection E2 as <-. exact H. }
  assert (Hge21 : ge "timestamp" doc2 doc1
                  <-> wall_clock_rank y1 mo1 d1 h1 mi1 s1
                      <= wall_clock_rank y2 mo2 d2 h2 mi2 s2).
  { unfold ge, field.
    rewrite (dict_get_some _ _ _ _ Ht1), (dict_get_some _ _ _ _ Ht2).
    rewrite <- Z.leb_le,
      <- (string_leb_wall_clock _ _ _ _ _ _ _ _ _ _ _ _ suffix Hf2 Hf1).
    split.
    - intros H. exact (H _ _ eq_refl eq_refl).
    - intros H sa sb E1 E2. injection E1 as <-. injection E2 as <-. exact H. }
  assert (Hsort : forall l,
            l = sort_descending "timestamp" [doc1; doc2] ->
            (l = [doc1; doc2] /\ ge "timestamp" doc1 doc2)
            \/ (l = [doc2; doc1] /\ ge "timestamp" doc2 doc1)).
  { intros l ->.
    pose proof (sort_descending_strings "timestamp" [doc1; doc2]) as Hs.
    destruct (Permutation_length_2_inv
                (sort_descending_permutation "timestamp" [doc1; doc2]))
      as [E | E]; rewrite E in Hs |- *;
      apply StronglySorted_inv in Hs; destruct Hs as [_ Hs];
      inversion Hs as [|? ? Hge _]; subst; auto. }
  split; [exact Hge12|]. split.
  - intros Hlt. unfold events_from_db, limit.
    destruct (Hsort _ eq_refl) as [[-> Hge] | [-> _]]; [|reflexivity].
    apply Hge12 in Hge. lia.
  - intros Hlt. unfold events_from_db, limit.
    destruct (Hsort _ eq_refl) as [[-> _] | [-> Hge]]; [reflexivity|].
    apply Hge21 in Hge. lia.
Qed.

(** ** Deduplication where the keys are strings *)

(** X17. Where the keys are strings the duplicate check does what it is
    there for.  In a collection whose records have strings as
    [request_id] and [action] and no two of them the same pair, the
    delivery of an event whose record has strings as key keeps both, and so
    does any sequence of such deliveries; a record whose pair is stored is
    dropped, the collection left as it was and the answer ["success"]; and
    once a delivery has been answered ["success"] there is exactly one
    record with its pair, and a further delivery with the same pair is
    dropped and leaves exactly one. *)
Theorem dedup_string_keys :
  forall (c : collection) (event_type : option string) (data : value),
    Forall string_keyed c -> unique_keys c ->
    string_keyed_delivery (event_type, data) ->
    Forall string_keyed (snd (github_webhook c event_type data))
    /\ unique_keys (snd (github_webhook c event_type data))
    /\ (forall rs,
          Forall string_keyed_delivery rs -> unique_keys (deliver_all rs c))
    /\ (forall doc,
          normalize_event event_type data = Ok (Continue (VDict doc)) ->
          (In (dedup_key doc) (map dedup_key c) ->
             github_webhook c event_type data = (Ok success, c))
          /\ (fst (github_webhook c event_type data) = Ok success ->
              count_key (dedup_key doc) (snd (github_webhook c event_type data))
              = 1%nat
              /\ forall event_type' data' doc',
                   normalize_event event_type' data'
                   = Ok (Continue (VDict doc')) ->
                   dedup_key doc' = dedup_key doc ->
                   github_webhook (snd (github_webhook c event_type data))
                     event_type' data'
                   = (Ok success, snd (github_webhook c event_type data))
                   /\ count_key (dedup_key doc)
                        (deliver_all
                           [(event_type, data); (event_type', data')] c)
                      = 1%nat)).
Proof.
  intros c event_type data Hc Hu Hd.
  destruct (github_webhook_string_keys c event_type data Hc Hu Hd) as [Hc1 Hu1].
  split; [exact Hc1|]. split; [exact Hu1|]. split.
  { intros rs Hrs. exact (proj2 (deliver_all_string_keys rs c Hc Hu Hrs)). }
  intros doc Hn. pose proof (Hd doc Hn) as Hk.
  assert (Hpresent :
            fst (github_webhook c event_type data) = Ok success ->
            In (dedup_key doc)
              (map dedup_key (snd (github_webhook c event_type data)))).
  { intros Hok.
    destruct (github_webhook_string_key c _ _ doc Hc Hn Hk)
      as [[Hin ->] | [_ [-> | [e He]]]]; cbn [snd].
    - exact Hin.
    - rewrite map_app. apply in_or_app. right. left. reflexivity.
    - rewrite He in Hok. discriminate Hok. }
  split.
  - intros Hin.
    destruct (github_webhook_string_key c _ _ doc Hc Hn Hk)
      as [[_ Hg] | [Hnin _]]; [exact Hg | contradiction].
  - intros Hok. specialize (Hpresent Hok).
    split; [apply count_key_present; assumption|].
    intros event_type' data' doc' Hn' Hk'.
    assert (Hk2 : string_keyed doc').
    { destruct (string_keyed_key doc Hk) as (r & a & Hra).
      rewrite Hra in Hk'. unfold dedup_key in Hk'.
      injection Hk' as Hr' Ha'. exists r, a. split; assumption. }
    assert (Hg' : github_webhook (snd (github_webhook c event_type data))
                    event_type' data'
                  = (Ok success, snd (github_webhook c event_type data))).
    { destruct (github_webhook_string_key _ _ _ doc' Hc1 Hn' Hk2)
        as [[_ Hg] | [Hnin _]]; [exact Hg|].
      rewrite Hk' in Hnin. contradiction. }
    split; [exact Hg'|].
    unfold deliver_all. cbn [fold_left]. unfold deliver. cbn [fst snd].
    rewrite Hg'. cbn [snd]. apply count_key_present; assumption.
Qed.

End app.

(** * The reference platform meets the assumptions *)

(** ** [fromisoformat] *)

(** What [Reference.fromisoformat] returns has passed the range checks. *)
Lemma reference_fromisoformat_valid (s : string) (dt : datetime) :
  Reference.fromisoformat s = Some dt ->
  valid_fields (year dt) (month dt) (day dt) (hour dt) (minute dt)
    (second dt) (microsecond dt) = true.
Proof.
  unfold Reference.fromisoformat.
  destruct (Reference.parse_isoformat_date s) as [[[[y mo] d] rest]|];
    [|discriminate].
  destruct (match rest with
            | "" => Some (0, 0, 0, 0, None)
            | String _ _ =>
                Reference.parse_isoformat_time (Reference.skip_separator rest)
            end) as [[[[[h mi] sec] us] tz]|]; [|discriminate].
  destruct (valid_fields y mo d h mi sec us) eqn:Hv; [|discriminate].
  intros H. injection H as <-. exact Hv.
Qed.

Lemma reference_fromisoformat_fields :
  forall (s : string) (dt : datetime),
    fromisoformat reference s = Ok dt ->
    valid_fields (year dt) (month dt) (day dt) (hour dt) (minute dt)
      (second dt) (microsecond dt) = true.
Proof.
  intros s dt. unfold fromisoformat. cbn [py_fromisoformat reference].
  destruct (Reference.fromisoformat s) as [dt'|] eqn:E; [|discriminate].
  intros H. injection H as <-. exact (reference_fromisoformat_valid s dt' E).
Qed.

Lemma reference_fromisoformat_empty :
  fromisoformat reference "" = Raise ValueError.
Proof. reflexivity. Qed.

Lemma split_tz_app (a b : string) (negative : bool) :
  contains_char "+" a = false -> contains_char "-" a = false ->
  Reference.split_tz (a ++ String (sign_char negative) b)
  = (a, Some (if negative then -1 else 1, b)).
Proof.
  induction a as [|c a IH]; cbn [append Reference.split_tz contains_char].
  - intros _ _. destruct negative; reflexivity.
  - intros Hp Hm. apply orb_false_iff in Hp, Hm.
    destruct Hp as [Hp Hp'], Hm as [Hm Hm'].
    rewrite Hp, Hm, (IH Hp' Hm'). reflexivity.
Qed.

Lemma parse_hh_mm_ss (h mi s : Z) :
  0 <= h < 100 -> 0 <= mi < 100 -> 0 <= s < 100 ->
  Reference.parse_hh_mm_ss_ff (fmt2 h ++ ":" ++ fmt2 mi ++ ":" ++ fmt2 s)
  = Some (h, mi, s, 0).
Proof.
  intros Hh Hmi Hs. unfold Reference.parse_hh_mm_ss_ff.
  rewrite parse_digits_fmt2 by assumption. cbn [append].
  rewrite parse_digits_fmt2 by assumption. cbn [append].
  rewrite parse_digits_fmt2_end by assumption. reflexivity.
Qed.

Lemma parse_hh_mm (h mi : Z) :
  0 <= h < 100 -> 0 <= mi < 100 ->
  Reference.parse_hh_mm_ss_ff (fmt2 h ++ ":" ++ fmt2 mi) = Some (h, mi, 0, 0).
Proof.
  intros Hh Hmi. unfold Reference.parse_hh_mm_ss_ff.
  rewrite parse_digits_fmt2 by assumption. cbn [append].
  rewrite parse_digits_fmt2_end by assumption. reflexivity.
Qed.

Lemma parse_time_with_offset (h mi s : Z) (negative : bool) (oh om : Z) :
  0 <= h < 100 -> 0 <= mi < 100 -> 0 <= s < 100 ->
  0 <= oh < 24 -> 0 <= om < 60 ->
  Reference.parse_isoformat_time
    ((fmt2 h ++ ":" ++ fmt2 mi ++ ":" ++ fmt2 s)
     ++ String (sign_char negative) (fmt2 oh ++ ":" ++ fmt2 om))
  = Some (h, mi, s, 0, Some (offset_usec negative oh om)).
Proof.
  intros Hh Hmi Hs Hoh Hom. unfold Reference.parse_isoformat_time.
  rewrite split_tz_app.
  - rewrite parse_hh_mm_ss by assumption.
    unfold Reference.parse_tz.
    replace (String.length (fmt2 oh ++ ":" ++ fmt2 om)) with 5%nat
      by reflexivity.
    cbn [Nat.eqb orb].
    rewrite parse_hh_mm by lia.
    fold (offset_usec negative oh om).
    assert (Hlt : (Z.abs (offset_usec negative oh om) <? Reference.usec_per_day) = true).
    { apply Z.ltb_lt. unfold offset_usec, Reference.usec_per_day.
      destruct negative; lia. }
    rewrite Hlt. reflexivity.
  - rewrite !contains_char_app. cbn [contains_char].
    rewrite !contains_char_fmt2 by (right; left; reflexivity). reflexivity.
  - rewrite !contains_char_app. cbn [contains_char].
    rewrite !contains_char_fmt2 by (right; right; reflexivity). reflexivity.
Qed.

(** Reading an [aware_timestamp] gives its fields back. *)
Lemma parse_aware_timestamp (y mo d h mi s : Z) (negative : bool) (oh om : Z) :
  valid_fields y mo d h mi s 0 = true ->
  0 <= oh < 24 -> 0 <= om < 60 ->
  Reference.fromisoformat (aware_timestamp y mo d h mi s negative oh om)
  = Some (mkDatetime y mo d h mi s 0 (Some (offset_usec negative oh om))).
Proof.
  intros Hv Hoh Hom.
  pose proof (valid_fields_bounds _ _ _ _ _ _ _ Hv) as Hb.
  unfold aware_timestamp, Reference.fromisoformat,
    Reference.parse_isoformat_date.
  rewrite parse_digits_fmt4 by lia. cbn [append].
  rewrite parse_digits_fmt2 by lia. cbn [append].
  rewrite parse_digits_fmt2 by lia.
  change (Reference.skip_separator (String "T" ?x)) with x.
  change (fmt2 h ++ String ":" (fmt2 mi ++ String ":" (fmt2 s ++
            String (sign_char negative) (fmt2 oh ++ String ":" (fmt2 om)))))
    with ((fmt2 h ++ ":" ++ fmt2 mi ++ ":" ++ fmt2 s)
          ++ String (sign_char negative) (fmt2 oh ++ ":" ++ fmt2 om)).
  rewrite parse_time_with_offset by lia.
  rewrite Hv. reflexivity.
Qed.

Lemma reference_fromisoformat_isoformat :
  forall (y mo d h mi s : Z) (negative : bool) (oh om : Z),
    valid_fields y mo d h mi s 0 = true ->
    0 <= oh < 24 -> 0 <= om < 60 ->
    fromisoformat reference (aware_timestamp y mo d h mi s negative oh om)
    = Ok (mkDatetime y mo d h mi s 0 (Some (offset_usec negative oh om))).
Proof.
  intros y mo d h mi s negative oh om Hv Hoh Hom.
  unfold fromisoformat. cbn [py_fromisoformat reference].
  rewrite (parse_aware_timestamp y mo d h mi s negative oh om Hv Hoh Hom).
  reflexivity.
Qed.

(** ** The store *)

Lemma reference_matches_string_key (r a : string) (doc : dict) :
  Reference.matches (key_query (VStr r, VStr a)) doc = true
  <-> dedup_key doc = (VStr r, VStr a).
Proof.
  unfold Reference.matches, key_query, dedup_key.
  cbn [forallb fst snd Reference.matches_value].
  rewrite andb_true_r, andb_true_iff, !value_eqb_eq. split.
  - intros [-> ->]. reflexivity.
  - intros H. injection H as -> ->. split; reflexivity.
Qed.

Lemma reference_find_one_string_key :
  forall (c : collection) (r a : string),
    Forall string_keyed c ->
    exists found,
      find_one reference c (key_query (VStr r, VStr a)) = Ok found
      /\ (found = None <-> ~ In (VStr r, VStr a) (map dedup_key c)).
Proof.
  intros c r a _.
  exists (List.find (Reference.matches (key_query (VStr r, VStr a))) c).
  split; [reflexivity|]. split.
  - intros Hnone Hin. apply in_map_iff in Hin.
    destruct Hin as (doc & Hk & Hin).
    pose proof (find_none _ _ Hnone doc Hin) as Hm.
    apply reference_matches_string_key in Hk. congruence.
  - intros Hnin.
    destruct (find (Reference.matches (key_query (VStr r, VStr a))) c)
      as [doc|] eqn:Hf; [|reflexivity].
    exfalso. apply find_some in Hf. destruct Hf as [Hin Hm].
    apply reference_matches_string_key in Hm. apply Hnin. apply in_map_iff.
    exists doc. split; assumption.
Qed.

Lemma reference_insert_one_plain :
  forall (c : collection) (doc : dict),
    plain_record doc -> insert_one reference c doc = Ok (c ++ [doc])%list.
Proof. intros c doc _. reflexivity. Qed.

Lemma string_leb_trans (a b c : string) :
  String.leb a b = true -> String.leb b c = true -> String.leb a c = true.
Proof.
  unfold String.leb. revert b c.
  induction a as [|x a IH]; intros [|y b] [|z c]; cbn [String.compare];
    try reflexivity; try discriminate.
  unfold Ascii.compare.
  destruct (N.compare_spec (N_of_ascii x) (N_of_ascii y)) as [Hxy|Hxy|Hxy];
    destruct (N.compare_spec (N_of_ascii y) (N_of_ascii z)) as [Hyz|Hyz|Hyz];
    destruct (N.compare_spec (N_of_ascii x) (N_of_ascii z)) as [Hxz|Hxz|Hxz];
    try reflexivity; try discriminate; try lia.
  apply IH.
Qed.

Lemma reference_leb_total (a b : value) :
  Reference.leb a b = true \/ Reference.leb b a = true.
Proof.
  unfold Reference.leb.
  destruct (Z.ltb_spec (Reference.bracket a) (Reference.bracket b)); [left; reflexivity|].
  destruct (Z.ltb_spec (Reference.bracket b) (Reference.bracket a)); [right; reflexivity|].
  destruct a as [|x|x|x|x|x], b as [|y|y|y|y|y]; cbn in *; try lia;
    try (left; reflexivity).
  - destruct x, y; cbn; auto.
  - apply String.leb_total.
Qed.

Lemma reference_leb_trans (a b c : value) :
  Reference.leb a b = true -> Reference.leb b c = true -> Reference.leb a c = true.
Proof.
  unfold Reference.leb.
  destruct (Z.ltb_spec (Reference.bracket a) (Reference.bracket b));
    destruct (Z.ltb_spec (Reference.bracket b) (Reference.bracket c));
    destruct (Z.ltb_spec (Reference.bracket a) (Reference.bracket c)); try reflexivity; try lia;
    destruct (Z.ltb_spec (Reference.bracket b) (Reference.bracket a)); try discriminate;
    destruct (Z.ltb_spec (Reference.bracket c) (Reference.bracket b)); try discriminate;
    destruct (Z.ltb_spec (Reference.bracket c) (Reference.bracket a)); try lia.
  destruct a as [|x|x|x|x|x], b as [|y|y|y|y|y], c as [|z|z|z|z|z];
    cbn in *; try lia; try reflexivity.
  - destruct x, y, z; cbn; auto.
  - apply string_leb_trans.
Qed.

Section sorting_facts.
Variable key : string.

Lemma reference_sorts_before_trans (a b c : dict) :
  Reference.sorts_before key a b -> Reference.sorts_before key b c -> Reference.sorts_before key a c.
Proof.
  unfold Reference.sorts_before. intros Hab Hbc.
  exact (reference_leb_trans _ _ _ Hbc Hab).
Qed.

Lemma insert_desc_perm (doc : dict) (l : collection) :
  Permutation (doc :: l) (Reference.insert_desc key doc l).
Proof.
  induction l as [|d l IH]; cbn [Reference.insert_desc]; [reflexivity|].
  destruct (Reference.leb (field d key) (field doc key)); [reflexivity|].
  rewrite perm_swap. constructor. exact IH.
Qed.

Lemma sort_descending_perm (c : collection) :
  Permutation c (Reference.sort_descending key c).
Proof.
  induction c as [|doc c IH]; cbn [Reference.sort_descending]; [reflexivity|].
  rewrite <- insert_desc_perm. constructor. exact IH.
Qed.

Lemma insert_desc_sorted (doc : dict) (l : collection) :
  StronglySorted (Reference.sorts_before key) l ->
  StronglySorted (Reference.sorts_before key) (Reference.insert_desc key doc l).
Proof.
  induction l as [|d l IH]; intros Hs; cbn [Reference.insert_desc].
  - repeat constructor.
  - apply StronglySorted_inv in Hs. destruct Hs as [Hs Hd].
    destruct (Reference.leb (field d key) (field doc key)) eqn:Hle.
    + constructor; [constructor; assumption|].
      constructor; [exact Hle|].
      eapply Forall_impl; [|exact Hd].
      intros x Hx. exact (reference_sorts_before_trans doc d x Hle Hx).
    + constructor; [apply IH; exact Hs|].
      apply (Permutation_Forall (insert_desc_perm doc l)).
      constructor; [|exact Hd].
      unfold Reference.sorts_before.
      destruct (reference_leb_total (field d key) (field doc key));
        congruence.
Qed.

Lemma sort_descending_sorted (c : collection) :
  StronglySorted (Reference.sorts_before key) (Reference.sort_descending key c).
Proof.
  induction c as [|doc c IH]; cbn [Reference.sort_descending]; [constructor|].
  apply insert_desc_sorted. exact IH.
Qed.
End sorting_facts.

Lemma reference_sort_descending_permutation :
  forall (key : string) (c : collection),
    Permutation c (sort_descending reference key c).
Proof. intros key c. apply sort_descending_perm. Qed.

Lemma reference_sort_descending_strings :
  forall (key : string) (c : collection),
    StronglySorted (ge key) (sort_descending reference key c).
Proof.
  intros key c.
  apply (StronglySorted_impl (Reference.sorts_before key)); [|apply sort_descending_sorted].
  intros a b Hab sa sb Ea Eb. unfold Reference.sorts_before in Hab.
  rewrite Ea, Eb in Hab. exact Hab.
Qed.

(** * The properties at work on the reference platform *)

(** ** The scenarios of the specification *)

Example scenario_push :
  github_webhook reference [] (Some "push") push_payload
    = (Ok success, [push_record])
  /\ format_event reference push_record
     = Ok "alice pushed to main on 01 March 2024 - 10:15 AM UTC".
Proof. split; reflexivity. Qed.

Example scenario_opened :
  get_events reference
    (snd (github_webhook reference [] (Some "pull_request") opened_payload))
  = Ok ["bob submitted a pull request from feature-x to main on 02 March 2024 - 08:00 AM UTC"].
Proof. reflexivity. Qed.

(** ** The formatter *)

Lemma format_event_missing_timestamp_witness :
  format_event reference [("author", VStr "alice"); ("action", VStr "PUSH")]
    = Ok "Event with missing timestamp"
  /\ format_event reference
       [("author", VStr "alice"); ("action", VStr "PUSH");
        ("timestamp", VStr "")]
    = Ok "Event with missing timestamp".
Proof.
  split.
  - apply (format_event_missing_timestamp reference _
             (VStr "alice") (VStr "PUSH"));
      [reflexivity | reflexivity | left; reflexivity].
  - apply (format_event_missing_timestamp reference _
             (VStr "alice") (VStr "PUSH"));
      [reflexivity | reflexivity | right; left; reflexivity].
Defined.

Lemma format_event_numeric_timestamp_raises_witness :
  github_webhook reference [] (Some "push") numeric_timestamp_payload
    = (Ok success, [numeric_timestamp_record])
  /\ format_event reference numeric_timestamp_record = Raise AttributeError
  /\ get_events reference [numeric_timestamp_record] = Raise AttributeError.
Proof.
  exact (format_event_numeric_timestamp_raises reference
           reference_find_one_string_key reference_insert_one_plain
           reference_sort_descending_permutation).
Defined.

(** ** The normalizer *)

Lemma closed_pull_request_normalization_witness :
  github_webhook reference [push_record] (Some "pull_request")
    (VDict (closed_payload [("id", VInt 42); ("merged", VBool false)]))
  = (Ok success, [push_record])
  /\ exists author,
       merged_author merged_pull_request author
       /\ normalize_event reference (Some "pull_request")
            (VDict (closed_payload merged_pull_request))
          = Ok (Continue (VDict
              (merge_doc reference (VInt 42) author (VStr "feature-x")
                 (VStr "main") (VStr "2024-03-03T09:30:00Z")))).
Proof.
  split.
  - apply (proj1 (closed_pull_request_normalization reference
             (closed_payload [("id", VInt 42); ("merged", VBool false)])
             [("id", VInt 42); ("merged", VBool false)] [push_record]
             eq_refl eq_refl)).
    reflexivity.
  - apply (proj2 (proj1 (proj2 (closed_pull_request_normalization reference
             (closed_payload merged_pull_request) merged_pull_request []
             eq_refl eq_refl)) eq_refl)
           (VInt 42) [("ref", VStr "feature-x")] (VStr "feature-x")
           [("ref", VStr "main")] (VStr "main")
           (VStr "2024-03-03T09:30:00Z"));
      try reflexivity.
    right. exists [("login", VStr "carol")]. reflexivity.
Defined.

Lemma merged_by_unknown_default_witness :
  normalize_event reference (Some "pull_request")
    (VDict (closed_payload null_merged_by_pull_request))
  = Raise AttributeError.
Proof.
  apply (proj2 (proj2 (proj2
           (proj2 (merged_by_unknown_default reference
                     (closed_payload null_merged_by_pull_request)
                     null_merged_by_pull_request [] eq_refl eq_refl eq_refl)
              (VInt 42) [("ref", VStr "feature-x")] (VStr "feature-x")
              [("ref", VStr "main")] (VStr "main")
              (VStr "2024-03-03T09:30:00Z")
              eq_refl eq_refl eq_refl eq_refl eq_refl eq_refl)))
         VNone eq_refl).
  intros m. discriminate.
Defined.

Lemma missing_required_field_raises_witness :
  (exists e,
     github_webhook reference [push_record] (Some "push")
       (VDict no_pusher_payload)
     = (Raise e, [push_record]))
  /\ github_webhook reference [push_record] (Some "push")
       (VDict no_pusher_payload)
     = (Raise KeyError, [push_record]).
Proof.
  split.
  - apply (proj1 (missing_required_field_raises reference no_pusher_payload
                    [push_record])); reflexivity.
  - reflexivity.
Defined.

Lemma push_normalization_witness :
  normalize_event reference (Some "push") push_payload
    = Ok (Continue (VDict push_record))
  /\ github_webhook reference [push_record] (Some "push")
       (VDict [("ref", VStr "refs/heads/gone"); ("head_commit", VNone)])
     = (Ok ignored, [push_record]).
Proof.
  split.
  - apply (proj1 (proj2 (proj2 (proj2
      (push_normalization reference
         [ ("ref", VStr "refs/heads/main"); ("after", VStr "abc123");
           ("pusher", VDict [("name", VStr "alice")]);
           ("head_commit",
            VDict [("timestamp", VStr "2024-03-01T10:15:00Z")]) ] []))))
      [("name", VStr "alice")] (VStr "alice") "refs/heads/main" (VStr "abc123")
      [("timestamp", VStr "2024-03-01T10:15:00Z")]
      (VStr "2024-03-01T10:15:00Z")); reflexivity.
  - apply (proj1 (proj2 (push_normalization reference
      [("ref", VStr "refs/heads/gone"); ("head_commit", VNone)]
      [push_record]))). reflexivity.
Defined.

(** ** The duplicate check *)

(** The reference store reads [{"$ne": null}] as the operator: the filter
    built for [ne_null_record] finds the stored push, the record is
    dropped, and no record with its pair is stored. *)
Lemma duplicate_check_drops_unstored_record_witness :
  find_one reference [push_record] (key_query (dedup_key ne_null_record))
    = Ok (Some push_record)
  /\ github_webhook reference [push_record] (Some "push") ne_null_payload
     = (Ok success, [push_record])
  /\ count_key (dedup_key ne_null_record)
       (deliver_all reference
          [(Some "push", ne_null_payload); (Some "push", ne_null_payload)]
          [push_record])
     = 0%nat.
Proof.
  split; [reflexivity|].
  pose proof (duplicate_check_drops_unstored_record reference
                (ex_intro _ push_record eq_refl)) as H.
  split; [exact (proj1 (proj2 (proj2 H)))|].
  exact (proj2 (proj2 (proj2 (proj2 H)))).
Defined.

(** ** Timestamps *)

Lemma timestamp_rendering_witness :
  exists before,
    format_event reference push_record
    = Ok (before ++ "01 March 2024 - 10:15 AM UTC").
Proof.
  apply (proj2 (proj2 (proj2
    (timestamp_rendering reference reference_fromisoformat_fields
       reference_fromisoformat_isoformat push_record (VStr "alice")
       (VStr "PUSH") "2024-03-01T10:15:00Z" eq_refl eq_refl eq_refl
       ltac:(discriminate))))).
  - reflexivity.
  - left. reflexivity.
Defined.

(** C5 as stated fails.  With only the trailing ['Z'] read as ["+00:00"]
    the timestamp ["2024-03-01Z10:15:00Z"] is read and rendered, but the
    code replaces both, [fromisoformat] raises and the error path is
    taken.  And the year is not always shown in four digits: the year 999
    is shown as [999]. *)
Lemma trailing_Z_only_fails :
  trailing_Z_as_utc "2024-03-01Z10:15:00Z" = "2024-03-01Z10:15:00+00:00"
  /\ fromisoformat reference (trailing_Z_as_utc "2024-03-01Z10:15:00Z")
     = Ok (mkDatetime 2024 3 1 10 15 0 0 (Some 0))
  /\ strftime (mkDatetime 2024 3 1 10 15 0 0 (Some 0))
     = "01 March 2024 - 10:15 AM UTC"
  /\ str_replace "Z" "+00:00" "2024-03-01Z10:15:00Z"
     = "2024-03-01+00:0010:15:00+00:00"
  /\ fromisoformat reference
       (str_replace "Z" "+00:00" "2024-03-01Z10:15:00Z")
     = Raise ValueError
  /\ format_event reference z_separator_record
     = Ok "Could not display event due to a data error: abc123"
  /\ format_event reference year_999_record
     = Ok "alice pushed to main on 01 March 999 - 10:15 AM UTC".
Proof. repeat split; reflexivity. Qed.

Lemma nonzero_offset_wall_clock_witness :
  (exists text,
     format_event reference offset_push_record
     = Ok (sentence reference (VStr "alice") (VStr "PUSH") (VStr "")
             (VStr "main") text)
     /\ shows_wall_clock 2024 3 1 10 15 text)
  /\ format_event reference offset_push_record
     = Ok "alice pushed to main on 01 March 2024 - 10:15 AM UTC"
  /\ format_event reference evening_offset_record
     = Ok "alice pushed to main on 01 March 2024 - 10:15 PM UTC"
  /\ format_event reference midnight_offset_record
     = Ok "alice pushed to main on 01 March 2024 - 12:05 AM UTC".
Proof.
  split; [|repeat split; reflexivity].
  apply (proj1 (proj2
    (nonzero_offset_wall_clock reference reference_fromisoformat_fields
       reference_fromisoformat_empty reference_fromisoformat_isoformat
       offset_push_record (VStr "alice") (VStr "PUSH")
       "2024-03-01T10:15:00+05:30" eq_refl eq_refl eq_refl))
    2024 3 1 10 15 0 false 5 30);
    [reflexivity | lia | lia | discriminate | reflexivity].
Defined.

(** ** The query *)

Lemma get_events_ordered_witness :
  Forall2 (fun r s => format_event reference r = Ok s)
    (events_from_db reference [push_record; push_record_3; push_record_2])
    ["carol pushed to main on 02 March 2024 - 07:30 AM UTC";
     "alice pushed to main on 01 March 2024 - 10:15 AM UTC";
     "bob pushed to dev on 01 March 2024 - 10:15 AM UTC"]
  /\ (3 <= 10)%nat
  /\ 3%nat = Nat.min 10 3
  /\ exists rest : list dict,
       Permutation [push_record; push_record_3; push_record_2]
         (events_from_db reference [push_record; push_record_3; push_record_2]
          ++ rest)
       /\ forall suffix,
            StronglySorted (no_older suffix)
              (events_from_db reference
                 [push_record; push_record_3; push_record_2])
            /\ Forall (fun r => Forall (no_older suffix r) rest)
                 (events_from_db reference
                    [push_record; push_record_3; push_record_2]).
Proof.
  apply (get_events_ordered reference reference_sort_descending_permutation
           reference_sort_descending_strings
           [push_record; push_record_3; push_record_2]).
  reflexivity.
Defined.

(** C6 as stated fails: two pushes of different commits with the same
    timestamp are both stored and both returned, so the sequence returned
    is not strictly descending. *)
Lemma get_events_not_strictly_ordered :
  deliver_all reference
    [(Some "push", push_payload); (Some "push", push_payload_2)] []
    = [push_record; push_record_2]
  /\ events_from_db reference [push_record; push_record_2]
     = [push_record; push_record_2]
  /\ get_events reference [push_record; push_record_2]
     = Ok ["alice pushed to main on 01 March 2024 - 10:15 AM UTC";
           "bob pushed to dev on 01 March 2024 - 10:15 AM UTC"]
  /\ field push_record "timestamp" = field push_record_2 "timestamp"
  /\ ~ StronglySorted (gt "timestamp")
         (events_from_db reference [push_record; push_record_2]).
Proof.
  repeat split; try reflexivity.
  intros Hs.
  change (events_from_db reference [push_record; push_record_2])
    with [push_record; push_record_2] in Hs.
  apply StronglySorted_inv in Hs. destruct Hs as [_ Hs].
  inversion Hs as [|? ? Hgt _].
  destruct Hgt as (sa & sb & Ea & Eb & Hlt).
  cbv in Ea, Eb. injection Ea as <-. injection Eb as <-.
  discriminate Hlt.
Qed.

(** ** The further properties *)

Lemma opened_pull_request_normalization_witness :
  normalize_event reference (Some "pull_request") opened_payload
  = Ok (Continue (VDict
      [ ("request_id", VStr "42");
        ("author", VStr "bob");
        ("action", VStr "PULL_REQUEST");
        ("from_branch", VStr "feature-x");
        ("to_branch", VStr "main");
        ("timestamp", VStr "2024-03-02T08:00:00+00:00") ])).
Proof.
  apply (proj2 (opened_pull_request_normalization reference
           [ ("action", VStr "opened");
             ("pull_request",
              VDict [ ("id", VInt 42);
                      ("user", VDict [("login", VStr "bob")]);
                      ("head", VDict [("ref", VStr "feature-x")]);
                      ("base", VDict [("ref", VStr "main")]);
                      ("created_at", VStr "2024-03-02T08:00:00+00:00") ]) ]
           eq_refl)
         [ ("id", VInt 42);
           ("user", VDict [("login", VStr "bob")]);
           ("head", VDict [("ref", VStr "feature-x")]);
           ("base", VDict [("ref", VStr "main")]);
           ("created_at", VStr "2024-03-02T08:00:00+00:00") ]
         (VInt 42) [("login", VStr "bob")] (VStr "bob")
         [("ref", VStr "feature-x")] (VStr "feature-x")
         [("ref", VStr "main")] (VStr "main")
         (VStr "2024-03-02T08:00:00+00:00")); reflexivity.
Defined.

Lemma unactionable_event_is_ignored_witness :
  github_webhook reference [push_record] (Some "issues") (VList [])
    = (Ok success, [push_record])
  /\ github_webhook reference [push_record] None VNone
     = (Ok success, [push_record])
  /\ github_webhook reference [push_record] (Some "pull_request")
       (VDict [("action", VStr "labeled"); ("pull_request", VNone)])
     = (Ok success, [push_record]).
Proof.
  split; [|split].
  - apply (proj1 (unactionable_event_is_ignored reference [push_record]
                    (Some "issues") (VList []) [])); reflexivity.
  - apply (proj1 (unactionable_event_is_ignored reference [push_record]
                    None VNone [])); reflexivity.
  - apply (proj2 (unactionable_event_is_ignored reference [push_record]
                    None VNone
                    [("action", VStr "labeled"); ("pull_request", VNone)]));
      reflexivity.
Defined.

Lemma non_mapping_payload_raises_witness :
  github_webhook reference [push_record] (Some "push") (VList [VStr "x"])
    = (Raise AttributeError, [push_record])
  /\ github_webhook reference [push_record] (Some "pull_request")
       (VDict [("action", VStr "opened"); ("pull_request", VNone)])
     = (Raise TypeError, [push_record]).
Proof.
  split.
  - apply (proj1 (non_mapping_payload_raises reference [push_record]
                    (VList [VStr "x"]) [])).
    intros m. discriminate.
  - apply (proj2 (non_mapping_payload_raises reference [push_record] VNone
                    [("action", VStr "opened"); ("pull_request", VNone)])).
    + intros m. discriminate.
    + reflexivity.
Defined.

Lemma format_event_missing_key_witness :
  format_event reference
    [("request_id", VInt 7); ("action", VStr "PUSH"); ("timestamp", VInt 5)]
    = Ok "Could not display event due to a data error: 7"
  /\ format_event reference [("author", VStr "alice")]
     = Ok "Could not display event due to a data error: Unknown ID".
Proof.
  split.
  - apply (format_event_missing_key reference
             [("request_id", VInt 7); ("action", VStr "PUSH");
              ("timestamp", VInt 5)]).
    left. reflexivity.
  - apply (format_event_missing_key reference [("author", VStr "alice")]).
    right. reflexivity.
Defined.

Lemma format_event_sentences_witness :
  format_event reference
    [("author", VStr "alice"); ("action", VStr "push");
     ("to_branch", VStr "main");
     ("timestamp", VStr "2024-03-01T10:15:00Z")]
  = Ok "Unknown action: push by alice"
  /\ format_event reference
       [("author", VStr "carol"); ("action", VStr "MERGE");
        ("from_branch", VStr "feature-x"); ("to_branch", VStr "main");
        ("timestamp", VStr "0999-12-31T23:59:00Z")]
     = Ok "carol merged branch feature-x to main on 31 December 999 - 11:59 PM UTC".
Proof.
  split.
  - apply (proj2 (proj2 (proj2
      (format_event_sentences reference reference_fromisoformat_empty
         [("author", VStr "alice"); ("action", VStr "push");
          ("to_branch", VStr "main");
          ("timestamp", VStr "2024-03-01T10:15:00Z")]
         (VStr "alice") (VStr "push") "2024-03-01T10:15:00Z"
         (mkDatetime 2024 3 1 10 15 0 0 (Some 0%Z))%Z
         eq_refl eq_refl eq_refl eq_refl)))); discriminate.
  - apply (proj1 (proj2 (proj2
      (format_event_sentences reference reference_fromisoformat_empty
         [("author", VStr "carol"); ("action", VStr "MERGE");
          ("from_branch", VStr "feature-x"); ("to_branch", VStr "main");
          ("timestamp", VStr "0999-12-31T23:59:00Z")]
         (VStr "carol") (VStr "MERGE") "0999-12-31T23:59:00Z"
         (mkDatetime 999 12 31 23 59 0 0 (Some 0%Z))%Z
         eq_refl eq_refl eq_refl eq_refl)))). reflexivity.
Defined.

Lemma Z_and_utc_offset_agree_witness :
  format_event reference push_record
  = format_event reference
      [ ("request_id", VStr "abc123");
        ("author", VStr "alice");
        ("action", VStr "PUSH");
        ("from_branch", VStr "");
        ("to_branch", VStr "main");
        ("timestamp", VStr "2024-03-01T10:15:00+00:00") ].
Proof.
  apply (Z_and_utc_offset_agree reference push_record _ "2024-03-01T10:15:00");
    try reflexivity.
  intros k Hk. cbn [lookup push_record].
  repeat (destruct (_ =? k)%string; [reflexivity|]).
  destruct (String.eqb_spec "timestamp" k) as [E|E]; [|reflexivity].
  exfalso. apply Hk. symmetry. exact E.
Defined.

Lemma push_record_string_keyed : Forall string_keyed [push_record].
Proof.
  constructor; [|constructor]. exists "abc123", "PUSH". split; reflexivity.
Qed.

Lemma push_payload_string_keyed :
  string_keyed_delivery reference (Some "push", push_payload).
Proof.
  intros doc Hn. cbn [fst snd] in Hn.
  change (normalize_event reference (Some "push") push_payload)
    with (Ok (A := flow) (Continue (VDict push_record))) in Hn.
  injection Hn as <-. exists "abc123", "PUSH". split; reflexivity.
Qed.

Lemma github_webhook_idempotent_witness :
  github_webhook reference
    (snd (github_webhook reference [] (Some "push") push_payload))
    (Some "push") push_payload
  = github_webhook reference [] (Some "push") push_payload
  /\ github_webhook reference [push_record] (Some "push") push_payload
     = (Ok success, [push_record]).
Proof.
  split; [|reflexivity].
  apply (github_webhook_idempotent reference reference_find_one_string_key
           [] (Some "push") push_payload).
  - constructor.
  - exact push_payload_string_keyed.
Defined.

Lemma push_target_branch_witness :
  normalize_event reference (Some "push")
    (VDict [ ("ref", VStr "refs/heads/feature/login");
             ("after", VStr "abc123");
             ("pusher", VDict [("name", VStr "alice")]);
             ("head_commit",
              VDict [("timestamp", VStr "2024-03-01T10:15:00Z")]) ])
  = Ok (Continue (VDict
      [ ("request_id", VStr "abc123");
        ("author", VStr "alice");
        ("action", VStr "PUSH");
        ("from_branch", VStr "");
        ("to_branch", VStr "login");
        ("timestamp", VStr "2024-03-01T10:15:00Z") ])).
Proof.
  apply (push_target_branch reference _ [("name", VStr "alice")]
           [("timestamp", VStr "2024-03-01T10:15:00Z")]
           (VStr "alice") (VStr "abc123") (VStr "2024-03-01T10:15:00Z")
           "refs/heads/feature/login" "refs/heads/feature" "login");
    try reflexivity.
  left. reflexivity.
Defined.

Lemma push_then_query_witness :
  get_events reference
    (snd (github_webhook reference [] (Some "push") push_payload))
  = Ok ["alice pushed to main on 01 March 2024 - 10:15 AM UTC"].
Proof.
  apply (push_then_query reference reference_fromisoformat_empty
           reference_find_one_string_key
           reference_sort_descending_permutation
           [ ("ref", VStr "refs/heads/main"); ("after", VStr "abc123");
             ("pusher", VDict [("name", VStr "alice")]);
             ("head_commit",
              VDict [("timestamp", VStr "2024-03-01T10:15:00Z")]) ]
           [("name", VStr "alice")]
           [("timestamp", VStr "2024-03-01T10:15:00Z")]
           (VStr "alice") "abc123" "refs/heads/main"
           "2024-03-01T10:15:00Z"
           (mkDatetime 2024 3 1 10 15 0 0 (Some 0%Z))%Z); reflexivity.
Defined.

Lemma different_actions_both_stored_witness :
  deliver_all reference
    [ (Some "pull_request", opened_payload);
      (Some "pull_request", VDict (closed_payload merged_pull_request)) ] []
  = [ opened_doc reference (VInt 42) (VStr "bob") (VStr "feature-x")
        (VStr "main") (VStr "2024-03-02T08:00:00+00:00");
      merge_doc reference (VInt 42) (VStr "carol") (VStr "feature-x")
        (VStr "main") (VStr "2024-03-03T09:30:00Z") ].
Proof.
  apply (different_actions_both_stored reference
           reference_find_one_string_key [] (Some "pull_request")
           (Some "pull_request") opened_payload
           (VDict (closed_payload merged_pull_request))
           (opened_doc reference (VInt 42) (VStr "bob") (VStr "feature-x")
              (VStr "main") (VStr "2024-03-02T08:00:00+00:00"))
           (merge_doc reference (VInt 42) (VStr "carol") (VStr "feature-x")
              (VStr "main") (VStr "2024-03-03T09:30:00Z")));
    try reflexivity; try discriminate; try (intros []); try constructor.
  - exists "42", "PULL_REQUEST". split; reflexivity.
  - exists "42", "MERGE". split; reflexivity.
Defined.

Lemma get_events_total_on_string_timestamps_witness :
  exists l,
    get_events reference
      [push_record; z_separator_record; [("author", VStr "x")]] = Ok l
    /\ List.length l = Nat.min 10 3.
Proof.
  apply (get_events_total_on_string_timestamps reference
           reference_sort_descending_permutation
           [push_record; z_separator_record; [("author", VStr "x")]]).
  intros doc v [<- | [<- | [<- | []]]] Hv _;
    cbn in Hv; try discriminate Hv; injection Hv as <-; eauto.
Defined.

Lemma query_order_is_calendar_order_witness :
  events_from_db reference
    [ [("timestamp", VStr "2024-03-01T10:15:00Z")];
      [("timestamp", VStr "2024-11-20T08:00:00Z")] ]
  = [ [("timestamp", VStr "2024-11-20T08:00:00Z")];
      [("timestamp", VStr "2024-03-01T10:15:00Z")] ].
Proof.
  apply (proj1 (proj2 (query_order_is_calendar_order reference
                  reference_sort_descending_permutation
                  reference_sort_descending_strings
                  [("timestamp", VStr "2024-03-01T10:15:00Z")]
                  [("timestamp", VStr "2024-11-20T08:00:00Z")]
                  2024 3 1 10 15 0 2024 11 20 8 0 0 "Z"
                  ltac:(unfold printable_fields; lia)
                  ltac:(unfold printable_fields; lia)
                  eq_refl eq_refl))).
  reflexivity.
Defined.

Lemma dedup_string_keys_witness :
  count_key (dedup_key push_record)
    (deliver_all reference
       [(Some "push", push_payload); (Some "push", push_payload)] [])
  = 1%nat
  /\ github_webhook reference [push_record] (Some "push") push_payload
     = (Ok success, [push_record]).
Proof.
  pose proof (dedup_string_keys reference reference_find_one_string_key
                [] (Some "push") push_payload (Forall_nil _) (NoDup_nil _)
                push_payload_string_keyed)
    as (_ & _ & _ & H).
  pose proof (dedup_string_keys reference reference_find_one_string_key
                [push_record] (Some "push") push_payload
                push_record_string_keyed
                ltac:(repeat constructor; intros [])
                push_payload_string_keyed)
    as (_ & _ & _ & H').
  split.
  - exact (proj2 (proj2 (proj2 (H push_record eq_refl) eq_refl)
                    (Some "push") push_payload push_record eq_refl eq_refl)).
  - apply (proj1 (H' push_record eq_refl)). left. reflexivity.
Defined.
